(** * AutoTokenizer: class resolution for tokenizers

    A shallow embedding of [paddlenlp/transformers/auto/tokenizer.py]:
    the static architecture table, [get_mapping_tokenizers],
    [get_configurations], [tokenizer_class_from_name],
    [get_tokenizer_config], and the three methods of [AutoTokenizer]
    ([_get_tokenizer_class_from_config], [from_pretrained], [register]).

    Python values are a tagged union [PyVal]; exceptions are an error type;
    the mutable registry ([TOKENIZER_MAPPING._extra_content]) and the calls
    made to collaborators (file resolution, file reads, [AutoConfig], the
    logger, [print]) are threaded through a small state-and-error monad. *)

From Stdlib Require Import String Ascii List Bool ZArith Lia.
Import ListNotations.
Local Open Scope list_scope.
Local Open Scope string_scope.

Set Implicit Arguments.
Set Warnings "-register-all".

(** ** Strings as Python uses them here *)

Module PyStr.

(** [s.endswith(suffix)] *)
Fixpoint endswith (s suffix : string) : bool :=
  if String.eqb s suffix then true
  else match s with
       | EmptyString => false
       | String _ s' => endswith s' suffix
       end.

(** [sub in s] on strings *)
Fixpoint contains (sub s : string) : bool :=
  if String.prefix sub s then true
  else match s with
       | EmptyString => false
       | String _ s' => contains sub s'
       end.

Definition lower_ascii (c : ascii) : ascii :=
  let n := nat_of_ascii c in
  if andb (Nat.leb 65 n) (Nat.leb n 90) then ascii_of_nat (n + 32) else c.

(** Lower-casing of the ASCII letters: what [str.lower] does on a string of
    ASCII characters.  The sample installations, whose identifiers are
    ASCII, use it. *)
Fixpoint lower (s : string) : string :=
  match s with
  | EmptyString => EmptyString
  | String c s' => String (lower_ascii c) (lower s')
  end.

(** The line feed of the multi-line messages. *)
Definition nl : string := String (ascii_of_nat 10) EmptyString.

(** [x in l] for a list of strings. *)
Definition mem (x : string) (l : list string) : bool :=
  existsb (String.eqb x) l.

(** The proposition behind [contains]: [sub] occurs inside [s]. *)
Definition occurs (sub s : string) : Prop :=
  exists pre post, s = pre ++ sub ++ post.

End PyStr.

(** ** Python values *)

(** A tokenizer class object.  [is_slow] is
    [issubclass(_, PretrainedTokenizer)], [is_fast] is
    [issubclass(_, PretrainedTokenizerFast)]; [slow_tokenizer_class] is the
    class attribute of that name ([None] when unset);
    [pretrained_init_configuration] keeps the keys of that dictionary. *)
Inductive TokClass : Type :=
  MkTokClass {
      cls_module : string;
      cls_name : string;                       (* __name__ *)
      is_slow : bool;
      is_fast : bool;
      slow_tokenizer_class : option TokClass;
      pretrained_init_configuration : list string
    }.

(** The type of a model configuration ([type(config)]). *)
Record ConfigType : Type :=
  MkConfigType { cfg_module : string; cfg_name : string (* __name__ *) }.

(** An instance of [PretrainedConfig]. *)
Record PretrainedConfig : Type :=
  MkConfig { config_type : ConfigType; tokenizer_class : option string }.

Inductive PyVal : Type :=
| VNone
| VBool (b : bool)
| VInt (z : Z)
| VFloat (mantissa exponent : Z)
| VStr (s : string)
| VList (l : list PyVal)
| VTuple (l : list PyVal)
| VDict (kv : list (string * PyVal))
| VClass (c : TokClass)
| VConfig (c : PretrainedConfig).

(** A dictionary in insertion order ([dict], [OrderedDict]), over any key
    type with a decidable equality. *)
Module ODict.
Section WithKey.
Variables K V : Type.
Variable eqb : K -> K -> bool.

Fixpoint get (d : list (K * V)) (k : K) : option V :=
  match d with
  | [] => None
  | (k', v) :: d' => if eqb k k' then Some v else get d' k
  end.

(** [k in d] *)
Definition mem (d : list (K * V)) (k : K) : bool :=
  match get d k with Some _ => true | None => false end.

Fixpoint remove (d : list (K * V)) (k : K) : list (K * V) :=
  match d with
  | [] => []
  | (k', v) :: d' => if eqb k k' then d' else (k', v) :: remove d' k
  end.

(** [d[k] = v]: an existing key keeps its place. *)
Fixpoint set (d : list (K * V)) (k : K) (v : V) : list (K * V) :=
  match d with
  | [] => [(k, v)]
  | (k', v') :: d' =>
      if eqb k k' then (k, v) :: d' else (k', v') :: set d' k v
  end.

(** [d.pop(k, default)]: the value and the dictionary without the key. *)
Definition pop (d : list (K * V)) (k : K) (default : V) : V * list (K * V) :=
  match get d k with
  | Some v => (v, remove d k)
  | None => (default, d)
  end.
End WithKey.
End ODict.

(** Dictionaries with string keys: keyword arguments and JSON objects. *)
Definition PyDict := list (string * PyVal).

Module Dict.
Definition get {V} (d : list (string * V)) (k : string) : option V :=
  ODict.get String.eqb d k.
Definition set {V} (d : list (string * V)) (k : string) (v : V) :=
  ODict.set String.eqb d k v.
Definition pop {V} (d : list (string * V)) (k : string) (default : V) :=
  ODict.pop String.eqb d k default.
(** [d.get(k, default)] *)
Definition get_default {V} (d : list (string * V)) (k : string) (default : V) : V :=
  match get d k with Some v => v | None => default end.
End Dict.

(** [x is None] *)
Definition is_None (v : PyVal) : bool :=
  match v with VNone => true | _ => false end.

(** Truth value of an object in a condition. *)
Definition truthy (v : PyVal) : bool :=
  match v with
  | VNone => false
  | VBool b => b
  | VInt z => negb (Z.eqb z 0)
  | VFloat m _ => negb (Z.eqb m 0)
  | VStr s => negb (String.eqb s "")
  | VList l | VTuple l => match l with [] => false | _ => true end
  | VDict kv => match kv with [] => false | _ => true end
  | VClass _ => true
  | VConfig _ => true
  end.

Fixpoint TokClass_eqb (a b : TokClass) : bool :=
  String.eqb (cls_module a) (cls_module b)
  && String.eqb (cls_name a) (cls_name b)
  && Bool.eqb (is_slow a) (is_slow b)
  && Bool.eqb (is_fast a) (is_fast b)
  && match slow_tokenizer_class a, slow_tokenizer_class b with
     | Some a', Some b' => TokClass_eqb a' b'
     | None, None => true
     | _, _ => false
     end
  && (if list_eq_dec string_dec (pretrained_init_configuration a)
                     (pretrained_init_configuration b) then true else false).

Definition ConfigType_eqb (a b : ConfigType) : bool :=
  String.eqb (cfg_module a) (cfg_module b) && String.eqb (cfg_name a) (cfg_name b).

(** [repr] of a class, as [%s] and f-strings print it. *)
Definition repr_class (c : TokClass) : string :=
  "<class '" ++ cls_module c ++ "." ++ cls_name c ++ "'>".

(** [str(v)] for the values that reach a message of this module. *)
Definition py_str (v : PyVal) : string :=
  match v with
  | VNone => "None"
  | VBool true => "True"
  | VBool false => "False"
  | VStr s => s
  | VClass c => repr_class c
  | _ => "<object>"
  end.

(** ** Exceptions and results *)

Inductive PyError : Type :=
| NotImplementedError (msg : string)
| ValueError (msg : string)
| RuntimeError (msg : string)
| TypeError (msg : string)
| AttributeError (msg : string)
| ModuleNotFoundError (msg : string)
| UnboundLocalError (msg : string)
| AssertionError (msg : string)
| KeyError (msg : string)
| IndexError (msg : string)
| EnvironmentError (msg : string)
| OtherError (kind msg : string).   (* any other exception of a collaborator *)

Inductive Result (A : Type) : Type :=
| Ok (a : A)
| Raise (e : PyError).
Arguments Ok {A} a.
Arguments Raise {A} e.

(** ** The world: registry state and the calls made to collaborators *)

(** The keyword options [get_tokenizer_config] hands to [resolve_file_path]. *)
Record FetchOptions : Type :=
  MkFetchOptions {
      cache_dir : PyVal;
      force_download : PyVal;
      resume_download : PyVal;
      proxies : PyVal;
      token : PyVal;
      revision : PyVal;
      local_files_only : PyVal;
      subfolder : PyVal
    }.

Inductive Event : Type :=
| EvResolveFilePath (identifier filename : string) (opts : FetchOptions)
| EvOpen (path : string)
| EvAutoConfig (identifier : string) (kwargs : PyDict)
| EvLoggerInfo (msg : string)
| EvPrint (msg : string).

(** [_extra_content] is the dictionary of [TOKENIZER_MAPPING] that
    registration writes: configuration type to the pair
    [(slow, fast)].  [trace] lists the collaborator calls, oldest first. *)
Record World : Type :=
  MkWorld {
      _extra_content : list (ConfigType * (PyVal * PyVal));
      trace : list Event
    }.

(** Computations that read and write the world and may raise. *)
Definition Py (A : Type) : Type := World -> Result A * World.

Definition ret {A} (a : A) : Py A := fun w => (Ok a, w).

Definition bind {A B} (c : Py A) (k : A -> Py B) : Py B :=
  fun w =>
    match c w with
    | (Ok a, w') => k a w'
    | (Raise e, w') => (Raise e, w')
    end.

Definition raise {A} (e : PyError) : Py A := fun w => (Raise e, w).

Definition lift {A} (r : Result A) : Py A := fun w => (r, w).

Definition emit (ev : Event) : Py unit :=
  fun w => (Ok tt, MkWorld (_extra_content w) (trace w ++ [ev])%list).

Definition get_extra_content : Py (list (ConfigType * (PyVal * PyVal))) :=
  fun w => (Ok (_extra_content w), w).

Definition put_extra_content (d : list (ConfigType * (PyVal * PyVal))) : Py unit :=
  fun w => (Ok tt, MkWorld d (trace w)).

Declare Scope py_scope.
Delimit Scope py_scope with py.
Notation "x <- c ;; k" := (bind c (fun x => k))
  (at level 61, c at next level, right associativity) : py_scope.
Notation "c ;;; k" := (bind c (fun _ => k))
  (at level 61, right associativity) : py_scope.
Local Open Scope py_scope.

Ltac py_unfold :=
  unfold bind, ret, raise, lift, emit, get_extra_content, put_extra_content in *.

(** A module object: its attributes. *)
Definition PyModule := string -> option PyVal.

(** What this file imports from the rest of the package and from the
    interpreter.  None of it is defined in [auto/tokenizer.py]. *)
Record Env : Type :=
  MkEnv {
      (** [utils.is_tokenizers_available()] *)
      is_tokenizers_available : bool;
      (** [utils.download.resolve_file_path]: a path, [None], or an exception *)
      resolve_file_path : string -> string -> FetchOptions -> Result (option string);
      (** [open(path)] followed by [json.load] *)
      json_load : string -> Result PyVal;
      (** [AutoConfig.from_pretrained] *)
      AutoConfig_from_pretrained : string -> PyDict -> Result PretrainedConfig;
      (** [configuration.config_class_to_model_type] *)
      config_class_to_model_type : string -> option string;
      (** [configuration.model_type_to_module_name] *)
      model_type_to_module_name : string -> string;
      (** [importlib.import_module]: [None] is [ModuleNotFoundError] *)
      importlib_import_module : string -> option PyModule;
      (** [utils.import_utils.import_module]: the object, possibly [None] *)
      import_module : string -> option PyModule;
      (** [tokenizer_utils_base.TOKENIZER_CONFIG_FILE] *)
      TOKENIZER_CONFIG_FILE : string;
      (** The lazily imported, built-in part of [TOKENIZER_MAPPING]. *)
      lazy_getitem : ConfigType -> Result PyVal;
      (** Whether a configuration type is a key of the built-in part. *)
      lazy_contains : ConfigType -> bool;
      (** [tokenizer_utils_fast.PretrainedTokenizerFast] *)
      PretrainedTokenizerFast : TokClass;
      (** [str.lower] of the interpreter, which follows the Unicode case
          mapping; a string holds the UTF-8 bytes of the text. *)
      str_lower : string -> string
    }.

(** ** The architecture table *)

Inductive SlowNames : Type :=
| One (name : string)
| Many (names : list string).

(** A value of [TOKENIZER_MAPPING_NAMES]: a class name, or a pair of the
    reference name(s) and the accelerated name. *)
Inductive MappingNames : Type :=
| Name (name : string)
| SlowFast (slow : SlowNames) (fast : option string).

Section Resolver.
Variable E : Env.

(** [name if is_tokenizers_available() else None] *)
Definition if_available (name : string) : option string :=
  if is_tokenizers_available E then Some name else None.

Definition TOKENIZER_MAPPING_NAMES : list (string * MappingNames) :=
  [
    ("albert", SlowFast (Many ["AlbertChineseTokenizer"; "AlbertEnglishTokenizer"]) None);
    ("bart", Name "BartTokenizer");
    ("bert", SlowFast (One "BertTokenizer") (if_available "BertTokenizerFast"));
    ("blenderbot", Name "BlenderbotTokenizer");
    ("bloom", SlowFast (One "BloomTokenizer") (if_available "BloomTokenizerFast"));
    ("clip", Name "CLIPTokenizer");
    ("codegen", Name "CodeGenTokenizer");
    ("convbert", Name "ConvBertTokenizer");
    ("ctrl", Name "CTRLTokenizer");
    ("distilbert", Name "DistilBertTokenizer");
    ("electra", Name "ElectraTokenizer");
    ("ernie", Name "ErnieTokenizer");
    ("ernie_m", Name "ErnieMTokenizer");
    ("fnet", Name "FNetTokenizer");
    ("funnel", Name "FunnelTokenizer");
    ("gemma", Name "GemmaTokenizer");
    ("jamba", Name "JambaTokenizer");
    ("layoutlm", Name "LayoutLMTokenizer");
    ("layoutlmv2", Name "LayoutLMv2Tokenizer");
    ("layoutxlm", Name "LayoutXLMTokenizer");
    ("llama", SlowFast (Many ["LlamaTokenizer"; "Llama3Tokenizer"]) (if_available "LlamaTokenizerFast"));
    ("luke", Name "LukeTokenizer");
    ("mamba", Name "MambaTokenizer");
    ("mbart", SlowFast (Many ["MBartTokenizer"; "MBart50Tokenizer"]) None);
    ("mobilebert", Name "MobileBertTokenizer");
    ("mpnet", Name "MPNetTokenizer");
    ("nezha", Name "NeZhaTokenizer");
    ("pegasus", Name "PegasusChineseTokenizer");
    ("prophetnet", Name "ProphetNetTokenizer");
    ("reformer", Name "ReformerTokenizer");
    ("rembert", Name "RemBertTokenizer");
    ("roberta", Name "RobertaBPETokenizer");
    ("roformer", Name "RoFormerTokenizer");
    ("speecht5", Name "SpeechT5Tokenizer");
    ("squeezebert", Name "SqueezeBertTokenizer");
    ("t5", Name "T5Tokenizer");
    ("xlm", Name "XLMTokenizer");
    ("xlnet", Name "XLNetTokenizer");
    ("bert_japanese", Name "BertJapaneseTokenizer");
    ("bigbird", Name "BigBirdTokenizer");
    ("blenderbot_small", Name "BlenderbotSmallTokenizer");
    ("chatglm", Name "ChatGLMTokenizer");
    ("chatglm_v2", Name "ChatGLMv2Tokenizer");
    ("chinesebert", Name "ChineseBertTokenizer");
    ("dallebart", Name "DalleBartTokenizer");
    ("ernie_ctm", Name "ErnieCtmTokenizer");
    ("ernie_doc", Name "ErnieDocBPETokenizer");
    ("ernie_gram", Name "ErnieGramTokenizer");
    ("ernie_layout", Name "ErnieLayoutTokenizer");
    ("ernie_code", Name "ErnieCodeTokenizer");
    ("megatronbert", Name "MegatronBertTokenizer");
    ("nystromformer", Name "NystromformerTokenizer");
    ("ppminilm", Name "PPMiniLMTokenizer");
    ("roformerv2", Name "RoFormerv2Tokenizer");
    ("skep", Name "SkepTokenizer");
    ("tinybert", Name "TinyBertTokenizer");
    ("unified_transformer", Name "UnifiedTransformerTokenizer");
    ("unimo", Name "UNIMOTokenizer");
    ("gpt", SlowFast (Many ["GPTTokenizer"; "GPTChineseTokenizer"]) None);
    ("gau_alpha", Name "GAUAlphaTokenizer");
    ("artist", Name "ArtistTokenizer");
    ("chineseclip", Name "ChineseCLIPTokenizer");
    ("ernie_vil", Name "ErnieViLTokenizer");
    ("glm", Name "GLMGPT2Tokenizer");
    ("qwen", Name "QWenTokenizer");
    ("qwen2", SlowFast (One "Qwen2Tokenizer") (if_available "Qwen2TokenizerFast"));
    ("yuan", Name "YuanTokenizer")
  ].

Definition get_mapping_tokenizers (tokenizers : MappingNames) (with_fast : bool)
  : list string :=
  match tokenizers with
  | SlowFast tokenizer_slow tokenizer_fast =>
      (match tokenizer_slow with
       | Many names => names
       | One name => [name]
       end
       ++
       match tokenizer_fast with
       | Some name => if with_fast then [name] else []
       | None => []
       end)%list
  | Name name => [name]
  end.

(** *** [get_configurations] *)

Definition names_eqb (a b : list string) : bool :=
  if list_eq_dec string_dec a b then true else false.

(** The inner loop [for key in all_tokenizers]. *)
Fixpoint get_configurations_keys (class_name : string) (all_tokenizers : list string)
         (MAPPING_NAMES : list (list string * TokClass))
  : Result (list (list string * TokClass)) :=
  match all_tokenizers with
  | [] => Ok MAPPING_NAMES
  | key :: rest =>
      match importlib_import_module E
              ("paddlenlp.transformers." ++ class_name ++ ".tokenizer") with
      | None =>
          Raise (ModuleNotFoundError
                   ("No module named 'paddlenlp.transformers." ++ class_name ++ ".tokenizer'"))
      | Some import_class =>
          match import_class key with
          | Some (VClass tokenizer_name) =>
              let name := pretrained_init_configuration tokenizer_name in
              get_configurations_keys class_name rest
                (ODict.set names_eqb MAPPING_NAMES name tokenizer_name)
          | Some _ =>
              Raise (AttributeError "object has no attribute 'pretrained_init_configuration'")
          | None =>
              Raise (AttributeError ("module has no attribute '" ++ key ++ "'"))
          end
      end
  end.

(** The outer loop [for class_name, values in TOKENIZER_MAPPING_NAMES.items()]. *)
Fixpoint get_configurations_items (items : list (string * MappingNames))
         (MAPPING_NAMES : list (list string * TokClass))
  : Result (list (list string * TokClass)) :=
  match items with
  | [] => Ok MAPPING_NAMES
  | (class_name, values) :: rest =>
      let all_tokenizers := get_mapping_tokenizers values false in
      match get_configurations_keys class_name all_tokenizers MAPPING_NAMES with
      | Ok MAPPING_NAMES' => get_configurations_items rest MAPPING_NAMES'
      | Raise e => Raise e
      end
  end.

Definition get_configurations : Result (list (list string * TokClass)) :=
  get_configurations_items TOKENIZER_MAPPING_NAMES [].

(** A class that [get_configurations] reaches: the attribute, in the
    tokenizer module of an architecture of the table, of one of the
    reference names listed for that architecture. *)
Definition registered_reference_class (c : TokClass) : Prop :=
  exists class_name values key import_class,
    In (class_name, values) TOKENIZER_MAPPING_NAMES
    /\ In key (get_mapping_tokenizers values false)
    /\ importlib_import_module E ("paddlenlp.transformers." ++ class_name ++ ".tokenizer")
       = Some import_class
    /\ import_class key = Some (VClass c).

(** Every entry of a known-identifier table pairs such a class with the
    identifiers it declares. *)
Definition table_sound (MAPPING_NAMES : list (list string * TokClass)) : Prop :=
  forall names c,
    In (names, c) MAPPING_NAMES ->
    names = pretrained_init_configuration c /\ registered_reference_class c.

(** *** [tokenizer_class_from_name] *)

(** [try: module = importlib.import_module(path); return getattr(module, attr)]
    with [on_missing] for the [except AttributeError] arm. *)
Definition import_getattr (path attr : string) (on_missing : Result PyVal)
  : Result PyVal :=
  match importlib_import_module E path with
  | None => Raise (ModuleNotFoundError ("No module named '" ++ path ++ "'"))
  | Some module =>
      match module attr with
      | Some v => Ok v
      | None => on_missing
      end
  end.

(** The loop over [TOKENIZER_MAPPING_NAMES.items()]: the first architecture
    that lists [class_name] decides; [None] when no architecture lists it. *)
Fixpoint class_from_table (items : list (string * MappingNames)) (class_name : string)
  : option (Result PyVal) :=
  match items with
  | [] => None
  | (module_name, tokenizers) :: rest =>
      let all_tokenizers := get_mapping_tokenizers tokenizers true in
      if PyStr.mem class_name all_tokenizers then
        let module_name := model_type_to_module_name E module_name in
        Some
          (import_getattr ("paddlenlp.transformers." ++ module_name) class_name
             (import_getattr ("paddlenlp.transformers." ++ module_name ++ ".tokenizer")
                class_name
                (import_getattr
                   ("paddlenlp.transformers." ++ module_name ++ ".tokenizer_fast")
                   class_name
                   (Raise (ValueError ("Tokenizer class " ++ class_name
                                       ++ " is not currently imported."))))))
      else class_from_table rest class_name
  end.

(** [getattr(tokenizer, "__name__", None) == class_name] *)
Definition has_name (tokenizer : PyVal) (class_name : string) : bool :=
  match tokenizer with
  | VClass c => String.eqb (cls_name c) class_name
  | _ => false
  end.

(** The loop over [TOKENIZER_MAPPING._extra_content.items()]. *)
Fixpoint class_from_extra_content (items : list (ConfigType * (PyVal * PyVal)))
         (class_name : string) : option PyVal :=
  match items with
  | [] => None
  | (_, (slow, fast)) :: rest =>
      if has_name slow class_name then Some slow
      else if has_name fast class_name then Some fast
      else class_from_extra_content rest class_name
  end.

Definition tokenizer_class_from_name
           (extra_content : list (ConfigType * (PyVal * PyVal)))
           (class_name : string) : Result PyVal :=
  if String.eqb class_name "PretrainedTokenizerFast" then
    Ok (VClass (PretrainedTokenizerFast E))
  else
    match class_from_table TOKENIZER_MAPPING_NAMES class_name with
    | Some r => r
    | None =>
        match class_from_extra_content extra_content class_name with
        | Some tokenizer => Ok tokenizer
        | None =>
            match importlib_import_module E "paddlenlp" with
            | None => Raise (ModuleNotFoundError "No module named 'paddlenlp'")
            | Some main_module =>
                match main_module class_name with
                | Some v => Ok v
                | None => Ok VNone
                end
            end
        end
    end.

(** *** [get_tokenizer_config] *)

(** The keyword parameters of [get_tokenizer_config], bound from the
    keyword arguments of the call; the others land in [**kwargs]. *)
Definition fetch_options (kwargs : PyDict) : FetchOptions :=
  {| cache_dir := Dict.get_default kwargs "cache_dir" VNone;
     force_download := Dict.get_default kwargs "force_download" (VBool false);
     resume_download := Dict.get_default kwargs "resume_download" VNone;
     proxies := Dict.get_default kwargs "proxies" VNone;
     token := Dict.get_default kwargs "token" VNone;
     revision := Dict.get_default kwargs "revision" VNone;
     local_files_only := Dict.get_default kwargs "local_files_only" (VBool false);
     subfolder := Dict.get_default kwargs "subfolder" (VStr "") |}.

Definition could_not_locate : Event :=
  EvLoggerInfo
    "Could not locate the tokenizer configuration file, will try to use the model config instead.".

Definition get_tokenizer_config (pretrained_model_name_or_path : string)
           (kwargs : PyDict) : Py PyVal :=
  let opts := fetch_options kwargs in
  emit (EvResolveFilePath pretrained_model_name_or_path (TOKENIZER_CONFIG_FILE E) opts) ;;;
  resolved_config_file <-
    lift (resolve_file_path E pretrained_model_name_or_path (TOKENIZER_CONFIG_FILE E) opts) ;;
  match resolved_config_file with
  | None =>
      emit could_not_locate ;;;
      ret (VDict [])
  | Some path =>
      emit (EvOpen path) ;;;
      result <- lift (json_load E path) ;;
      ret result
  end.

End Resolver.

(** ** The class [AutoTokenizer] *)

(** What a tokenizer class's own [from_pretrained] is asked to build: the
    construction itself belongs to that class. *)
Record Tokenizer : Type :=
  MkTokenizer {
      tok_class : TokClass;
      tok_identifier : string;
      tok_model_args : list PyVal;
      tok_kwargs : PyDict
    }.

(** The class object [cls] the class methods receive.  [_tokenizer_mapping]
    is assigned in the class body; [_name_mapping] is read by
    [_get_tokenizer_class_from_config] but never assigned in this file, so
    [None] stands for the attribute being absent. *)
Record Cls : Type :=
  MkCls {
      _tokenizer_mapping : list (list string * TokClass);
      _name_mapping : option (list (string * string))
    }.

Module AutoTokenizer.
Section Methods.
Variable E : Env.

(** The class as this file builds it: [_tokenizer_mapping = get_configurations()]. *)
Definition class_body : Result Cls :=
  match get_configurations E with
  | Ok m => Ok (MkCls m None)
  | Raise e => Raise e
  end.

(** [target.from_pretrained(pretrained_model_name_or_path, *model_args, **kwargs)] *)
Definition call_from_pretrained (target : PyVal) (pretrained_model_name_or_path : string)
           (model_args : list PyVal) (kwargs : PyDict) : Py Tokenizer :=
  match target with
  | VClass c => ret (MkTokenizer c pretrained_model_name_or_path model_args kwargs)
  | _ => raise (AttributeError "object has no attribute 'from_pretrained'")
  end.

(** *** [_get_tokenizer_class_from_config] *)

(** Lines 323-325: [init_class] first, [tokenizer_class] when it is [None]. *)
Definition pop_init_class (init_kwargs : PyDict) : PyVal :=
  let init_class := fst (Dict.pop init_kwargs "init_class" VNone) in
  let init_kwargs := snd (Dict.pop init_kwargs "init_class" VNone) in
  if is_None init_class then fst (Dict.pop init_kwargs "tokenizer_class" VNone)
  else init_class.

(** The pattern loop of the [else] arm: the first key whose pattern occurs
    in the lower-cased identifier. *)
Fixpoint recognize_pattern (items : list (string * string)) (lowered : string)
  : option (string * string) :=
  match items with
  | [] => None
  | (key, pattern) :: rest =>
      if PyStr.contains pattern lowered then Some (key, pattern)
      else recognize_pattern rest lowered
  end.

Definition _get_tokenizer_class_from_config (cls : Cls)
           (pretrained_model_name_or_path config_file_path : string)
           (use_fast : PyVal) : Py PyVal :=
  if negb (is_None use_fast) then raise (ValueError "use_fast is deprecated")
  else
    emit (EvOpen config_file_path) ;;;
    loaded <- lift (json_load E config_file_path) ;;
    match loaded with
    | VDict init_kwargs =>
        let init_class := pop_init_class init_kwargs in
        if truthy init_class then
          match _name_mapping cls, init_class with
          | None, _ =>
              raise (AttributeError "type object 'AutoTokenizer' has no attribute '_name_mapping'")
          | Some name_mapping, VStr init_class =>
              match Dict.get name_mapping init_class with
              | Some class_name =>
                  match import_module E ("paddlenlp.transformers." ++ class_name ++ ".tokenizer") with
                  | Some import_class =>
                      match import_class init_class with
                      | Some tokenizer_class => ret tokenizer_class
                      | None =>
                          raise (ValueError ("Tokenizer class " ++ init_class
                                             ++ " is not currently imported."))
                      end
                  | None =>
                      raise (ValueError ("Tokenizer class " ++ init_class
                                         ++ " is not currently imported."))
                  end
              | None =>
                  let tokenizer_class :=
                    match import_module E "paddlenlp.transformers" with
                    | Some import_class =>
                        match import_class init_class with
                        | Some v => v
                        | None => VNone
                        end
                    | None => VNone
                    end in
                  if is_None tokenizer_class then
                    raise (AssertionError ("Can't find tokenizer " ++ init_class))
                  else ret tokenizer_class
              end
          | Some _, _ => raise (TypeError "class name is not a string")
          end
        else
          emit (EvLoggerInfo "We use pattern recognition to recognize the Tokenizer class.") ;;;
          match _name_mapping cls with
          | None =>
              raise (AttributeError "type object 'AutoTokenizer' has no attribute '_name_mapping'")
          | Some name_mapping =>
              match recognize_pattern name_mapping (str_lower E pretrained_model_name_or_path) with
              | Some (init_class, class_name) =>
                  match import_module E ("paddlenlp.transformers." ++ class_name ++ ".tokenizer") with
                  | Some import_class =>
                      match import_class init_class with
                      | Some tokenizer_class => ret tokenizer_class
                      | None =>
                          raise (AttributeError ("module has no attribute '" ++ init_class ++ "'"))
                      end
                  | None =>
                      raise (AttributeError ("'NoneType' object has no attribute '"
                                             ++ init_class ++ "'"))
                  end
              | None =>
                  raise (UnboundLocalError "local variable 'tokenizer_class' referenced before assignment")
              end
          end
    | VList _ => raise (TypeError "pop expected at most 1 argument, got 2")
    | _ => raise (AttributeError "object has no attribute 'pop'")
    end.

(** *** [TOKENIZER_MAPPING] *)

(** Modelled from the spec: [_LazyAutoMapping.__getitem__] of
    [auto/factory.py], which is not part of this file.  The Config-Class
    Table holds the manually registered entries and, behind them, the
    lazily imported built-in ones. *)
Definition TOKENIZER_MAPPING_getitem (key : ConfigType) : Py PyVal :=
  extra_content <- get_extra_content ;;
  match ODict.get ConfigType_eqb extra_content key with
  | Some (slow, fast) => ret (VTuple [slow; fast])
  | None => lift (lazy_getitem E key)
  end.

(** Modelled from the spec: [_LazyAutoMapping.register] of
    [auto/factory.py]: it adds the entry at runtime and guards a built-in
    key against overwrite unless that is explicitly allowed. *)
Definition TOKENIZER_MAPPING_register (key : ConfigType) (value : PyVal * PyVal)
           (exist_ok : bool) : Py unit :=
  if lazy_contains E key && negb exist_ok then
    raise (ValueError ("'" ++ cfg_name key ++ "' is already used by a Transformers model."))
  else
    extra_content <- get_extra_content ;;
    put_extra_content (ODict.set ConfigType_eqb extra_content key value).

(** [a, b = v] *)
Definition unpack2 (v : PyVal) : Py (PyVal * PyVal) :=
  match v with
  | VTuple [a; b] | VList [a; b] => ret (a, b)
  | VTuple _ | VList _ => raise (ValueError "wrong number of values to unpack")
  | _ => raise (TypeError "cannot unpack non-iterable object")
  end.

(** *** [from_pretrained] *)

(** The loop of lines 418-422: the first entry that lists the identifier. *)
Fixpoint find_builtin (items : list (list string * TokClass))
         (pretrained_model_name_or_path : string) : option TokClass :=
  match items with
  | [] => None
  | (names, tokenizer_class) :: rest =>
      if PyStr.mem pretrained_model_name_or_path names then Some tokenizer_class
      else find_builtin rest pretrained_model_name_or_path
  end.

(** [tokenizer_config.get("tokenizer_class")] *)
Definition config_get (tokenizer_config : PyVal) (key : string) : Py PyVal :=
  match tokenizer_config with
  | VDict kv => ret (Dict.get_default kv key VNone)
  | _ => raise (AttributeError "object has no attribute 'get'")
  end.

(** [tokenizer_class_from_name], reading the registry of the moment.  A
    name that is not a string passes every comparison and fails in
    [hasattr]. *)
Definition lookup_class (class_name : PyVal) : Py PyVal :=
  match class_name with
  | VStr name =>
      extra_content <- get_extra_content ;;
      lift (tokenizer_class_from_name E extra_content name)
  | _ => raise (TypeError "hasattr(): attribute name must be string")
  end.

(** Lines 430-442: a tokenizer class is declared. *)
Definition from_declared_class (config_tokenizer_class use_fast : PyVal)
           (pretrained_model_name_or_path : string)
           (model_args : list PyVal) (kwargs : PyDict) : Py Tokenizer :=
  first <-
    (if truthy use_fast then
       match config_tokenizer_class with
       | VStr name =>
           if negb (PyStr.endswith name "Fast") then
             let tokenizer_class_candidate := VStr (name ++ "Fast") in
             tokenizer_class <- lookup_class tokenizer_class_candidate ;;
             ret (tokenizer_class, tokenizer_class_candidate)
           else ret (VNone, VNone)
       | _ => raise (AttributeError "object has no attribute 'endswith'")
       end
     else ret (VNone, VNone)) ;;
  second <-
    (if is_None (fst first) then
       let tokenizer_class_candidate := config_tokenizer_class in
       tokenizer_class <- lookup_class tokenizer_class_candidate ;;
       ret (tokenizer_class, tokenizer_class_candidate)
     else ret first) ;;
  let tokenizer_class := fst second in
  let tokenizer_class_candidate := snd second in
  if is_None tokenizer_class then
    raise (ValueError ("Tokenizer class " ++ py_str tokenizer_class_candidate
                       ++ " does not exist or is not currently imported."))
  else
    call_from_pretrained tokenizer_class pretrained_model_name_or_path model_args kwargs.

(** [v[0]] *)
Definition getitem0 (v : PyVal) : Py PyVal :=
  match v with
  | VTuple (x :: _) | VList (x :: _) => ret x
  | VTuple [] | VList [] => raise (IndexError "index out of range")
  | VStr s =>
      match s with
      | String c _ => ret (VStr (String c EmptyString))
      | EmptyString => raise (IndexError "string index out of range")
      end
  | VDict _ => raise (KeyError "0")
  | VClass _ => raise (TypeError "'type' object is not subscriptable")
  | _ => raise (TypeError "object is not subscriptable")
  end.

Definition is_str (v : PyVal) : bool :=
  match v with VStr _ => true | _ => false end.

Definition is_list_or_tuple (v : PyVal) : bool :=
  match v with VList _ | VTuple _ => true | _ => false end.

Definition cannot_load (pretrained_model_name_or_path : string) : string :=
  "Can't load tokenizer for '" ++ pretrained_model_name_or_path ++ "'." ++ PyStr.nl
  ++ "Please make sure that '" ++ pretrained_model_name_or_path ++ "' is:" ++ PyStr.nl
  ++ "- a correct model-identifier of built-in pretrained models," ++ PyStr.nl
  ++ "- or a correct model-identifier of community-contributed pretrained models," ++ PyStr.nl
  ++ "- or the correct path to a directory containing relevant tokenizer files." ++ PyStr.nl.

(** Lines 446-476: no class is declared; the type of the model
    configuration decides. *)
Definition from_model_config (config : PretrainedConfig) (use_fast : PyVal)
           (pretrained_model_name_or_path : string)
           (model_args : list PyVal) (kwargs : PyDict) : Py Tokenizer :=
  let model_type := config_class_to_model_type E (cfg_name (config_type config)) in
  match model_type with
  | Some _ =>
      tokenizer_class_py <- TOKENIZER_MAPPING_getitem (config_type config) ;;
      pair <-
        (if is_list_or_tuple tokenizer_class_py then unpack2 tokenizer_class_py
         else ret (tokenizer_class_py, VNone)) ;;
      let tokenizer_class_py := fst pair in
      let tokenizer_class_fast := snd pair in
      if truthy tokenizer_class_fast && (truthy use_fast || is_None tokenizer_class_py) then
        call_from_pretrained tokenizer_class_fast pretrained_model_name_or_path
          model_args kwargs
      else if negb (is_None tokenizer_class_py) then
        if is_str tokenizer_class_py then
          call_from_pretrained tokenizer_class_py pretrained_model_name_or_path
            model_args kwargs
        else
          first <- getitem0 tokenizer_class_py ;;
          emit (EvPrint ("We are using " ++ py_str first ++ " to load '"
                         ++ pretrained_model_name_or_path ++ "'.")) ;;;
          call_from_pretrained first pretrained_model_name_or_path model_args kwargs
      else
        raise (ValueError
                 "This tokenizer cannot be instantiated. Please make sure you have `sentencepiece` installed in order to use this tokenizer.")
  | None => raise (RuntimeError (cannot_load pretrained_model_name_or_path))
  end.

(** Lines 424-429: the declared class name, from the tokenizer
    configuration or else from the model configuration.  The left value is
    a name that is not [None] (the test of line 430 succeeds); the right
    value is the model configuration that line 446 goes on with. *)
Definition declared_class (config : PyVal) (pretrained_model_name_or_path : string)
           (kwargs : PyDict) : Py (PyVal + PretrainedConfig) :=
  tokenizer_config <- get_tokenizer_config E pretrained_model_name_or_path kwargs ;;
  config_tokenizer_class <- config_get tokenizer_config "tokenizer_class" ;;
  if is_None config_tokenizer_class then
    config <-
      (match config with
       | VConfig c => ret c
       | _ =>
           emit (EvAutoConfig pretrained_model_name_or_path kwargs) ;;;
           lift (AutoConfig_from_pretrained E pretrained_model_name_or_path kwargs)
       end) ;;
    match tokenizer_class config with
    | Some name => ret (inl (VStr name))
    | None => ret (inr config)
    end
  else ret (inl config_tokenizer_class).

(** Lines 401-405: what [from_pretrained] takes out of its keyword
    arguments, and what it forwards. *)
Definition kw_config (kwargs : PyDict) : PyVal :=
  fst (Dict.pop kwargs "config" VNone).

Definition kw_after_config (kwargs : PyDict) : PyDict :=
  Dict.set (snd (Dict.pop kwargs "config" VNone)) "_from_auto" (VBool true).

Definition kw_use_fast (kwargs : PyDict) : PyVal :=
  fst (Dict.pop (kw_after_config kwargs) "use_fast" (VBool false)).

Definition kw_after_use_fast (kwargs : PyDict) : PyDict :=
  snd (Dict.pop (kw_after_config kwargs) "use_fast" (VBool false)).

Definition kw_tokenizer_type (kwargs : PyDict) : PyVal :=
  fst (Dict.pop (kw_after_use_fast kwargs) "tokenizer_type" VNone).

Definition kw_forwarded (kwargs : PyDict) : PyDict :=
  snd (Dict.pop (kw_after_use_fast kwargs) "tokenizer_type" VNone).

Definition from_pretrained (cls : Cls) (pretrained_model_name_or_path : string)
           (model_args : list PyVal) (kwargs0 : PyDict) : Py Tokenizer :=
  let config := kw_config kwargs0 in
  let use_fast := kw_use_fast kwargs0 in
  let tokenizer_type := kw_tokenizer_type kwargs0 in
  let kwargs := kw_forwarded kwargs0 in
  if negb (is_None tokenizer_type) then
    raise (NotImplementedError "tokenizer_type is not supported yet.")
  else
    let all_tokenizer_names := flat_map fst (_tokenizer_mapping cls) in
    match (if PyStr.mem pretrained_model_name_or_path all_tokenizer_names
           then find_builtin (_tokenizer_mapping cls) pretrained_model_name_or_path
           else None) with
    | Some tokenizer_class =>
        (* From built-in pretrained models *)
        emit (EvLoggerInfo ("We are using " ++ repr_class tokenizer_class ++ " to load '"
                            ++ pretrained_model_name_or_path ++ "'.")) ;;;
        call_from_pretrained (VClass tokenizer_class) pretrained_model_name_or_path
          model_args kwargs
    | None =>
        declared <- declared_class config pretrained_model_name_or_path kwargs ;;
        match declared with
        | inl config_tokenizer_class =>
            from_declared_class config_tokenizer_class use_fast
              pretrained_model_name_or_path model_args kwargs
        | inr config =>
            from_model_config config use_fast pretrained_model_name_or_path
              model_args kwargs
        end
    end.

(** *** [register] *)

(** [issubclass(v, base)], the base given by the tag it sets. *)
Definition issubclass (v : PyVal) (base : TokClass -> bool) : Py bool :=
  match v with
  | VClass c => ret (base c)
  | _ => raise (TypeError "issubclass() arg 1 must be a class")
  end.

(** [fast_tokenizer_class.slow_tokenizer_class != slow_tokenizer_class] *)
Definition companion_differs (fast slow : PyVal) : bool :=
  match fast with
  | VClass f =>
      match slow_tokenizer_class f, slow with
      | Some c, VClass s => negb (TokClass_eqb c s)
      | None, VNone => false
      | _, _ => true
      end
  | _ => true
  end.

Definition companion_str (fast : PyVal) : string :=
  match fast with
  | VClass f =>
      match slow_tokenizer_class f with
      | Some c => repr_class c
      | None => "None"
      end
  | _ => "None"
  end.

Definition register (config_class : ConfigType)
           (slow_tokenizer_class fast_tokenizer_class : PyVal) (exist_ok : bool)
  : Py unit :=
  if is_None slow_tokenizer_class && is_None fast_tokenizer_class then
    raise (ValueError "You need to pass either a `slow_tokenizer_class` or a `fast_tokenizer_class")
  else
    slow_is_fast <-
      (if negb (is_None slow_tokenizer_class)
       then issubclass slow_tokenizer_class is_fast else ret false) ;;
    if slow_is_fast then
      raise (ValueError "You passed a fast tokenizer in the `slow_tokenizer_class`.")
    else
      fast_is_slow <-
        (if negb (is_None fast_tokenizer_class)
         then issubclass fast_tokenizer_class is_slow else ret false) ;;
      if fast_is_slow then
        raise (ValueError "You passed a slow tokenizer in the `fast_tokenizer_class`.")
      else
        inconsistent <-
          (if negb (is_None slow_tokenizer_class) && negb (is_None fast_tokenizer_class)
           then
             fast_is_fast <- issubclass fast_tokenizer_class is_fast ;;
             ret (fast_is_fast
                  && companion_differs fast_tokenizer_class slow_tokenizer_class)
           else ret false) ;;
        if inconsistent then
          raise (ValueError
                   ("The fast tokenizer class you are passing has a `slow_tokenizer_class` attribute that is not consistent with the slow tokenizer class you passed (fast tokenizer has "
                    ++ companion_str fast_tokenizer_class ++ " and you passed "
                    ++ py_str slow_tokenizer_class
                    ++ ". Fix one of those so they match!"))
        else
          (* Avoid resetting a set slow/fast tokenizer if we are passing just the other ones. *)
          extra_content <- get_extra_content ;;
          merged <-
            (if ODict.mem ConfigType_eqb extra_content config_class then
               existing <- TOKENIZER_MAPPING_getitem config_class ;;
               existing <- unpack2 existing ;;
               let existing_slow := fst existing in
               let existing_fast := snd existing in
               ret (if is_None slow_tokenizer_class then existing_slow
                    else slow_tokenizer_class,
                    if is_None fast_tokenizer_class then existing_fast
                    else fast_tokenizer_class)
             else ret (slow_tokenizer_class, fast_tokenizer_class)) ;;
          TOKENIZER_MAPPING_register config_class merged exist_ok.

End Methods.
End AutoTokenizer.

(** ** A small installation, for concrete runs *)

Module Demo.

Definition BertTokenizer : TokClass :=
  MkTokClass "paddlenlp.transformers.bert.tokenizer" "BertTokenizer" true false None
    ["bert-base-uncased"; "bert-base-chinese"].

Definition BertTokenizerFast : TokClass :=
  MkTokClass "paddlenlp.transformers.bert.tokenizer_fast" "BertTokenizerFast" false true
    (Some BertTokenizer) [].

Definition BartTokenizer : TokClass :=
  MkTokClass "paddlenlp.transformers.bart.tokenizer" "BartTokenizer" true false None
    ["bart-base"; "bart-large"].

Definition GPTTokenizer : TokClass :=
  MkTokClass "paddlenlp.transformers.gpt.tokenizer" "GPTTokenizer" true false None
    ["gpt2-en"].

Definition GPTChineseTokenizer : TokClass :=
  MkTokClass "paddlenlp.transformers.gpt.tokenizer" "GPTChineseTokenizer" true false None
    ["gpt-cpm-large-cn"].

Definition BaseFast : TokClass :=
  MkTokClass "paddlenlp.transformers.tokenizer_utils_fast" "PretrainedTokenizerFast"
    false true None [].

Definition BertConfig : ConfigType := MkConfigType "paddlenlp.transformers.bert.configuration" "BertConfig".
Definition BartConfig : ConfigType := MkConfigType "paddlenlp.transformers.bart.configuration" "BartConfig".
Definition GPTConfig : ConfigType := MkConfigType "paddlenlp.transformers.gpt.configuration" "GPTConfig".
Definition MyConfig : ConfigType := MkConfigType "my_package.configuration" "MyConfig".

Definition attrs (l : list (string * PyVal)) : PyModule := fun name => Dict.get l name.

Definition modules (path : string) : option PyModule :=
  if String.eqb path "paddlenlp.transformers.bert" then
    Some (attrs [("BertTokenizer", VClass BertTokenizer);
                 ("BertTokenizerFast", VClass BertTokenizerFast)])
  else if String.eqb path "paddlenlp.transformers.bert.tokenizer" then
    Some (attrs [("BertTokenizer", VClass BertTokenizer)])
  else if String.eqb path "paddlenlp.transformers.bart" then
    Some (attrs [("BartTokenizer", VClass BartTokenizer)])
  else if String.eqb path "paddlenlp.transformers.gpt" then
    Some (attrs [("GPTTokenizer", VClass GPTTokenizer);
                 ("GPTChineseTokenizer", VClass GPTChineseTokenizer)])
  else if String.eqb path "paddlenlp.transformers.qwen" then
    Some (attrs [])
  else if String.eqb path "paddlenlp.transformers.qwen.tokenizer" then
    Some (attrs [])
  else if String.eqb path "paddlenlp.transformers.qwen.tokenizer_fast" then
    Some (attrs [])
  else if String.eqb path "paddlenlp.transformers" then
    Some (attrs [("BertTokenizer", VClass BertTokenizer);
                 ("BartTokenizer", VClass BartTokenizer);
                 ("GPTTokenizer", VClass GPTTokenizer)])
  else if String.eqb path "paddlenlp" then
    Some (attrs [])
  else None.

(** Four directories: one whose configuration names both keys, one that
    names the accelerated class, one that names a class without an
    accelerated counterpart, and one without a configuration file. *)
Definition resolve (identifier filename : string) (opts : FetchOptions)
  : Result (option string) :=
  if String.eqb identifier "./both_keys" then Ok (Some "./both_keys/tokenizer_config.json")
  else if String.eqb identifier "./bert_fast" then Ok (Some "./bert_fast/tokenizer_config.json")
  else if String.eqb identifier "./bart" then Ok (Some "./bart/tokenizer_config.json")
  else if String.eqb identifier "./unknown_class" then
    Ok (Some "./unknown_class/tokenizer_config.json")
  else Ok None.

Definition files (path : string) : Result PyVal :=
  if String.eqb path "./both_keys/tokenizer_config.json" then
    Ok (VDict [("init_class", VStr "BertTokenizer"); ("tokenizer_class", VStr "GPTTokenizer")])
  else if String.eqb path "./bert_fast/tokenizer_config.json" then
    Ok (VDict [("tokenizer_class", VStr "BertTokenizerFast")])
  else if String.eqb path "./bart/tokenizer_config.json" then
    Ok (VDict [("tokenizer_class", VStr "BartTokenizer")])
  else if String.eqb path "./unknown_class/tokenizer_config.json" then
    Ok (VDict [("tokenizer_class", VStr "NoSuchTokenizer")])
  else Raise (OtherError "FileNotFoundError" path).

Definition auto_config (identifier : string) (kwargs : PyDict) : Result PretrainedConfig :=
  if String.eqb identifier "./plain_bart" then Ok (MkConfig BartConfig None)
  else if String.eqb identifier "./plain_gpt" then Ok (MkConfig GPTConfig None)
  else if String.eqb identifier "./custom" then Ok (MkConfig MyConfig None)
  else if String.eqb identifier "./custom_declared" then
    Ok (MkConfig MyConfig (Some "BertTokenizer"))
  else Raise (OtherError "OSError" identifier).

Definition model_type (name : string) : option string :=
  if String.eqb name "BertConfig" then Some "bert"
  else if String.eqb name "BartConfig" then Some "bart"
  else if String.eqb name "GPTConfig" then Some "gpt"
  else None.

Definition lazy (key : ConfigType) : Result PyVal :=
  if ConfigType_eqb key BertConfig then
    Ok (VTuple [VClass BertTokenizer; VClass BertTokenizerFast])
  else if ConfigType_eqb key BartConfig then Ok (VClass BartTokenizer)
  else if ConfigType_eqb key GPTConfig then
    Ok (VTuple [VTuple [VClass GPTTokenizer; VClass GPTChineseTokenizer]; VNone])
  else Raise (KeyError (cfg_name key)).

Definition env : Env :=
  {| is_tokenizers_available := true;
     resolve_file_path := resolve;
     json_load := files;
     AutoConfig_from_pretrained := auto_config;
     config_class_to_model_type := model_type;
     model_type_to_module_name := fun key => key;
     importlib_import_module := modules;
     import_module := modules;
     TOKENIZER_CONFIG_FILE := "tokenizer_config.json";
     lazy_getitem := lazy;
     lazy_contains := fun key =>
       match lazy key with Ok _ => true | Raise _ => false end;
     PretrainedTokenizerFast := BaseFast;
     str_lower := PyStr.lower |}.

Definition cls : Cls :=
  MkCls [ (pretrained_init_configuration BertTokenizer, BertTokenizer);
          (pretrained_init_configuration BartTokenizer, BartTokenizer);
          (pretrained_init_configuration GPTTokenizer, GPTTokenizer);
          (pretrained_init_configuration GPTChineseTokenizer, GPTChineseTokenizer) ]
        None.

(** The same class with a [_name_mapping] assigned from outside. *)
Definition legacy_cls : Cls :=
  MkCls (_tokenizer_mapping cls) (Some [("BertTokenizer", "bert"); ("GPTTokenizer", "gpt")]).

Definition world0 : World := MkWorld [] [].

End Demo.

(** ** The rest of the module *)

(** Line 164: [CONFIG_TO_TYPE = {v: k for k, v in CONFIG_MAPPING_NAMES.items()}],
    over the table [configuration.CONFIG_MAPPING_NAMES] it is built from. *)
Definition CONFIG_TO_TYPE (CONFIG_MAPPING_NAMES : list (string * string))
  : list (string * string) :=
  fold_left (fun d (item : string * string) => Dict.set d (snd item) (fst item))
    CONFIG_MAPPING_NAMES [].

(** ** Vocabulary of the properties *)

(** The keys of a dictionary, in order. *)
Definition keys {K V : Type} (d : list (K * V)) : list K := map fst d.

(** No string occurs twice. *)
Fixpoint distinct (l : list string) : bool :=
  match l with
  | [] => true
  | x :: rest => negb (PyStr.mem x rest) && distinct rest
  end.

(** The class names the architecture table lists, reference and accelerated. *)
Definition listed_names (E : Env) : list string :=
  flat_map (fun item => get_mapping_tokenizers (snd item) true) (TOKENIZER_MAPPING_NAMES E).

(** The three places [tokenizer_class_from_name] looks a listed class up in:
    the package of the architecture, its [tokenizer] module, its
    [tokenizer_fast] module. *)
Definition package_of (E : Env) (architecture : string) : string :=
  "paddlenlp.transformers." ++ model_type_to_module_name E architecture.

(** A computation that leaves the registry as it is and adds to the trace
    only events that satisfy [P]. *)
Definition quiet (P : Event -> Prop) {A : Type} (c : Py A) : Prop :=
  forall w,
    _extra_content (snd (c w)) = _extra_content w
    /\ exists events, trace (snd (c w)) = (trace w ++ events)%list /\ Forall P events.

Definition is_AutoConfig_call (ev : Event) : Prop :=
  match ev with EvAutoConfig _ _ => True | _ => False end.

Definition is_file_access (ev : Event) : Prop :=
  match ev with EvResolveFilePath _ _ _ | EvOpen _ => True | _ => False end.

(** A computation whose every result is a construction request for the
    given identifier and arguments. *)
Definition forwards (identifier : string) (model_args : list PyVal) (kwargs : PyDict)
           (c : Py Tokenizer) : Prop :=
  forall w t,
    fst (c w) = Ok t ->
    tok_identifier t = identifier /\ tok_model_args t = model_args /\ tok_kwargs t = kwargs.

(** ** A second installation: every module exports every name *)

Module Sample.

Definition generic_class (path name : string) : TokClass :=
  MkTokClass path name true false None [PyStr.lower name].

Definition every_module (path : string) : option PyModule :=
  Some (fun name => Some (VClass (generic_class path name))).

(** The installation of [Demo] with those modules. *)
Definition installed : Env :=
  {| is_tokenizers_available := true;
     resolve_file_path := Demo.resolve;
     json_load := Demo.files;
     AutoConfig_from_pretrained := Demo.auto_config;
     config_class_to_model_type := Demo.model_type;
     model_type_to_module_name := fun key => key;
     importlib_import_module := every_module;
     import_module := every_module;
     TOKENIZER_CONFIG_FILE := "tokenizer_config.json";
     lazy_getitem := Demo.lazy;
     lazy_contains := fun _ => false;
     PretrainedTokenizerFast := Demo.BaseFast;
     str_lower := PyStr.lower |}.

(** An installation where every configuration type has an architecture and
    an entry with both slots empty. *)
Definition bare : Env :=
  {| is_tokenizers_available := false;
     resolve_file_path := fun _ _ _ => Ok None;
     json_load := Demo.files;
     AutoConfig_from_pretrained := fun _ _ => Ok (MkConfig Demo.MyConfig None);
     config_class_to_model_type := fun _ => Some "custom";
     model_type_to_module_name := fun key => key;
     importlib_import_module := Demo.modules;
     import_module := Demo.modules;
     TOKENIZER_CONFIG_FILE := "tokenizer_config.json";
     lazy_getitem := fun _ => Ok (VTuple [VNone; VNone]);
     lazy_contains := fun _ => true;
     PretrainedTokenizerFast := Demo.BaseFast;
     str_lower := PyStr.lower |}.

(** An installation whose tokenizer configuration files hold a JSON array. *)
Definition odd : Env :=
  {| is_tokenizers_available := true;
     resolve_file_path := fun identifier filename _ => Ok (Some (identifier ++ "/" ++ filename));
     json_load := fun _ => Ok (VList [VStr "BertTokenizer"]);
     AutoConfig_from_pretrained := Demo.auto_config;
     config_class_to_model_type := Demo.model_type;
     model_type_to_module_name := fun key => key;
     importlib_import_module := Demo.modules;
     import_module := Demo.modules;
     TOKENIZER_CONFIG_FILE := "tokenizer_config.json";
     lazy_getitem := Demo.lazy;
     lazy_contains := fun _ => false;
     PretrainedTokenizerFast := Demo.BaseFast;
     str_lower := PyStr.lower |}.

(** An installation whose configuration files hold the empty JSON object. *)
Definition blank : Env :=
  {| is_tokenizers_available := true;
     resolve_file_path := fun identifier filename _ => Ok (Some (identifier ++ "/" ++ filename));
     json_load := fun _ => Ok (VDict []);
     AutoConfig_from_pretrained := Demo.auto_config;
     config_class_to_model_type := Demo.model_type;
     model_type_to_module_name := fun key => key;
     importlib_import_module := Demo.modules;
     import_module := Demo.modules;
     TOKENIZER_CONFIG_FILE := "tokenizer_config.json";
     lazy_getitem := Demo.lazy;
     lazy_contains := fun _ => false;
     PretrainedTokenizerFast := Demo.BaseFast;
     str_lower := PyStr.lower |}.

(** A class object with a [_name_mapping] assigned from outside. *)
Definition named : Cls :=
  MkCls [] (Some [("GPTTokenizer", "gpt"); ("BertTokenizer", "bert");
                  ("BartTokenizer", "bart")]).

(** The installation of [Demo] with a [resolve_file_path] that treats a
    local directory as the package's does: when the directory lacks the
    file it raises [FileNotFoundError]; only for a repository does it answer
    [None]. *)
Definition local_dirs : Env :=
  {| is_tokenizers_available := true;
     resolve_file_path := fun identifier filename _ =>
       if String.prefix "./" identifier then
         Raise (OtherError "FileNotFoundError"
                  ("please make sure one of the ['" ++ filename ++ "'] under the dir "
                   ++ identifier))
       else Ok None;
     json_load := Demo.files;
     AutoConfig_from_pretrained := Demo.auto_config;
     config_class_to_model_type := Demo.model_type;
     model_type_to_module_name := fun key => key;
     importlib_import_module := Demo.modules;
     import_module := Demo.modules;
     TOKENIZER_CONFIG_FILE := "tokenizer_config.json";
     lazy_getitem := Demo.lazy;
     lazy_contains := fun _ => false;
     PretrainedTokenizerFast := Demo.BaseFast;
     str_lower := PyStr.lower |}.

(** A class registered by a user, and the registry that holds it. *)
Definition MyTokenizer : TokClass :=
  MkTokClass "my_package.tokenizer" "MyTokenizer" true false None [].

Definition MyTokenizerFast : TokClass :=
  MkTokClass "my_package.tokenizer_fast" "MyTokenizerFast" false true (Some MyTokenizer) [].

Definition registry : World :=
  MkWorld [(Demo.MyConfig, (VClass MyTokenizer, VNone))] [].

End Sample.

(** * Properties *)

(** ** Dictionaries *)

Section ODictFacts.
Variables K V : Type.
Variable eqb : K -> K -> bool.
Hypothesis eqb_spec : forall a b, reflect (a = b) (eqb a b).

Lemma odict_get_set_same (d : list (K * V)) k v :
  ODict.get eqb (ODict.set eqb d k v) k = Some v.
Proof.
  induction d as [|[k' v'] d IH]; simpl.
  - destruct (eqb_spec k k); congruence.
  - destruct (eqb_spec k k') as [->|Hne]; simpl.
    + destruct (eqb_spec k' k'); congruence.
    + destruct (eqb_spec k k'); [contradiction | exact IH].
Qed.

Lemma odict_get_set_other (d : list (K * V)) k k' v :
  k <> k' -> ODict.get eqb (ODict.set eqb d k' v) k = ODict.get eqb d k.
Proof.
  intros Hne. induction d as [|[k0 v0] d IH]; simpl.
  - destruct (eqb_spec k k'); [contradiction | reflexivity].
  - destruct (eqb_spec k' k0) as [->|Hne0]; simpl.
    + destruct (eqb_spec k k0); [contradiction | reflexivity].
    + destruct (eqb_spec k k0); [reflexivity | exact IH].
Qed.

Lemma odict_get_remove_other (d : list (K * V)) k k' :
  k <> k' -> ODict.get eqb (ODict.remove eqb d k') k = ODict.get eqb d k.
Proof.
  intros Hne. induction d as [|[k0 v0] d IH]; simpl; [reflexivity|].
  destruct (eqb_spec k' k0) as [->|Hne0]; simpl.
  - destruct (eqb_spec k k0); [contradiction | reflexivity].
  - destruct (eqb_spec k k0); [reflexivity | exact IH].
Qed.

Lemma odict_get_pop_other (d : list (K * V)) k k' dflt :
  k <> k' -> ODict.get eqb (snd (ODict.pop eqb d k' dflt)) k = ODict.get eqb d k.
Proof.
  intros Hne. unfold ODict.pop.
  destruct (ODict.get eqb d k'); simpl; [now apply odict_get_remove_other | reflexivity].
Qed.

Lemma odict_pop_fst (d : list (K * V)) k dflt :
  fst (ODict.pop eqb d k dflt)
  = match ODict.get eqb d k with Some v => v | None => dflt end.
Proof. unfold ODict.pop. now destruct (ODict.get eqb d k). Qed.

Lemma odict_mem_get (d : list (K * V)) k v :
  ODict.get eqb d k = Some v -> ODict.mem eqb d k = true.
Proof. unfold ODict.mem. now intros ->. Qed.

Lemma odict_set_In (d : list (K * V)) k v k0 v0 :
  In (k0, v0) (ODict.set eqb d k v) -> (k0, v0) = (k, v) \/ In (k0, v0) d.
Proof.
  induction d as [|[k' v'] d IH]; simpl.
  - intros [H|[]]; left; congruence.
  - destruct (eqb k k'); simpl.
    + intros [H|H]; [left; congruence | right; now right].
    + intros [H|H]; [right; now left |].
      destruct (IH H) as [Heq|Hin]; [now left | right; now right].
Qed.
End ODictFacts.

Lemma ConfigType_eqb_spec a b : reflect (a = b) (ConfigType_eqb a b).
Proof.
  destruct a as [m n], b as [m' n']. unfold ConfigType_eqb; simpl.
  destruct (String.eqb_spec m m') as [->|Hm]; simpl.
  - destruct (String.eqb_spec n n') as [->|Hn]; constructor; congruence.
  - constructor; congruence.
Qed.

Lemma mem_In x l : PyStr.mem x l = true <-> In x l.
Proof.
  unfold PyStr.mem. rewrite existsb_exists. split.
  - intros [y [Hy Heq]]. apply String.eqb_eq in Heq. now subst.
  - intros H. exists x. split; [exact H | apply String.eqb_refl].
Qed.

Lemma mem_not_In x l : PyStr.mem x l = false <-> ~ In x l.
Proof.
  rewrite <- mem_In. destruct (PyStr.mem x l); split; intros; congruence.
Qed.

(** [endswith] decides that the string is some prefix followed by the suffix. *)
Lemma endswith_spec (s suffix : string) :
  PyStr.endswith s suffix = true <-> exists pre, s = pre ++ suffix.
Proof.
  induction s as [|c s IH]; cbn [PyStr.endswith].
  - destruct (String.eqb_spec "" suffix) as [<-|Hne].
    + split; [intros _; now exists "" | reflexivity].
    + split; [discriminate|]. intros [pre H]. destruct pre; simpl in H; congruence.
  - destruct (String.eqb_spec (String c s) suffix) as [<-|Hne].
    + split; [intros _; now exists "" | reflexivity].
    + rewrite IH. split.
      * intros [pre H]. exists (String c pre). simpl. now rewrite H.
      * intros [pre H]. destruct pre as [|c' pre]; simpl in H; [congruence|].
        inversion H. now exists pre.
Qed.

(** ** The keyword arguments [from_pretrained] takes for itself *)

Section KeywordArguments.

Lemma dict_get_pop_other (d : PyDict) k k' dflt :
  k <> k' -> Dict.get (snd (Dict.pop d k' dflt)) k = Dict.get d k.
Proof. intros; now apply (@odict_get_pop_other _ _ _ String.eqb_spec). Qed.

Lemma dict_get_set_other (d : PyDict) k k' v :
  k <> k' -> Dict.get (Dict.set d k' v) k = Dict.get d k.
Proof. intros; now apply (@odict_get_set_other _ _ _ String.eqb_spec). Qed.

Lemma kw_config_get kwargs :
  AutoTokenizer.kw_config kwargs = Dict.get_default kwargs "config" VNone.
Proof. apply odict_pop_fst. Qed.

Lemma kw_use_fast_get kwargs :
  AutoTokenizer.kw_use_fast kwargs = Dict.get_default kwargs "use_fast" (VBool false).
Proof.
  unfold AutoTokenizer.kw_use_fast, AutoTokenizer.kw_after_config,
    Dict.get_default, Dict.get, Dict.set, Dict.pop.
  rewrite odict_pop_fst.
  rewrite (@odict_get_set_other _ _ _ String.eqb_spec) by discriminate.
  rewrite (@odict_get_pop_other _ _ _ String.eqb_spec) by discriminate.
  reflexivity.
Qed.

Lemma kw_tokenizer_type_get kwargs :
  AutoTokenizer.kw_tokenizer_type kwargs = Dict.get_default kwargs "tokenizer_type" VNone.
Proof.
  unfold AutoTokenizer.kw_tokenizer_type, AutoTokenizer.kw_after_use_fast,
    AutoTokenizer.kw_after_config, Dict.get_default, Dict.get, Dict.set, Dict.pop.
  rewrite odict_pop_fst.
  rewrite (@odict_get_pop_other _ _ _ String.eqb_spec) by discriminate.
  rewrite (@odict_get_set_other _ _ _ String.eqb_spec) by discriminate.
  rewrite (@odict_get_pop_other _ _ _ String.eqb_spec) by discriminate.
  reflexivity.
Qed.

End KeywordArguments.

(** ** The guard on [tokenizer_type] *)

(** C10. A call that passes a [tokenizer_type] other than [None] raises
    [NotImplementedError] and leaves the world as it found it: no
    collaborator has been called (the trace is the same) and the registry is
    the same, so no strategy was started. *)
Theorem tokenizer_type_is_refused :
  forall (E : Env) (cls : Cls) (identifier : string) (model_args : list PyVal)
         (kwargs : PyDict) (w : World) (v : PyVal),
    Dict.get kwargs "tokenizer_type" = Some v ->
    v <> VNone ->
    AutoTokenizer.from_pretrained E cls identifier model_args kwargs w
    = (Raise (NotImplementedError "tokenizer_type is not supported yet."), w).
Proof.
  intros E cls identifier model_args kwargs w v Hget Hv.
  unfold AutoTokenizer.from_pretrained.
  rewrite kw_tokenizer_type_get. unfold Dict.get_default. rewrite Hget.
  destruct v; try reflexivity. now elim Hv.
Qed.

Lemma tokenizer_type_is_refused_witness :
  AutoTokenizer.from_pretrained Demo.env Demo.cls "bert-base-uncased" []
    [("use_fast", VBool true); ("tokenizer_type", VStr "bert")] Demo.world0
  = (Raise (NotImplementedError "tokenizer_type is not supported yet."), Demo.world0).
Proof.
  apply (@tokenizer_type_is_refused Demo.env Demo.cls "bert-base-uncased" []
           [("use_fast", VBool true); ("tokenizer_type", VStr "bert")] Demo.world0
           (VStr "bert")).
  - reflexivity.
  - discriminate.
Defined.

(** ** The built-in name shortcut *)

Section BuiltinNames.

(** The loop of lines 418-422 stops at the first entry that lists the
    identifier. *)
Lemma find_builtin_first (items : list (list string * TokClass)) (identifier : string) :
  In identifier (flat_map fst items) ->
  exists before names owner after,
    items = (before ++ (names, owner) :: after)%list
    /\ In identifier names
    /\ (forall e, In e before -> ~ In identifier (fst e))
    /\ AutoTokenizer.find_builtin items identifier = Some owner.
Proof.
  induction items as [|[names c] items IH]; simpl; [intros []|].
  intros Hin. destruct (PyStr.mem identifier names) eqn:Hmem.
  - exists [], names, c, items. repeat split; auto.
    now apply mem_In.
  - apply mem_not_In in Hmem. apply in_app_or in Hin.
    destruct Hin as [Hin|Hin]; [contradiction|].
    destruct (IH Hin) as (before & names' & owner & after & Heq & Hn & Hfirst & Hfind).
    exists ((names, c) :: before), names', owner, after. repeat split; auto.
    + simpl. now rewrite Heq.
    + intros e [<-|He]; [exact Hmem | now apply Hfirst].
Qed.

End BuiltinNames.

(** ** The known-identifier table *)

Section KnownIdentifiers.
Variable E : Env.

Lemma get_configurations_keys_sound class_name values :
  In (class_name, values) (TOKENIZER_MAPPING_NAMES E) ->
  forall all_tokenizers acc result,
    (forall key, In key all_tokenizers -> In key (get_mapping_tokenizers values false)) ->
    table_sound E acc ->
    get_configurations_keys E class_name all_tokenizers acc = Ok result ->
    table_sound E result.
Proof.
  intros Hin all_tokenizers.
  induction all_tokenizers as [|key rest IH]; intros acc result Hsub Hacc Hrun;
    cbn [get_configurations_keys] in Hrun.
  - now inversion Hrun; subst.
  - destruct (importlib_import_module E
                ("paddlenlp.transformers." ++ class_name ++ ".tokenizer"))
      as [import_class|] eqn:Himport; [|discriminate].
    destruct (import_class key) as [[| | | | | | | |c|]|] eqn:Hattr; try discriminate.
    apply (IH _ _ (fun k Hk => Hsub k (or_intror Hk))) in Hrun; [exact Hrun|].
    clear IH.
    intros names c' Hentry.
    apply odict_set_In in Hentry. destruct Hentry as [Heq|Hold]; [|now apply Hacc].
    inversion Heq; subst. split; [reflexivity|].
    exists class_name, values, key, import_class. repeat split; auto.
    apply Hsub. now left.
Qed.

Lemma get_configurations_items_sound items :
  (forall item, In item items -> In item (TOKENIZER_MAPPING_NAMES E)) ->
  forall acc result,
    table_sound E acc ->
    get_configurations_items E items acc = Ok result ->
    table_sound E result.
Proof.
  induction items as [|[class_name values] rest IH]; intros Hsub acc result Hacc Hrun;
    cbn [get_configurations_items] in Hrun.
  - now inversion Hrun; subst.
  - destruct (get_configurations_keys E class_name (get_mapping_tokenizers values false) acc)
      as [acc'|e] eqn:Hkeys; [|discriminate].
    apply (IH (fun item Hitem => Hsub item (or_intror Hitem)) acc' result); [|exact Hrun].
    eapply get_configurations_keys_sound with (class_name := class_name) (values := values);
      [apply Hsub; now left | | exact Hacc | exact Hkeys].
    auto.
Qed.

(** Every entry of the table the class body builds pairs a registered
    reference class with the identifiers it declares. *)
Lemma get_configurations_entries MAPPING_NAMES names c :
  get_configurations E = Ok MAPPING_NAMES ->
  In (names, c) MAPPING_NAMES ->
  names = pretrained_init_configuration c /\ registered_reference_class E c.
Proof.
  intros Hrun. revert names c.
  eapply get_configurations_items_sound with (items := TOKENIZER_MAPPING_NAMES E) (acc := []);
    [auto | intros names c [] | exact Hrun].
Qed.

End KnownIdentifiers.

(** C1. An identifier that a class of the known-identifier table lists
    resolves to the class of the first entry listing it -- the owning class,
    which is every lister when the identifier has a single owner -- and
    construction is handed to that class with the forwarded arguments.  The
    only collaborator call is the log line: [resolve_file_path] is not
    called and no configuration file is opened, whatever those collaborators
    would have answered.  When the table is the one the class body builds,
    the owner is a registered reference class and the identifier is one of
    those it declares. *)
Theorem builtin_name_skips_tokenizer_config :
  forall (E : Env) (cls : Cls) (identifier : string) (model_args : list PyVal)
         (kwargs : PyDict) (w : World),
    AutoTokenizer.kw_tokenizer_type kwargs = VNone ->
    In identifier (flat_map fst (_tokenizer_mapping cls)) ->
    exists before names owner after,
      _tokenizer_mapping cls = (before ++ (names, owner) :: after)%list
      /\ In identifier names
      /\ (forall e, In e before -> ~ In identifier (fst e))
      /\ (forall c, (forall e, In e (_tokenizer_mapping cls) ->
                               In identifier (fst e) -> snd e = c) -> owner = c)
      /\ (AutoTokenizer.class_body E = Ok cls ->
          registered_reference_class E owner
          /\ In identifier (pretrained_init_configuration owner))
      /\ AutoTokenizer.from_pretrained E cls identifier model_args kwargs w
         = (Ok (MkTokenizer owner identifier model_args (AutoTokenizer.kw_forwarded kwargs)),
            MkWorld (_extra_content w)
              (trace w ++ [EvLoggerInfo ("We are using " ++ repr_class owner ++ " to load '"
                                         ++ identifier ++ "'.")])%list).
Proof.
  intros E cls identifier model_args kwargs w Htype Hin.
  destruct (find_builtin_first _ _ Hin)
    as (before & names & owner & after & Heq & Hn & Hfirst & Hfind).
  exists before, names, owner, after.
  split; [exact Heq | split; [exact Hn | split; [exact Hfirst | split; [| split]]]].
  - intros c Hall.
    apply (Hall (names, owner)); [rewrite Heq; apply in_elt | exact Hn].
  - intros Hbody. unfold AutoTokenizer.class_body in Hbody.
    destruct (get_configurations E) as [m|e] eqn:Hconf; [|discriminate].
    inversion Hbody; subst cls. simpl in Heq.
    destruct (get_configurations_entries E names owner Hconf) as [Hnames Hreg].
    + rewrite Heq. apply in_elt.
    + split; [exact Hreg | now rewrite <- Hnames].
  - unfold AutoTokenizer.from_pretrained. rewrite Htype. change (negb (is_None VNone)) with false. cbv iota.
    apply mem_In in Hin. rewrite Hin, Hfind. reflexivity.
Qed.

Lemma builtin_name_skips_tokenizer_config_witness :
  AutoTokenizer.kw_tokenizer_type [("use_fast", VBool true)] = VNone
  /\ In "bart-large" (flat_map fst (_tokenizer_mapping Demo.cls))
  /\ AutoTokenizer.from_pretrained Demo.env Demo.cls "bart-large" [VInt 1]
       [("use_fast", VBool true)] Demo.world0
     = (Ok (MkTokenizer Demo.BartTokenizer "bart-large" [VInt 1] [("_from_auto", VBool true)]),
        MkWorld []
          [EvLoggerInfo
             "We are using <class 'paddlenlp.transformers.bart.tokenizer.BartTokenizer'> to load 'bart-large'."]).
Proof.
  assert (Htype : AutoTokenizer.kw_tokenizer_type [("use_fast", VBool true)] = VNone)
    by reflexivity.
  assert (Hin : In "bart-large" (flat_map fst (_tokenizer_mapping Demo.cls)))
    by (simpl; tauto).
  split; [exact Htype | split; [exact Hin |]].
  destruct (@builtin_name_skips_tokenizer_config Demo.env Demo.cls "bart-large" [VInt 1]
              [("use_fast", VBool true)] Demo.world0 Htype Hin)
    as (before & names & owner & after & _ & _ & _ & Hsingle & _ & Hrun).
  rewrite Hrun.
  rewrite (Hsingle Demo.BartTokenizer); [reflexivity|].
  intros e He Hid. simpl in He.
  destruct He as [<-|[<-|[<-|[<-|[]]]]]; simpl in Hid;
    repeat (destruct Hid as [Hid|Hid]; try discriminate Hid); try reflexivity;
    try contradiction.
Defined.

(** ** A missing tokenizer configuration *)

Lemma not_builtin_guard (cls : Cls) (identifier : string) :
  ~ In identifier (flat_map fst (_tokenizer_mapping cls)) ->
  (if PyStr.mem identifier (flat_map fst (_tokenizer_mapping cls))
   then AutoTokenizer.find_builtin (_tokenizer_mapping cls) identifier
   else None) = None.
Proof. intros H. apply mem_not_In in H. now rewrite H. Qed.

Section Resolution.
Variable E : Env.
Variable cls : Cls.
Variables (identifier : string) (model_args : list PyVal) (kwargs : PyDict).

(** Past the guard and the built-in names, [from_pretrained] is the
    declared-class step followed by one of the two strategies. *)
Lemma from_pretrained_not_builtin (w : World) :
  AutoTokenizer.kw_tokenizer_type kwargs = VNone ->
  ~ In identifier (flat_map fst (_tokenizer_mapping cls)) ->
  AutoTokenizer.from_pretrained E cls identifier model_args kwargs w
  = match AutoTokenizer.declared_class E (AutoTokenizer.kw_config kwargs)
            identifier (AutoTokenizer.kw_forwarded kwargs) w with
    | (Ok (inl name), w1) =>
        AutoTokenizer.from_declared_class E name (AutoTokenizer.kw_use_fast kwargs)
          identifier model_args (AutoTokenizer.kw_forwarded kwargs) w1
    | (Ok (inr config), w1) =>
        AutoTokenizer.from_model_config E config (AutoTokenizer.kw_use_fast kwargs)
          identifier model_args (AutoTokenizer.kw_forwarded kwargs) w1
    | (Raise e, w1) => (Raise e, w1)
    end.
Proof.
  intros Htype Hnot. unfold AutoTokenizer.from_pretrained.
  rewrite Htype. change (negb (is_None VNone)) with false. cbv iota.
  rewrite (not_builtin_guard _ _ Hnot). unfold bind.
  destruct (AutoTokenizer.declared_class E (AutoTokenizer.kw_config kwargs)
              identifier (AutoTokenizer.kw_forwarded kwargs) w) as [[[name|config]|e] w1]; reflexivity.
Qed.

(** The tokenizer configuration declares a class. *)
Lemma declared_by_tokenizer_config (config : PyVal) (kw : PyDict) (w w1 : World)
      (entries : PyDict) (name : PyVal) :
  get_tokenizer_config E identifier kw w = (Ok (VDict entries), w1) ->
  Dict.get_default entries "tokenizer_class" VNone = name ->
  is_None name = false ->
  AutoTokenizer.declared_class E config identifier kw w = (Ok (inl name), w1).
Proof.
  intros Hcfg Hget Hsome. unfold AutoTokenizer.declared_class.
  unfold bind at 1. rewrite Hcfg. unfold AutoTokenizer.config_get.
  unfold bind at 1. unfold ret at 1. rewrite Hget, Hsome. reflexivity.
Qed.

(** It declares none, and a model configuration was passed. *)
Lemma declared_by_passed_config (c : PretrainedConfig) (kw : PyDict) (w w1 : World)
      (entries : PyDict) :
  get_tokenizer_config E identifier kw w = (Ok (VDict entries), w1) ->
  Dict.get_default entries "tokenizer_class" VNone = VNone ->
  AutoTokenizer.declared_class E (VConfig c) identifier kw w
  = (Ok match tokenizer_class c with
        | Some name => inl (VStr name)
        | None => inr c
        end, w1).
Proof.
  intros Hcfg Hget. unfold AutoTokenizer.declared_class.
  unfold bind at 1. rewrite Hcfg. unfold AutoTokenizer.config_get.
  unfold bind at 1. unfold ret at 1. rewrite Hget. simpl is_None. cbv iota.
  unfold bind, ret. destruct (tokenizer_class c); reflexivity.
Qed.

(** It declares none, and [AutoConfig] supplies the model configuration. *)
Lemma declared_by_auto_config (config : PyVal) (c : PretrainedConfig) (kw : PyDict)
      (w w1 : World) (entries : PyDict) :
  get_tokenizer_config E identifier kw w = (Ok (VDict entries), w1) ->
  Dict.get_default entries "tokenizer_class" VNone = VNone ->
  (forall c', config <> VConfig c') ->
  AutoConfig_from_pretrained E identifier kw = Ok c ->
  AutoTokenizer.declared_class E config identifier kw w
  = (Ok match tokenizer_class c with
        | Some name => inl (VStr name)
        | None => inr c
        end,
     MkWorld (_extra_content w1) (trace w1 ++ [EvAutoConfig identifier kw])%list).
Proof.
  intros Hcfg Hget Hnot Hauto. unfold AutoTokenizer.declared_class.
  unfold bind at 1. rewrite Hcfg. unfold AutoTokenizer.config_get.
  unfold bind at 1. unfold ret at 1. rewrite Hget. simpl is_None. cbv iota.
  destruct config; try (py_unfold; simpl; rewrite Hauto;
                        destruct (tokenizer_class c); reflexivity).
  now elim (Hnot c0).
Qed.

(** No file: the empty mapping. *)
Lemma get_tokenizer_config_missing (kw : PyDict) (w : World) :
  resolve_file_path E identifier (TOKENIZER_CONFIG_FILE E) (fetch_options kw) = Ok None ->
  get_tokenizer_config E identifier kw w
  = (Ok (VDict []),
     MkWorld (_extra_content w)
       (trace w ++ [EvResolveFilePath identifier (TOKENIZER_CONFIG_FILE E) (fetch_options kw)]
        ++ [could_not_locate])%list).
Proof.
  intros Hres. unfold get_tokenizer_config. py_unfold. simpl. rewrite Hres. simpl.
  now rewrite <- app_assoc.
Qed.

(** A file that loads. *)
Lemma get_tokenizer_config_found (kw : PyDict) (w : World) (path : string) (v : PyVal) :
  resolve_file_path E identifier (TOKENIZER_CONFIG_FILE E) (fetch_options kw)
  = Ok (Some path) ->
  json_load E path = Ok v ->
  get_tokenizer_config E identifier kw w
  = (Ok v,
     MkWorld (_extra_content w)
       (trace w ++ [EvResolveFilePath identifier (TOKENIZER_CONFIG_FILE E) (fetch_options kw)]
        ++ [EvOpen path])%list).
Proof.
  intros Hres Hload. unfold get_tokenizer_config. py_unfold. simpl. rewrite Hres. simpl.
  rewrite Hload. now rewrite <- app_assoc.
Qed.

End Resolution.

(** ** A missing tokenizer configuration *)

(** "./plain_gpt" is a local directory without a tokenizer configuration
    file, and its model configuration resolves to a GPT tokenizer.  With a
    resolver that raises for such a directory, [get_tokenizer_config] does
    not return the empty mapping and [from_pretrained] does not go on to
    the model configuration: both end with the resolver's exception. *)
Lemma missing_file_in_a_directory_aborts :
  resolve_file_path Sample.local_dirs "./plain_gpt" "tokenizer_config.json"
    (fetch_options [("_from_auto", VBool true)])
  = Raise (OtherError "FileNotFoundError"
             "please make sure one of the ['tokenizer_config.json'] under the dir ./plain_gpt")
  /\ AutoConfig_from_pretrained Sample.local_dirs "./plain_gpt" [("_from_auto", VBool true)]
     = Ok (MkConfig Demo.GPTConfig None)
  /\ fst (get_tokenizer_config Sample.local_dirs "./plain_gpt" [("_from_auto", VBool true)]
            Demo.world0)
     = Raise (OtherError "FileNotFoundError"
                "please make sure one of the ['tokenizer_config.json'] under the dir ./plain_gpt")
  /\ fst (get_tokenizer_config Sample.local_dirs "./plain_gpt" [("_from_auto", VBool true)]
            Demo.world0) <> Ok (VDict [])
  /\ AutoTokenizer.from_pretrained Sample.local_dirs Demo.cls "./plain_gpt" [] [] Demo.world0
     = (Raise (OtherError "FileNotFoundError"
                 "please make sure one of the ['tokenizer_config.json'] under the dir ./plain_gpt"),
        MkWorld []
          [EvResolveFilePath "./plain_gpt" "tokenizer_config.json"
             (fetch_options [("_from_auto", VBool true)])]).
Proof.
  repeat split; try (vm_compute; reflexivity).
  vm_compute. discriminate.
Qed.

(** C8, as the code has it.  When [resolve_file_path] answers [None] for
    the tokenizer configuration file, [get_tokenizer_config] returns the
    empty mapping (after the two calls it makes: the resolution and a log
    line) and raises nothing; [from_pretrained] then goes on with the model
    configuration -- the one passed as [config], or else the one
    [AutoConfig.from_pretrained] returns -- and what happens next is decided
    there: by its declared [tokenizer_class], or by its type when it
    declares none.  When [resolve_file_path] raises instead,
    [get_tokenizer_config] raises the same exception and [from_pretrained]
    ends with it, before any model configuration is looked at. *)
Theorem missing_tokenizer_config_is_empty :
  forall (E : Env) (cls : Cls) (identifier : string) (model_args : list PyVal)
         (kwargs : PyDict) (w : World),
    let forwarded := AutoTokenizer.kw_forwarded kwargs in
    let located :=
      EvResolveFilePath identifier (TOKENIZER_CONFIG_FILE E) (fetch_options forwarded) in
    let next (config : PretrainedConfig) (w1 : World) :=
      match tokenizer_class config with
      | Some name =>
          AutoTokenizer.from_declared_class E (VStr name) (AutoTokenizer.kw_use_fast kwargs)
            identifier model_args forwarded w1
      | None =>
          AutoTokenizer.from_model_config E config (AutoTokenizer.kw_use_fast kwargs)
            identifier model_args forwarded w1
      end in
    (resolve_file_path E identifier (TOKENIZER_CONFIG_FILE E) (fetch_options forwarded)
     = Ok None ->
     get_tokenizer_config E identifier forwarded w
     = (Ok (VDict []),
        MkWorld (_extra_content w) (trace w ++ [located] ++ [could_not_locate])%list)
     /\ (AutoTokenizer.kw_tokenizer_type kwargs = VNone ->
         ~ In identifier (flat_map fst (_tokenizer_mapping cls)) ->
         (forall config,
             AutoTokenizer.kw_config kwargs = VConfig config ->
             AutoTokenizer.from_pretrained E cls identifier model_args kwargs w
             = next config
                 (MkWorld (_extra_content w)
                    (trace w ++ [located] ++ [could_not_locate])%list))
         /\ (forall config,
                (forall c, AutoTokenizer.kw_config kwargs <> VConfig c) ->
                AutoConfig_from_pretrained E identifier forwarded = Ok config ->
                AutoTokenizer.from_pretrained E cls identifier model_args kwargs w
                = next config
                    (MkWorld (_extra_content w)
                       ((trace w ++ [located] ++ [could_not_locate])
                        ++ [EvAutoConfig identifier forwarded])%list))))
    /\ (forall e,
           resolve_file_path E identifier (TOKENIZER_CONFIG_FILE E) (fetch_options forwarded)
           = Raise e ->
           get_tokenizer_config E identifier forwarded w
           = (Raise e, MkWorld (_extra_content w) (trace w ++ [located])%list)
           /\ (AutoTokenizer.kw_tokenizer_type kwargs = VNone ->
               ~ In identifier (flat_map fst (_tokenizer_mapping cls)) ->
               AutoTokenizer.from_pretrained E cls identifier model_args kwargs w
               = (Raise e, MkWorld (_extra_content w) (trace w ++ [located])%list))).
Proof.
  intros E cls identifier model_args kwargs w forwarded located next. split.
  - intros Hres.
    pose proof (get_tokenizer_config_missing E identifier forwarded w Hres) as Hcfg.
    subst forwarded located. cbv zeta.
    split; [exact Hcfg|].
    intros Htype Hnot. split.
    + intros config Hconfig.
      rewrite (from_pretrained_not_builtin E cls identifier model_args kwargs w Htype Hnot).
      rewrite Hconfig.
      rewrite (declared_by_passed_config E identifier config _ w Hcfg eq_refl).
      unfold next. destruct (tokenizer_class config); reflexivity.
    + intros config Hconfig Hauto.
      rewrite (from_pretrained_not_builtin E cls identifier model_args kwargs w Htype Hnot).
      rewrite (declared_by_auto_config E identifier _ w Hcfg eq_refl Hconfig Hauto).
      unfold next. destruct (tokenizer_class config); reflexivity.
  - intros e Hres.
    assert (Hcfg : get_tokenizer_config E identifier forwarded w
                   = (Raise e, MkWorld (_extra_content w) (trace w ++ [located])%list)).
    { unfold get_tokenizer_config. py_unfold. simpl. subst forwarded located.
      now rewrite Hres. }
    split; [exact Hcfg|]. intros Htype Hnot.
    rewrite (from_pretrained_not_builtin E cls identifier model_args kwargs w Htype Hnot).
    unfold AutoTokenizer.declared_class. unfold bind at 1.
    subst forwarded located. now rewrite Hcfg.
Qed.

Lemma missing_tokenizer_config_is_empty_witness :
  resolve_file_path Demo.env "./plain_gpt" (TOKENIZER_CONFIG_FILE Demo.env)
    (fetch_options (AutoTokenizer.kw_forwarded [])) = Ok None
  /\ get_tokenizer_config Demo.env "./plain_gpt" [("_from_auto", VBool true)] Demo.world0
     = (Ok (VDict []),
        MkWorld []
          [EvResolveFilePath "./plain_gpt" "tokenizer_config.json"
             (fetch_options [("_from_auto", VBool true)]);
           could_not_locate])
  /\ fst (AutoTokenizer.from_pretrained Demo.env Demo.cls "./plain_gpt" [] [] Demo.world0)
     = Ok (MkTokenizer Demo.GPTTokenizer "./plain_gpt" [] [("_from_auto", VBool true)]).
Proof.
  assert (Hres : resolve_file_path Demo.env "./plain_gpt" (TOKENIZER_CONFIG_FILE Demo.env)
                   (fetch_options (AutoTokenizer.kw_forwarded [])) = Ok None)
    by reflexivity.
  destruct (@missing_tokenizer_config_is_empty Demo.env Demo.cls "./plain_gpt" [] []
              Demo.world0) as [Hnone _].
  destruct (Hnone Hres) as [Hcfg Hnext].
  split; [exact Hres | split; [exact Hcfg |]].
  assert (Hnot : ~ In "./plain_gpt" (flat_map fst (_tokenizer_mapping Demo.cls))).
  { simpl. intros H.
    repeat (destruct H as [H|H]; [discriminate H|]). exact H. }
  destruct (Hnext eq_refl Hnot) as [_ Hauto].
  rewrite (Hauto (MkConfig Demo.GPTConfig None)).
  - reflexivity.
  - intros c H. discriminate H.
  - reflexivity.
Defined.

(** ** A declared class name *)

Section DeclaredClass.
Variable E : Env.
Variables (identifier : string) (model_args : list PyVal) (kw : PyDict).

(** [use_fast] is set and the name has no [Fast] suffix: the suffixed name
    is looked up first. *)
Lemma declared_fast_first (name : string) (use_fast : PyVal) (w : World) :
  truthy use_fast = true ->
  PyStr.endswith name "Fast" = false ->
  AutoTokenizer.from_declared_class E (VStr name) use_fast identifier model_args kw w
  = match tokenizer_class_from_name E (_extra_content w) (name ++ "Fast") with
    | Raise e => (Raise e, w)
    | Ok VNone =>
        match tokenizer_class_from_name E (_extra_content w) name with
        | Raise e => (Raise e, w)
        | Ok VNone =>
            (Raise (ValueError ("Tokenizer class " ++ name
                                ++ " does not exist or is not currently imported.")), w)
        | Ok found =>
            AutoTokenizer.call_from_pretrained found identifier model_args kw w
        end
    | Ok found => AutoTokenizer.call_from_pretrained found identifier model_args kw w
    end.
Proof.
  intros Hfast Hsuffix. unfold AutoTokenizer.from_declared_class.
  rewrite Hfast, Hsuffix. unfold AutoTokenizer.lookup_class. py_unfold. simpl.
  destruct (tokenizer_class_from_name E (_extra_content w) (name ++ "Fast"))
    as [found|e]; [|reflexivity].
  destruct found; simpl; try reflexivity.
  destruct (tokenizer_class_from_name E (_extra_content w) name)
    as [found|e]; [|reflexivity].
  destruct found; reflexivity.
Qed.

(** Otherwise the declared name is the only one looked up. *)
Lemma declared_literal (name : string) (use_fast : PyVal) (w : World) :
  truthy use_fast = false \/ PyStr.endswith name "Fast" = true ->
  AutoTokenizer.from_declared_class E (VStr name) use_fast identifier model_args kw w
  = match tokenizer_class_from_name E (_extra_content w) name with
    | Raise e => (Raise e, w)
    | Ok VNone =>
        (Raise (ValueError ("Tokenizer class " ++ name
                            ++ " does not exist or is not currently imported.")), w)
    | Ok found => AutoTokenizer.call_from_pretrained found identifier model_args kw w
    end.
Proof.
  intros Hcase. unfold AutoTokenizer.from_declared_class.
  assert (Hfirst :
            (if truthy use_fast
             then if negb (PyStr.endswith name "Fast")
                  then bind (AutoTokenizer.lookup_class E (VStr (name ++ "Fast")))
                         (fun tokenizer_class => ret (tokenizer_class, VStr (name ++ "Fast")))
                  else ret (VNone, VNone)
             else ret (VNone, VNone)) = ret (VNone, VNone)).
  { destruct Hcase as [-> | ->]; [reflexivity|]. now destruct (truthy use_fast). }
  rewrite Hfirst. unfold AutoTokenizer.lookup_class. py_unfold. simpl.
  destruct (tokenizer_class_from_name E (_extra_content w) name)
    as [found|e]; [|reflexivity].
  destruct found; reflexivity.
Qed.

(** A name that no architecture lists, no registered entry carries and the
    main module does not export has no class: the lookup answers [None], it
    does not raise. *)
Lemma unregistered_name_is_None (extra_content : list (ConfigType * (PyVal * PyVal)))
      (name : string) (main_module : PyModule) :
  name <> "PretrainedTokenizerFast" ->
  class_from_table E (TOKENIZER_MAPPING_NAMES E) name = None ->
  class_from_extra_content extra_content name = None ->
  importlib_import_module E "paddlenlp" = Some main_module ->
  main_module name = None ->
  tokenizer_class_from_name E extra_content name = Ok VNone.
Proof.
  intros Hname Htable Hextra Hmain Hattr. unfold tokenizer_class_from_name.
  destruct (String.eqb_spec name "PretrainedTokenizerFast") as [Heq|_];
    [contradiction|].
  now rewrite Htable, Hextra, Hmain, Hattr.
Qed.

(** The table lists a name exactly when some architecture does. *)
Lemma class_from_table_None (items : list (string * MappingNames)) (name : string) :
  class_from_table E items name = None
  <-> forall module_name tokenizers,
      In (module_name, tokenizers) items ->
      ~ In name (get_mapping_tokenizers tokenizers true).
Proof.
  induction items as [|[module_name tokenizers] rest IH]; simpl.
  - split; [intros _ ? ? [] | reflexivity].
  - destruct (PyStr.mem name (get_mapping_tokenizers tokenizers true)) eqn:Hmem.
    + split; [discriminate|]. intros Hall. apply mem_In in Hmem.
      now elim (Hall module_name tokenizers (or_introl eq_refl)).
    + apply mem_not_In in Hmem. rewrite IH. split.
      * intros Hall m t [Heq|Hin]; [inversion Heq; now subst | exact (Hall m t Hin)].
      * intros Hall m t Hin. apply (Hall m t). now right.
Qed.

End DeclaredClass.

(** C4. [use_fast] is set and the declared class name does not end in
    [Fast].  The name with the suffix is looked up first, and a class found
    there is the one used.  When that lookup finds nothing, the declared
    name is looked up and a class found there is used.  When both find
    nothing, [ValueError] is raised and its message names the last name
    tried, the declared one. *)
Theorem accelerated_name_is_tried_first :
  forall (E : Env) (cls : Cls) (identifier : string) (model_args : list PyVal)
         (kwargs : PyDict) (w w1 : World) (declared : string),
    AutoTokenizer.kw_tokenizer_type kwargs = VNone ->
    ~ In identifier (flat_map fst (_tokenizer_mapping cls)) ->
    truthy (AutoTokenizer.kw_use_fast kwargs) = true ->
    PyStr.endswith declared "Fast" = false ->
    AutoTokenizer.declared_class E (AutoTokenizer.kw_config kwargs) identifier
      (AutoTokenizer.kw_forwarded kwargs) w = (Ok (inl (VStr declared)), w1) ->
    let lookup := tokenizer_class_from_name E (_extra_content w1) in
    let run := AutoTokenizer.from_pretrained E cls identifier model_args kwargs w in
    let built c := MkTokenizer c identifier model_args (AutoTokenizer.kw_forwarded kwargs) in
    (forall c, lookup (declared ++ "Fast") = Ok (VClass c) -> run = (Ok (built c), w1))
    /\ (forall c,
           lookup (declared ++ "Fast") = Ok VNone ->
           lookup declared = Ok (VClass c) ->
           run = (Ok (built c), w1))
    /\ (lookup (declared ++ "Fast") = Ok VNone ->
        lookup declared = Ok VNone ->
        run = (Raise (ValueError ("Tokenizer class " ++ declared
                                  ++ " does not exist or is not currently imported.")),
               w1)).
Proof.
  intros E cls identifier model_args kwargs w w1 declared Htype Hnot Hfast Hsuffix Hdecl
         lookup run built.
  assert (Hrun : run = AutoTokenizer.from_declared_class E (VStr declared)
                         (AutoTokenizer.kw_use_fast kwargs) identifier model_args
                         (AutoTokenizer.kw_forwarded kwargs) w1).
  { unfold run. rewrite (from_pretrained_not_builtin E cls identifier model_args kwargs w Htype Hnot).
    now rewrite Hdecl. }
  rewrite Hrun, (declared_fast_first E identifier model_args _ declared _ w1 Hfast Hsuffix).
  fold lookup. repeat split.
  - intros c ->. reflexivity.
  - intros c -> ->. reflexivity.
  - intros -> ->. reflexivity.
Qed.

Lemma accelerated_name_is_tried_first_witness :
  tokenizer_class_from_name Demo.env [] "BartTokenizerFast" = Ok VNone
  /\ tokenizer_class_from_name Demo.env [] "BartTokenizer" = Ok (VClass Demo.BartTokenizer)
  /\ fst (AutoTokenizer.from_pretrained Demo.env Demo.cls "./bart" []
            [("use_fast", VBool true)] Demo.world0)
     = Ok (MkTokenizer Demo.BartTokenizer "./bart" [] [("_from_auto", VBool true)]).
Proof.
  assert (Hnot : ~ In "./bart" (flat_map fst (_tokenizer_mapping Demo.cls))).
  { simpl. intros H.
    repeat (destruct H as [H|H]; [discriminate H|]). exact H. }
  destruct (@accelerated_name_is_tried_first Demo.env Demo.cls "./bart" []
              [("use_fast", VBool true)] Demo.world0
              (MkWorld []
                 [EvResolveFilePath "./bart" "tokenizer_config.json"
                    (fetch_options [("_from_auto", VBool true)]);
                  EvOpen "./bart/tokenizer_config.json"])
              "BartTokenizer" eq_refl Hnot eq_refl eq_refl eq_refl)
    as (_ & Hfallback & _).
  split; [vm_compute; reflexivity | split; [vm_compute; reflexivity |]].
  rewrite (Hfallback Demo.BartTokenizer); [reflexivity | vm_compute; reflexivity
                                          | vm_compute; reflexivity].
Defined.

(** C5. A declared class name that already ends in [Fast] is looked up as
    it stands, whatever [use_fast] says (in particular when it is false):
    the class found under that very name is the one construction is handed
    to. *)
Theorem declared_fast_name_is_kept :
  forall (E : Env) (cls : Cls) (identifier : string) (model_args : list PyVal)
         (kwargs : PyDict) (w w1 : World) (declared : string) (found : TokClass),
    AutoTokenizer.kw_tokenizer_type kwargs = VNone ->
    ~ In identifier (flat_map fst (_tokenizer_mapping cls)) ->
    PyStr.endswith declared "Fast" = true ->
    AutoTokenizer.declared_class E (AutoTokenizer.kw_config kwargs) identifier
      (AutoTokenizer.kw_forwarded kwargs) w = (Ok (inl (VStr declared)), w1) ->
    tokenizer_class_from_name E (_extra_content w1) declared = Ok (VClass found) ->
    AutoTokenizer.from_pretrained E cls identifier model_args kwargs w
    = (Ok (MkTokenizer found identifier model_args (AutoTokenizer.kw_forwarded kwargs)), w1).
Proof.
  intros E cls identifier model_args kwargs w w1 declared found Htype Hnot Hsuffix Hdecl Hfound.
  rewrite (from_pretrained_not_builtin E cls identifier model_args kwargs w Htype Hnot), Hdecl.
  rewrite declared_literal by (now right).
  now rewrite Hfound.
Qed.

Lemma declared_fast_name_is_kept_witness :
  truthy (AutoTokenizer.kw_use_fast [("use_fast", VBool false)]) = false
  /\ AutoTokenizer.from_pretrained Demo.env Demo.cls "./bert_fast" []
       [("use_fast", VBool false)] Demo.world0
     = (Ok (MkTokenizer Demo.BertTokenizerFast "./bert_fast" [] [("_from_auto", VBool true)]),
        MkWorld []
          [EvResolveFilePath "./bert_fast" "tokenizer_config.json"
             (fetch_options [("_from_auto", VBool true)]);
           EvOpen "./bert_fast/tokenizer_config.json"])
  /\ cls_name Demo.BertTokenizerFast = "BertTokenizerFast"
  /\ is_fast Demo.BertTokenizerFast = true.
Proof.
  assert (Hnot : ~ In "./bert_fast" (flat_map fst (_tokenizer_mapping Demo.cls))).
  { simpl. intros H.
    repeat (destruct H as [H|H]; [discriminate H|]). exact H. }
  split; [reflexivity | split; [| split; reflexivity]].
  apply (@declared_fast_name_is_kept Demo.env Demo.cls "./bert_fast" []
           [("use_fast", VBool false)] Demo.world0 _ "BertTokenizerFast"
           Demo.BertTokenizerFast eq_refl Hnot eq_refl).
  - reflexivity.
  - vm_compute. reflexivity.
Defined.

(** ** Which key of the tokenizer configuration names the class *)

(** The configuration of "./both_keys" names [BertTokenizer] under
    [init_class] and [GPTTokenizer] under [tokenizer_class]; both classes
    exist; [from_pretrained] resolves to the one under [tokenizer_class]. *)
Lemma both_keys_resolve_by_tokenizer_class :
  json_load Demo.env "./both_keys/tokenizer_config.json"
  = Ok (VDict [("init_class", VStr "BertTokenizer"); ("tokenizer_class", VStr "GPTTokenizer")])
  /\ tokenizer_class_from_name Demo.env [] "BertTokenizer" = Ok (VClass Demo.BertTokenizer)
  /\ tokenizer_class_from_name Demo.env [] "GPTTokenizer" = Ok (VClass Demo.GPTTokenizer)
  /\ fst (AutoTokenizer.from_pretrained Demo.env Demo.cls "./both_keys" [] [] Demo.world0)
     = Ok (MkTokenizer Demo.GPTTokenizer "./both_keys" [] [("_from_auto", VBool true)])
  /\ fst (AutoTokenizer.from_pretrained Demo.env Demo.cls "./both_keys" [] [] Demo.world0)
     <> Ok (MkTokenizer Demo.BertTokenizer "./both_keys" [] [("_from_auto", VBool true)]).
Proof.
  repeat split; try (vm_compute; reflexivity).
  vm_compute. discriminate.
Qed.

(** C2, as the code has it.  [from_pretrained] takes the declared class
    name from the [tokenizer_class] key of the tokenizer configuration and
    from nothing else in it: whatever the mapping holds under [init_class],
    a [tokenizer_class] that is not [None] is the name resolved.  The
    preference for [init_class] belongs to
    [_get_tokenizer_class_from_config] alone, which [from_pretrained] does
    not call: there [init_class] is read first and [tokenizer_class] only
    when [init_class] is missing (or [None]), and the class found under the
    name so chosen is the result. *)
Theorem tokenizer_class_key_names_the_class :
  forall (E : Env) (cls : Cls) (identifier : string),
    (forall (model_args : list PyVal) (kwargs : PyDict) (w w1 : World)
            (entries : PyDict) (declared : PyVal),
        AutoTokenizer.kw_tokenizer_type kwargs = VNone ->
        ~ In identifier (flat_map fst (_tokenizer_mapping cls)) ->
        get_tokenizer_config E identifier (AutoTokenizer.kw_forwarded kwargs) w
        = (Ok (VDict entries), w1) ->
        Dict.get entries "tokenizer_class" = Some declared ->
        is_None declared = false ->
        AutoTokenizer.from_pretrained E cls identifier model_args kwargs w
        = AutoTokenizer.from_declared_class E declared (AutoTokenizer.kw_use_fast kwargs)
            identifier model_args (AutoTokenizer.kw_forwarded kwargs) w1)
    /\ (forall (entries : PyDict) (v : PyVal),
           Dict.get entries "init_class" = Some v ->
           is_None v = false ->
           AutoTokenizer.pop_init_class entries = v)
    /\ (forall (entries : PyDict),
           Dict.get entries "init_class" = None
           \/ Dict.get entries "init_class" = Some VNone ->
           AutoTokenizer.pop_init_class entries
           = Dict.get_default entries "tokenizer_class" VNone)
    /\ (forall (config_file_path : string) (w : World) (entries : PyDict)
               (name_mapping : list (string * string)) (name class_name : string)
               (module : PyModule) (found : PyVal),
           json_load E config_file_path = Ok (VDict entries) ->
           AutoTokenizer.pop_init_class entries = VStr name ->
           name <> "" ->
           _name_mapping cls = Some name_mapping ->
           Dict.get name_mapping name = Some class_name ->
           import_module E ("paddlenlp.transformers." ++ class_name ++ ".tokenizer")
           = Some module ->
           module name = Some found ->
           AutoTokenizer._get_tokenizer_class_from_config E cls identifier
             config_file_path VNone w
           = (Ok found, MkWorld (_extra_content w) (trace w ++ [EvOpen config_file_path])%list)).
Proof.
  intros E cls identifier. repeat split.
  - intros model_args kwargs w w1 entries declared Htype Hnot Hcfg Hget Hsome.
    rewrite (from_pretrained_not_builtin E cls identifier model_args kwargs w Htype Hnot).
    rewrite (declared_by_tokenizer_config E identifier (AutoTokenizer.kw_config kwargs)
               _ w Hcfg (name := declared)); [reflexivity | | exact Hsome].
    unfold Dict.get_default. now rewrite Hget.
  - intros entries v Hget Hsome.
    unfold AutoTokenizer.pop_init_class, Dict.pop, ODict.pop, Dict.get in *.
    rewrite Hget. simpl. now rewrite Hsome.
  - intros entries [Hget | Hget].
    + unfold AutoTokenizer.pop_init_class, Dict.pop, ODict.pop, Dict.get_default, Dict.get in *.
      rewrite Hget. simpl.
      destruct (ODict.get String.eqb entries "tokenizer_class"); reflexivity.
    + unfold AutoTokenizer.pop_init_class, Dict.pop, ODict.pop, Dict.get_default, Dict.get in *.
      rewrite Hget. simpl.
      rewrite (@odict_get_remove_other _ _ _ String.eqb_spec) by discriminate.
      destruct (ODict.get String.eqb entries "tokenizer_class"); reflexivity.
  - intros config_file_path w entries name_mapping name class_name module found
           Hload Hpop Hname Hmap Hget Himport Hattr.
    unfold AutoTokenizer._get_tokenizer_class_from_config. py_unfold. simpl.
    rewrite Hload, Hpop. simpl.
    destruct (String.eqb_spec name "") as [->|_]; [now elim Hname|]. simpl.
    rewrite Hmap, Hget. simpl in Himport. rewrite Himport, Hattr. reflexivity.
Qed.

Lemma tokenizer_class_key_names_the_class_witness :
  AutoTokenizer.from_pretrained Demo.env Demo.cls "./both_keys" [] [] Demo.world0
  = AutoTokenizer.from_declared_class Demo.env (VStr "GPTTokenizer") (VBool false)
      "./both_keys" [] [("_from_auto", VBool true)]
      (MkWorld []
         [EvResolveFilePath "./both_keys" "tokenizer_config.json"
            (fetch_options [("_from_auto", VBool true)]);
          EvOpen "./both_keys/tokenizer_config.json"])
  /\ AutoTokenizer._get_tokenizer_class_from_config Demo.env Demo.legacy_cls "./both_keys"
       "./both_keys/tokenizer_config.json" VNone Demo.world0
     = (Ok (VClass Demo.BertTokenizer),
        MkWorld [] [EvOpen "./both_keys/tokenizer_config.json"])
  /\ AutoTokenizer.pop_init_class
       [("init_class", VNone); ("tokenizer_class", VStr "GPTTokenizer")]
     = VStr "GPTTokenizer".
Proof.
  assert (Hnot : ~ In "./both_keys" (flat_map fst (_tokenizer_mapping Demo.cls))).
  { simpl. intros H.
    repeat (destruct H as [H|H]; [discriminate H|]). exact H. }
  split; [|split].
  - destruct (@tokenizer_class_key_names_the_class Demo.env Demo.cls "./both_keys")
      as (Hkey & _).
    apply (Hkey [] [] Demo.world0 _
             [("init_class", VStr "BertTokenizer"); ("tokenizer_class", VStr "GPTTokenizer")]
             (VStr "GPTTokenizer") eq_refl Hnot); reflexivity.
  - destruct (@tokenizer_class_key_names_the_class Demo.env Demo.legacy_cls "./both_keys")
      as (_ & _ & _ & Hhelper).
    apply (Hhelper "./both_keys/tokenizer_config.json" Demo.world0
             [("init_class", VStr "BertTokenizer"); ("tokenizer_class", VStr "GPTTokenizer")]
             [("BertTokenizer", "bert"); ("GPTTokenizer", "gpt")]
             "BertTokenizer" "bert"
             (Demo.attrs [("BertTokenizer", VClass Demo.BertTokenizer)]));
      try reflexivity.
    discriminate.
  - destruct (@tokenizer_class_key_names_the_class Demo.env Demo.cls "./both_keys")
      as (_ & _ & Hnull & _).
    rewrite Hnull; [reflexivity | now right].
Defined.

(** ** The model-configuration strategy *)

Section ModelConfig.
Variable E : Env.
Variables (identifier : string) (model_args : list PyVal) (kw : PyDict).
Variable config : PretrainedConfig.
Variable use_fast : PyVal.
Variables w w1 : World.
Variable model_type : string.

Hypothesis known_type :
  config_class_to_model_type E (cfg_name (config_type config)) = Some model_type.

(** The accelerated class is used when there is one and either [use_fast]
    is set or there is no reference class. *)
Lemma model_config_accelerated (py : PyVal) (fast : TokClass) :
  AutoTokenizer.TOKENIZER_MAPPING_getitem E (config_type config) w
  = (Ok (VTuple [py; VClass fast]), w1) ->
  truthy use_fast || is_None py = true ->
  AutoTokenizer.from_model_config E config use_fast identifier model_args kw w
  = (Ok (MkTokenizer fast identifier model_args kw), w1).
Proof.
  intros Hget Hcase. unfold AutoTokenizer.from_model_config.
  rewrite known_type. unfold bind at 1. rewrite Hget. py_unfold. simpl.
  rewrite Hcase. reflexivity.
Qed.

(** A collection of reference classes: the first one, after a printed line. *)
Lemma model_config_first_candidate (first : TokClass) (others : list PyVal) (fast : PyVal) :
  AutoTokenizer.TOKENIZER_MAPPING_getitem E (config_type config) w
  = (Ok (VTuple [VTuple (VClass first :: others); fast]), w1) ->
  truthy fast && truthy use_fast = false ->
  AutoTokenizer.from_model_config E config use_fast identifier model_args kw w
  = (Ok (MkTokenizer first identifier model_args kw),
     MkWorld (_extra_content w1)
       (trace w1 ++ [EvPrint ("We are using " ++ repr_class first ++ " to load '"
                              ++ identifier ++ "'.")])%list).
Proof.
  intros Hget Hcase. unfold AutoTokenizer.from_model_config.
  rewrite known_type. unfold bind at 1. rewrite Hget. py_unfold. simpl.
  rewrite orb_false_r, Hcase. reflexivity.
Qed.

(** Neither slot is filled. *)
Lemma model_config_neither (fast : PyVal) :
  AutoTokenizer.TOKENIZER_MAPPING_getitem E (config_type config) w
  = (Ok (VTuple [VNone; fast]), w1) ->
  truthy fast = false ->
  AutoTokenizer.from_model_config E config use_fast identifier model_args kw w
  = (Raise (ValueError
              "This tokenizer cannot be instantiated. Please make sure you have `sentencepiece` installed in order to use this tokenizer."),
     w1).
Proof.
  intros Hget Hcase. unfold AutoTokenizer.from_model_config.
  rewrite known_type. unfold bind at 1. rewrite Hget. py_unfold. simpl.
  rewrite Hcase. reflexivity.
Qed.

(** A single reference class in a pair is subscripted, not used. *)
Lemma model_config_single_in_pair (single : TokClass) (fast : PyVal) :
  AutoTokenizer.TOKENIZER_MAPPING_getitem E (config_type config) w
  = (Ok (VTuple [VClass single; fast]), w1) ->
  truthy fast && truthy use_fast = false ->
  AutoTokenizer.from_model_config E config use_fast identifier model_args kw w
  = (Raise (TypeError "'type' object is not subscriptable"), w1).
Proof.
  intros Hget Hcase. unfold AutoTokenizer.from_model_config.
  rewrite known_type. unfold bind at 1. rewrite Hget. py_unfold. simpl.
  rewrite orb_false_r, Hcase. reflexivity.
Qed.

(** So is a single reference class on its own. *)
Lemma model_config_single_alone (single : TokClass) :
  AutoTokenizer.TOKENIZER_MAPPING_getitem E (config_type config) w
  = (Ok (VClass single), w1) ->
  AutoTokenizer.from_model_config E config use_fast identifier model_args kw w
  = (Raise (TypeError "'type' object is not subscriptable"), w1).
Proof.
  intros Hget. unfold AutoTokenizer.from_model_config.
  rewrite known_type. unfold bind at 1. rewrite Hget. reflexivity.
Qed.

(** The arm guarded by [isinstance(tokenizer_class_py, str)] calls
    [from_pretrained] on a string. *)
Lemma model_config_name_alone (name : string) :
  AutoTokenizer.TOKENIZER_MAPPING_getitem E (config_type config) w
  = (Ok (VStr name), w1) ->
  AutoTokenizer.from_model_config E config use_fast identifier model_args kw w
  = (Raise (AttributeError "object has no attribute 'from_pretrained'"), w1).
Proof.
  intros Hget. unfold AutoTokenizer.from_model_config.
  rewrite known_type. unfold bind at 1. rewrite Hget. reflexivity.
Qed.

End ModelConfig.

(** C3, the part the code misses.  No class is declared and the type of
    the model configuration maps to an architecture.  When the reference
    slot holds a single class and the accelerated class is not chosen, lines
    457-464 do not use that class: the test
    [isinstance(tokenizer_class_py, str)] is false for a class, so the class
    is subscripted and [from_pretrained] raises [TypeError].  This holds for
    a class registered on its own and for one registered in a pair. *)
Theorem single_reference_class_is_subscripted :
  forall (E : Env) (cls : Cls) (identifier : string) (model_args : list PyVal)
         (kwargs : PyDict) (config : PretrainedConfig) (w w0 w1 : World)
         (model_type : string) (single : TokClass),
    AutoTokenizer.kw_tokenizer_type kwargs = VNone ->
    ~ In identifier (flat_map fst (_tokenizer_mapping cls)) ->
    AutoTokenizer.declared_class E (AutoTokenizer.kw_config kwargs) identifier
      (AutoTokenizer.kw_forwarded kwargs) w = (Ok (inr config), w0) ->
    config_class_to_model_type E (cfg_name (config_type config)) = Some model_type ->
    (AutoTokenizer.TOKENIZER_MAPPING_getitem E (config_type config) w0
     = (Ok (VClass single), w1)
     \/ exists fast,
         AutoTokenizer.TOKENIZER_MAPPING_getitem E (config_type config) w0
         = (Ok (VTuple [VClass single; fast]), w1)
         /\ truthy fast && truthy (AutoTokenizer.kw_use_fast kwargs) = false) ->
    AutoTokenizer.from_pretrained E cls identifier model_args kwargs w
    = (Raise (TypeError "'type' object is not subscriptable"), w1).
Proof.
  intros E cls identifier model_args kwargs config w w0 w1 model_type single
         Htype Hnot Hdecl Hknown Hentry.
  rewrite (from_pretrained_not_builtin E cls identifier model_args kwargs w Htype Hnot), Hdecl.
  destruct Hentry as [Hget | [fast [Hget Hcase]]].
  - now apply model_config_single_alone with (model_type := model_type) (single := single).
  - now apply model_config_single_in_pair
      with (model_type := model_type) (single := single) (fast := fast).
Qed.

Lemma single_reference_class_is_subscripted_witness :
  lazy_getitem Demo.env Demo.BartConfig = Ok (VClass Demo.BartTokenizer)
  /\ AutoTokenizer.from_pretrained Demo.env Demo.cls "./plain_bart" [] [] Demo.world0
     = (Raise (TypeError "'type' object is not subscriptable"),
        MkWorld []
          [EvResolveFilePath "./plain_bart" "tokenizer_config.json"
             (fetch_options [("_from_auto", VBool true)]);
           could_not_locate;
           EvAutoConfig "./plain_bart" [("_from_auto", VBool true)]])
  /\ fst (AutoTokenizer.from_pretrained Demo.env Demo.cls "./anything" []
            [("config", VConfig (MkConfig Demo.BertConfig None))] Demo.world0)
     = Raise (TypeError "'type' object is not subscriptable").
Proof.
  assert (Hnot : ~ In "./plain_bart" (flat_map fst (_tokenizer_mapping Demo.cls))).
  { simpl. intros H. repeat (destruct H as [H|H]; [discriminate H|]). exact H. }
  split; [reflexivity | split; [| vm_compute; reflexivity]].
  set (w1 := MkWorld []
                [EvResolveFilePath "./plain_bart" "tokenizer_config.json"
                   (fetch_options [("_from_auto", VBool true)]);
                 could_not_locate;
                 EvAutoConfig "./plain_bart" [("_from_auto", VBool true)]]).
  apply (@single_reference_class_is_subscripted Demo.env Demo.cls "./plain_bart" [] []
           (MkConfig Demo.BartConfig None) Demo.world0 w1 w1 "bart" Demo.BartTokenizer
           eq_refl Hnot).
  - vm_compute. reflexivity.
  - reflexivity.
  - left. reflexivity.
Defined.

(** ** Nothing resolves *)

Lemma append_assoc (a b c : string) : (a ++ b) ++ c = a ++ b ++ c.
Proof. induction a as [|x a IH]; simpl; [reflexivity | now rewrite IH]. Qed.

Lemma prefix_append (sub s : string) :
  String.prefix sub s = true <-> exists post, s = sub ++ post.
Proof.
  revert s. induction sub as [|c sub IH]; intros s.
  - split; [intros _; now exists s | intros _; now destruct s].
  - destruct s as [|c' s]; simpl;
      [split; [discriminate | intros [post H]; discriminate H]|].
    destruct (Ascii.ascii_dec c c') as [->|Hne].
    + rewrite IH. split; intros [post H]; exists post; [now rewrite H | now inversion H].
    + split; [discriminate|]. intros [post H]. inversion H. now elim Hne.
Qed.

(** [sub in s] decides that [sub] occurs in [s]. *)
Lemma contains_occurs (sub s : string) :
  PyStr.contains sub s = true <-> PyStr.occurs sub s.
Proof.
  unfold PyStr.occurs. induction s as [|c s IH].
  - cbn [PyStr.contains]. destruct (String.prefix sub "") eqn:Hp.
    + split; [intros _|reflexivity]. apply prefix_append in Hp.
      destruct Hp as [post Hp]. now exists "", post.
    + split; [discriminate|]. intros (pre & post & H).
      destruct pre; [|discriminate H]. simpl in H.
      assert (Htrue : String.prefix sub "" = true)
        by (apply prefix_append; now exists post).
      congruence.
  - cbn [PyStr.contains]. destruct (String.prefix sub (String c s)) eqn:Hp.
    + split; [intros _|reflexivity]. apply prefix_append in Hp.
      destruct Hp as [post Hp]. now exists "", post.
    + rewrite IH. split.
      * intros (pre & post & H). exists (String c pre), post. simpl. now rewrite H.
      * intros (pre & post & H). destruct pre as [|c' pre].
        -- simpl in H.
           assert (Htrue : String.prefix sub (String c s) = true)
             by (apply prefix_append; now exists post).
           congruence.
        -- simpl in H. inversion H. now exists pre, post.
Qed.

(** "./custom_declared" is no built-in name and has no tokenizer
    configuration file; its model configuration is of a type that maps to
    no architecture, and declares [BertTokenizer]: the call succeeds. *)
Lemma declaring_model_config_still_loads :
  ~ In "./custom_declared" (flat_map fst (_tokenizer_mapping Demo.cls))
  /\ resolve_file_path Demo.env "./custom_declared" (TOKENIZER_CONFIG_FILE Demo.env)
       (fetch_options [("_from_auto", VBool true)]) = Ok None
  /\ AutoConfig_from_pretrained Demo.env "./custom_declared" [("_from_auto", VBool true)]
     = Ok (MkConfig Demo.MyConfig (Some "BertTokenizer"))
  /\ config_class_to_model_type Demo.env (cfg_name Demo.MyConfig) = None
  /\ fst (AutoTokenizer.from_pretrained Demo.env Demo.cls "./custom_declared" [] []
            Demo.world0)
     = Ok (MkTokenizer Demo.BertTokenizer "./custom_declared" [] [("_from_auto", VBool true)])
  /\ fst (AutoTokenizer.from_pretrained Demo.env Demo.cls "./custom_declared" [] []
            Demo.world0)
     <> Raise (RuntimeError (AutoTokenizer.cannot_load "./custom_declared")).
Proof.
  split.
  - simpl. intros H. repeat (destruct H as [H|H]; [discriminate H|]). exact H.
  - repeat split; try (vm_compute; reflexivity).
    vm_compute. discriminate.
Qed.

(** C9, as the code has it.  The identifier is no built-in name; the
    tokenizer configuration is read -- [get_tokenizer_config] returns a
    mapping, that of the file or the empty one -- and declares no class;
    the model configuration (the one passed, or the one [AutoConfig]
    returns) declares no [tokenizer_class] either, and its type maps to no
    architecture.  Then [RuntimeError] is raised; its message contains the
    identifier and lists the three accepted forms. *)
Theorem unresolvable_identifier_cannot_load :
  forall (E : Env) (cls : Cls) (identifier : string) (model_args : list PyVal)
         (kwargs : PyDict) (w w0 w1 : World) (entries : PyDict) (config : PretrainedConfig),
    AutoTokenizer.kw_tokenizer_type kwargs = VNone ->
    ~ In identifier (flat_map fst (_tokenizer_mapping cls)) ->
    get_tokenizer_config E identifier (AutoTokenizer.kw_forwarded kwargs) w
    = (Ok (VDict entries), w0) ->
    Dict.get_default entries "tokenizer_class" VNone = VNone ->
    (AutoTokenizer.kw_config kwargs = VConfig config /\ w1 = w0)
    \/ ((forall c, AutoTokenizer.kw_config kwargs <> VConfig c)
        /\ AutoConfig_from_pretrained E identifier (AutoTokenizer.kw_forwarded kwargs)
           = Ok config
        /\ w1 = MkWorld (_extra_content w0)
                  (trace w0 ++ [EvAutoConfig identifier (AutoTokenizer.kw_forwarded kwargs)])%list) ->
    tokenizer_class config = None ->
    config_class_to_model_type E (cfg_name (config_type config)) = None ->
    AutoTokenizer.from_pretrained E cls identifier model_args kwargs w
    = (Raise (RuntimeError (AutoTokenizer.cannot_load identifier)), w1)
    /\ PyStr.occurs identifier (AutoTokenizer.cannot_load identifier)
    /\ PyStr.occurs "model-identifier of built-in pretrained models"
         (AutoTokenizer.cannot_load identifier)
    /\ PyStr.occurs "model-identifier of community-contributed pretrained models"
         (AutoTokenizer.cannot_load identifier)
    /\ PyStr.occurs "path to a directory containing relevant tokenizer files"
         (AutoTokenizer.cannot_load identifier).
Proof.
  intros E cls identifier model_args kwargs w w0 w1 entries config
         Htype Hnot Hcfg Hget Hsource Hnone Hunknown.
  split.
  - rewrite (from_pretrained_not_builtin E cls identifier model_args kwargs w Htype Hnot).
    destruct Hsource as [[Hpassed ->] | (Hnotpassed & Hauto & ->)].
    + rewrite Hpassed.
      rewrite (declared_by_passed_config E identifier config _ w Hcfg Hget), Hnone.
      unfold AutoTokenizer.from_model_config. now rewrite Hunknown.
    + rewrite (declared_by_auto_config E identifier _ w Hcfg Hget Hnotpassed Hauto), Hnone.
      unfold AutoTokenizer.from_model_config. now rewrite Hunknown.
  - unfold AutoTokenizer.cannot_load, PyStr.occurs. repeat split.
    + eexists "Can't load tokenizer for '", _. reflexivity.
    + exists ("Can't load tokenizer for '" ++ identifier ++ "'." ++ PyStr.nl
              ++ "Please make sure that '" ++ identifier ++ "' is:" ++ PyStr.nl
              ++ "- a correct "),
        ("," ++ PyStr.nl
         ++ "- or a correct model-identifier of community-contributed pretrained models,"
         ++ PyStr.nl
         ++ "- or the correct path to a directory containing relevant tokenizer files."
         ++ PyStr.nl).
      repeat (rewrite !append_assoc; simpl). reflexivity.
    + exists ("Can't load tokenizer for '" ++ identifier ++ "'." ++ PyStr.nl
              ++ "Please make sure that '" ++ identifier ++ "' is:" ++ PyStr.nl
              ++ "- a correct model-identifier of built-in pretrained models," ++ PyStr.nl
              ++ "- or a correct "),
        ("," ++ PyStr.nl
         ++ "- or the correct path to a directory containing relevant tokenizer files."
         ++ PyStr.nl).
      repeat (rewrite !append_assoc; simpl). reflexivity.
    + exists ("Can't load tokenizer for '" ++ identifier ++ "'." ++ PyStr.nl
              ++ "Please make sure that '" ++ identifier ++ "' is:" ++ PyStr.nl
              ++ "- a correct model-identifier of built-in pretrained models," ++ PyStr.nl
              ++ "- or a correct model-identifier of community-contributed pretrained models,"
              ++ PyStr.nl ++ "- or the correct "),
        ("." ++ PyStr.nl).
      repeat (rewrite !append_assoc; simpl). reflexivity.
Qed.

Lemma unresolvable_identifier_cannot_load_witness :
  AutoTokenizer.from_pretrained Demo.env Demo.cls "./custom" [] [] Demo.world0
  = (Raise (RuntimeError (AutoTokenizer.cannot_load "./custom")),
     MkWorld []
       [EvResolveFilePath "./custom" "tokenizer_config.json"
          (fetch_options [("_from_auto", VBool true)]);
        could_not_locate;
        EvAutoConfig "./custom" [("_from_auto", VBool true)]])
  /\ PyStr.contains "./custom" (AutoTokenizer.cannot_load "./custom") = true.
Proof.
  assert (Hnot : ~ In "./custom" (flat_map fst (_tokenizer_mapping Demo.cls))).
  { simpl. intros H. repeat (destruct H as [H|H]; [discriminate H|]). exact H. }
  split; [| vm_compute; reflexivity].
  apply (@unresolvable_identifier_cannot_load Demo.env Demo.cls "./custom" [] []
           Demo.world0
           (MkWorld []
              [EvResolveFilePath "./custom" "tokenizer_config.json"
                 (fetch_options [("_from_auto", VBool true)]);
               could_not_locate])
           _ [] (MkConfig Demo.MyConfig None) eq_refl Hnot eq_refl eq_refl).
  - right. split; [intros c H; discriminate H | split; reflexivity].
  - reflexivity.
  - reflexivity.
Defined.

(** ** Registration *)

Section Register.
Variable E : Env.
Variable config_class : ConfigType.
Variable exist_ok : bool.
Variable w : World.

(** Only the accelerated slot is passed, and an entry exists. *)
Lemma register_fast_only (existing_slow existing_fast : PyVal) (fast : TokClass) :
  ODict.get ConfigType_eqb (_extra_content w) config_class
  = Some (existing_slow, existing_fast) ->
  is_slow fast = false ->
  AutoTokenizer.register E config_class VNone (VClass fast) exist_ok w
  = AutoTokenizer.TOKENIZER_MAPPING_register E config_class
      (existing_slow, VClass fast) exist_ok w.
Proof.
  intros Hget Hslow. unfold AutoTokenizer.register, AutoTokenizer.issubclass.
  simpl. py_unfold. rewrite Hslow. simpl.
  unfold AutoTokenizer.TOKENIZER_MAPPING_getitem. py_unfold.
  rewrite (odict_mem_get _ _ _ Hget), Hget. reflexivity.
Qed.

(** Only the reference slot is passed, and an entry exists. *)
Lemma register_slow_only (existing_slow existing_fast : PyVal) (slow : TokClass) :
  ODict.get ConfigType_eqb (_extra_content w) config_class
  = Some (existing_slow, existing_fast) ->
  is_fast slow = false ->
  AutoTokenizer.register E config_class (VClass slow) VNone exist_ok w
  = AutoTokenizer.TOKENIZER_MAPPING_register E config_class
      (VClass slow, existing_fast) exist_ok w.
Proof.
  intros Hget Hfast. unfold AutoTokenizer.register, AutoTokenizer.issubclass.
  simpl. py_unfold. rewrite Hfast. simpl.
  unfold AutoTokenizer.TOKENIZER_MAPPING_getitem. py_unfold.
  rewrite (odict_mem_get _ _ _ Hget), Hget. reflexivity.
Qed.

(** The write of [TOKENIZER_MAPPING.register] when its guard lets it pass. *)
Lemma mapping_register_writes (value : PyVal * PyVal) :
  lazy_contains E config_class && negb exist_ok = false ->
  AutoTokenizer.TOKENIZER_MAPPING_register E config_class value exist_ok w
  = (Ok tt,
     MkWorld (ODict.set ConfigType_eqb (_extra_content w) config_class value) (trace w)).
Proof.
  intros Hguard. unfold AutoTokenizer.TOKENIZER_MAPPING_register.
  rewrite Hguard. reflexivity.
Qed.

End Register.

(** [BertConfig] has an entry in the built-in part of the mapping, with
    [BertTokenizer] in the reference slot, and none in [_extra_content].
    Registering only an accelerated class for it (with [exist_ok]) stores an
    entry whose reference slot is [None]: the slot is not carried over. *)
Lemma builtin_entry_is_not_carried_over :
  AutoTokenizer.TOKENIZER_MAPPING_getitem Demo.env Demo.BertConfig Demo.world0
  = (Ok (VTuple [VClass Demo.BertTokenizer; VClass Demo.BertTokenizerFast]), Demo.world0)
  /\ AutoTokenizer.register Demo.env Demo.BertConfig VNone (VClass Demo.BaseFast) true
       Demo.world0
     = (Ok tt, MkWorld [(Demo.BertConfig, (VNone, VClass Demo.BaseFast))] [])
  /\ AutoTokenizer.TOKENIZER_MAPPING_getitem Demo.env Demo.BertConfig
       (MkWorld [(Demo.BertConfig, (VNone, VClass Demo.BaseFast))] [])
     = (Ok (VTuple [VNone; VClass Demo.BaseFast]),
        MkWorld [(Demo.BertConfig, (VNone, VClass Demo.BaseFast))] [])
  /\ VNone <> VClass Demo.BertTokenizer.
Proof.
  repeat split; try (vm_compute; reflexivity). discriminate.
Qed.

(** C6, as the code has it.  An entry registered earlier exists for the
    configuration type (it is in [_extra_content], which is what line 512
    tests) and [register] is given one slot only.  The other slot of the
    stored entry is then the one the existing entry had: passing only the
    accelerated class keeps the reference class, passing only the reference
    class keeps the accelerated one.  The entries of the other
    configuration types and the trace stay as they were. *)
Theorem register_keeps_the_other_slot :
  forall (E : Env) (config_class : ConfigType) (exist_ok : bool) (w : World)
         (existing_slow existing_fast : PyVal),
    ODict.get ConfigType_eqb (_extra_content w) config_class
    = Some (existing_slow, existing_fast) ->
    lazy_contains E config_class && negb exist_ok = false ->
    (forall fast : TokClass,
        is_slow fast = false ->
        exists w',
          AutoTokenizer.register E config_class VNone (VClass fast) exist_ok w = (Ok tt, w')
          /\ ODict.get ConfigType_eqb (_extra_content w') config_class
             = Some (existing_slow, VClass fast)
          /\ (forall other, other <> config_class ->
                            ODict.get ConfigType_eqb (_extra_content w') other
                            = ODict.get ConfigType_eqb (_extra_content w) other)
          /\ trace w' = trace w)
    /\ (forall slow : TokClass,
           is_fast slow = false ->
           exists w',
             AutoTokenizer.register E config_class (VClass slow) VNone exist_ok w = (Ok tt, w')
             /\ ODict.get ConfigType_eqb (_extra_content w') config_class
                = Some (VClass slow, existing_fast)
             /\ (forall other, other <> config_class ->
                               ODict.get ConfigType_eqb (_extra_content w') other
                               = ODict.get ConfigType_eqb (_extra_content w) other)
             /\ trace w' = trace w).
Proof.
  intros E config_class exist_ok w existing_slow existing_fast Hget Hguard. split.
  - intros fast Hslow. eexists. split.
    + rewrite (@register_fast_only E config_class exist_ok w _ _ fast Hget Hslow).
      apply mapping_register_writes. exact Hguard.
    + simpl. repeat split.
      * apply (@odict_get_set_same _ _ _ ConfigType_eqb_spec).
      * intros other Hother. now apply (@odict_get_set_other _ _ _ ConfigType_eqb_spec).
  - intros slow Hfast. eexists. split.
    + rewrite (@register_slow_only E config_class exist_ok w _ _ slow Hget Hfast).
      apply mapping_register_writes. exact Hguard.
    + simpl. repeat split.
      * apply (@odict_get_set_same _ _ _ ConfigType_eqb_spec).
      * intros other Hother. now apply (@odict_get_set_other _ _ _ ConfigType_eqb_spec).
Qed.

Lemma register_keeps_the_other_slot_witness :
  let w := MkWorld [(Demo.MyConfig, (VClass Demo.BertTokenizer, VNone))] [] in
  ODict.get ConfigType_eqb (_extra_content w) Demo.MyConfig
  = Some (VClass Demo.BertTokenizer, VNone)
  /\ exists w',
      AutoTokenizer.register Demo.env Demo.MyConfig VNone (VClass Demo.BertTokenizerFast)
        false w = (Ok tt, w')
      /\ ODict.get ConfigType_eqb (_extra_content w') Demo.MyConfig
         = Some (VClass Demo.BertTokenizer, VClass Demo.BertTokenizerFast)
      /\ (forall other, other <> Demo.MyConfig ->
                        ODict.get ConfigType_eqb (_extra_content w') other
                        = ODict.get ConfigType_eqb (_extra_content w) other)
      /\ trace w' = trace w.
Proof.
  intros w. split; [reflexivity|].
  destruct (@register_keeps_the_other_slot Demo.env Demo.MyConfig false w
              (VClass Demo.BertTokenizer) VNone eq_refl eq_refl) as [Hfast _].
  exact (Hfast Demo.BertTokenizerFast eq_refl).
Defined.

(** C7. [register] raises [ValueError] when no slot is passed, when the
    class in the reference slot is tagged accelerated, and when the class in
    the accelerated slot is tagged reference; the world is left as it was.
    Only the tags are looked at: the classes are arbitrary, names included,
    and a class without the tag of the other kind passes these checks
    whatever it is called. *)
Theorem register_rejects_misplaced_classes :
  forall (E : Env) (config_class : ConfigType) (exist_ok : bool) (w : World),
    AutoTokenizer.register E config_class VNone VNone exist_ok w
    = (Raise (ValueError
                "You need to pass either a `slow_tokenizer_class` or a `fast_tokenizer_class"),
       w)
    /\ (forall (slow : TokClass) (fast_tokenizer_class : PyVal),
           is_fast slow = true ->
           AutoTokenizer.register E config_class (VClass slow) fast_tokenizer_class exist_ok w
           = (Raise (ValueError "You passed a fast tokenizer in the `slow_tokenizer_class`."),
              w))
    /\ (forall (fast : TokClass),
           is_slow fast = true ->
           AutoTokenizer.register E config_class VNone (VClass fast) exist_ok w
           = (Raise (ValueError "You passed a slow tokenizer in the `fast_tokenizer_class`."),
              w))
    /\ (forall (slow fast : TokClass),
           is_slow fast = true ->
           exists msg,
             AutoTokenizer.register E config_class (VClass slow) (VClass fast) exist_ok w
             = (Raise (ValueError msg), w))
    /\ (forall (slow : TokClass),
           is_fast slow = false ->
           ODict.mem ConfigType_eqb (_extra_content w) config_class = false ->
           AutoTokenizer.register E config_class (VClass slow) VNone exist_ok w
           = AutoTokenizer.TOKENIZER_MAPPING_register E config_class (VClass slow, VNone)
               exist_ok w)
    /\ (forall (fast : TokClass),
           is_slow fast = false ->
           ODict.mem ConfigType_eqb (_extra_content w) config_class = false ->
           AutoTokenizer.register E config_class VNone (VClass fast) exist_ok w
           = AutoTokenizer.TOKENIZER_MAPPING_register E config_class (VNone, VClass fast)
               exist_ok w).
Proof.
  intros E config_class exist_ok w. repeat split.
  - intros slow fast_tokenizer_class Hfast.
    unfold AutoTokenizer.register, AutoTokenizer.issubclass. simpl. py_unfold.
    rewrite Hfast. reflexivity.
  - intros fast Hslow.
    unfold AutoTokenizer.register, AutoTokenizer.issubclass. simpl. py_unfold.
    rewrite Hslow. reflexivity.
  - intros slow fast Hslow.
    unfold AutoTokenizer.register, AutoTokenizer.issubclass. simpl. py_unfold.
    destruct (is_fast slow); [eexists; reflexivity|].
    rewrite Hslow. eexists; reflexivity.
  - intros slow Hfast Hmem.
    unfold AutoTokenizer.register, AutoTokenizer.issubclass. simpl. py_unfold.
    rewrite Hfast. simpl. rewrite Hmem. reflexivity.
  - intros fast Hslow Hmem.
    unfold AutoTokenizer.register, AutoTokenizer.issubclass. simpl. py_unfold.
    rewrite Hslow. simpl. rewrite Hmem. reflexivity.
Qed.

Lemma register_rejects_misplaced_classes_witness :
  AutoTokenizer.register Demo.env Demo.MyConfig (VClass Demo.BertTokenizerFast) VNone false
    Demo.world0
  = (Raise (ValueError "You passed a fast tokenizer in the `slow_tokenizer_class`."),
     Demo.world0)
  /\ AutoTokenizer.register Demo.env Demo.MyConfig VNone (VClass Demo.BertTokenizer) false
       Demo.world0
     = (Raise (ValueError "You passed a slow tokenizer in the `fast_tokenizer_class`."),
        Demo.world0)
  /\ AutoTokenizer.register Demo.env Demo.MyConfig VNone VNone false Demo.world0
     = (Raise (ValueError
                 "You need to pass either a `slow_tokenizer_class` or a `fast_tokenizer_class"),
        Demo.world0).
Proof.
  destruct (@register_rejects_misplaced_classes Demo.env Demo.MyConfig false Demo.world0)
    as (Hnone & Hslow & Hfast & _).
  split; [| split].
  - exact (Hslow Demo.BertTokenizerFast VNone eq_refl).
  - exact (Hfast Demo.BertTokenizer eq_refl).
  - exact Hnone.
Defined.


(** * Further properties *)

(** ** Computations that leave the registry alone *)

Section Quiet.
Variable P : Event -> Prop.

Lemma quiet_ret {A} (a : A) : quiet P (ret a).
Proof. intros w. split; [reflexivity|]. exists []. now rewrite app_nil_r. Qed.

Lemma quiet_raise {A} (e : PyError) : quiet P (@raise A e).
Proof. intros w. split; [reflexivity|]. exists []. now rewrite app_nil_r. Qed.

Lemma quiet_lift {A} (r : Result A) : quiet P (lift r).
Proof. intros w. split; [reflexivity|]. exists []. now rewrite app_nil_r. Qed.

Lemma quiet_get_extra_content : quiet P get_extra_content.
Proof. intros w. split; [reflexivity|]. exists []. now rewrite app_nil_r. Qed.

Lemma quiet_emit (ev : Event) : P ev -> quiet P (emit ev).
Proof. intros Hev w. split; [reflexivity|]. exists [ev]. split; [reflexivity | now constructor]. Qed.

Lemma quiet_bind {A B} (c : Py A) (k : A -> Py B) :
  quiet P c -> (forall a, quiet P (k a)) -> quiet P (bind c k).
Proof.
  intros Hc Hk w. unfold bind. specialize (Hc w).
  destruct (c w) as [[a|e] w1]; simpl in Hc.
  - destruct Hc as [Hreg (events & Htrace & Hall)].
    destruct (Hk a w1) as [Hreg' (events' & Htrace' & Hall')].
    split; [congruence|]. exists (events ++ events')%list. split.
    + now rewrite Htrace', Htrace, app_assoc.
    + apply Forall_app. now split.
  - exact Hc.
Qed.

End Quiet.

Lemma quiet_weaken (P Q : Event -> Prop) {A} (c : Py A) :
  (forall ev, P ev -> Q ev) -> quiet P c -> quiet Q c.
Proof.
  intros Himp Hc w. destruct (Hc w) as [Hreg (events & Htrace & Hall)].
  split; [exact Hreg|]. exists events. split; [exact Htrace|].
  eapply Forall_impl; eauto.
Qed.

Ltac quiet_step :=
  match goal with
  | |- quiet _ (bind _ _) => apply quiet_bind; [|intros ?]
  | |- quiet _ (ret _) => apply quiet_ret
  | |- quiet _ (raise _) => apply quiet_raise
  | |- quiet _ (lift _) => apply quiet_lift
  | |- quiet _ get_extra_content => apply quiet_get_extra_content
  | |- quiet _ (emit _) => apply quiet_emit
  | |- quiet _ (if ?b then _ else _) => destruct b
  | |- quiet _ (match ?x with _ => _ end) => destruct x
  end.

Section QuietResolution.
Variable E : Env.
Variable P : Event -> Prop.
Hypothesis P_resolve : forall identifier filename opts, P (EvResolveFilePath identifier filename opts).
Hypothesis P_open : forall path, P (EvOpen path).
Hypothesis P_info : forall msg, P (EvLoggerInfo msg).
Hypothesis P_print : forall msg, P (EvPrint msg).

Lemma quiet_get_tokenizer_config identifier kw :
  quiet P (get_tokenizer_config E identifier kw).
Proof. unfold get_tokenizer_config, could_not_locate. repeat quiet_step; auto. Qed.

Lemma quiet_call_from_pretrained target identifier model_args kw :
  quiet P (AutoTokenizer.call_from_pretrained target identifier model_args kw).
Proof. unfold AutoTokenizer.call_from_pretrained. repeat quiet_step. Qed.

Lemma quiet_lookup_class class_name : quiet P (AutoTokenizer.lookup_class E class_name).
Proof. unfold AutoTokenizer.lookup_class. repeat quiet_step. Qed.

Lemma quiet_from_declared_class name use_fast identifier model_args kw :
  quiet P (AutoTokenizer.from_declared_class E name use_fast identifier model_args kw).
Proof.
  unfold AutoTokenizer.from_declared_class.
  repeat first [apply quiet_lookup_class | apply quiet_call_from_pretrained | quiet_step].
Qed.

Lemma quiet_getitem key : quiet P (AutoTokenizer.TOKENIZER_MAPPING_getitem E key).
Proof. unfold AutoTokenizer.TOKENIZER_MAPPING_getitem. repeat quiet_step. Qed.

Lemma quiet_from_model_config config use_fast identifier model_args kw :
  quiet P (AutoTokenizer.from_model_config E config use_fast identifier model_args kw).
Proof.
  unfold AutoTokenizer.from_model_config, AutoTokenizer.unpack2, AutoTokenizer.getitem0.
  repeat first [apply quiet_getitem | apply quiet_call_from_pretrained | quiet_step]; auto.
Qed.

Lemma quiet_declared_class config identifier kw :
  (exists c, config = VConfig c) \/ (forall a b, P (EvAutoConfig a b)) ->
  quiet P (AutoTokenizer.declared_class E config identifier kw).
Proof.
  intros Hsource. unfold AutoTokenizer.declared_class, AutoTokenizer.config_get.
  apply quiet_bind; [apply quiet_get_tokenizer_config | intros tokenizer_config].
  apply quiet_bind; [repeat quiet_step | intros config_tokenizer_class].
  destruct (is_None config_tokenizer_class); [|apply quiet_ret].
  apply quiet_bind; [| intros c; repeat quiet_step].
  destruct Hsource as [[c ->] | Hauto]; [apply quiet_ret|].
  destruct config; repeat quiet_step; auto.
Qed.

Lemma quiet_from_pretrained cls identifier model_args kwargs :
  (exists c, AutoTokenizer.kw_config kwargs = VConfig c) \/ (forall a b, P (EvAutoConfig a b)) ->
  quiet P (AutoTokenizer.from_pretrained E cls identifier model_args kwargs).
Proof.
  intros Hsource. unfold AutoTokenizer.from_pretrained.
  destruct (negb (is_None (AutoTokenizer.kw_tokenizer_type kwargs))); [apply quiet_raise|].
  match goal with |- quiet _ (match ?x with _ => _ end) => destruct x end.
  - repeat first [apply quiet_call_from_pretrained | quiet_step]; auto.
  - apply quiet_bind; [now apply quiet_declared_class | intros [name | config]].
    + apply quiet_from_declared_class.
    + apply quiet_from_model_config.
Qed.

End QuietResolution.

(** X1. [from_pretrained] never writes the registry: whatever it is given
    and however it ends, [_extra_content] is what it was, and the trace of
    collaborator calls is the old one followed by the new calls. *)
Theorem from_pretrained_keeps_the_registry :
  forall (E : Env) (cls : Cls) (identifier : string) (model_args : list PyVal)
         (kwargs : PyDict) (w : World),
    _extra_content (snd (AutoTokenizer.from_pretrained E cls identifier model_args kwargs w))
    = _extra_content w
    /\ exists events,
        trace (snd (AutoTokenizer.from_pretrained E cls identifier model_args kwargs w))
        = (trace w ++ events)%list.
Proof.
  intros E cls identifier model_args kwargs w.
  destruct (@quiet_from_pretrained E (fun _ => True) (fun _ _ _ => I) (fun _ => I)
              (fun _ => I) (fun _ => I) cls identifier model_args kwargs
              (or_intror (fun _ _ => I)) w) as [Hreg (events & Htrace & _)].
  split; [exact Hreg | now exists events].
Qed.

(** X2. When the caller passes a model configuration under [config],
    [AutoConfig.from_pretrained] is never called, on any path and whatever
    the outcome. *)
Theorem passed_config_is_not_fetched_again :
  forall (E : Env) (cls : Cls) (identifier : string) (model_args : list PyVal)
         (kwargs : PyDict) (w : World) (config : PretrainedConfig),
    Dict.get kwargs "config" = Some (VConfig config) ->
    exists events,
      trace (snd (AutoTokenizer.from_pretrained E cls identifier model_args kwargs w))
      = (trace w ++ events)%list
      /\ Forall (fun ev => ~ is_AutoConfig_call ev) events.
Proof.
  intros E cls identifier model_args kwargs w config Hget.
  assert (Hconfig : exists c, AutoTokenizer.kw_config kwargs = VConfig c).
  { exists config. rewrite kw_config_get. unfold Dict.get_default. now rewrite Hget. }
  destruct (@quiet_from_pretrained E (fun ev => ~ is_AutoConfig_call ev)
              (fun _ _ _ H => H) (fun _ H => H) (fun _ H => H) (fun _ H => H)
              cls identifier model_args kwargs (or_introl Hconfig) w)
    as [_ Hevents].
  exact Hevents.
Qed.

Lemma passed_config_is_not_fetched_again_witness :
  exists events,
    trace (snd (AutoTokenizer.from_pretrained Demo.env Demo.cls "./anything" []
                  [("config", VConfig (MkConfig Demo.GPTConfig None))] Demo.world0))
    = (trace Demo.world0 ++ events)%list
    /\ Forall (fun ev => ~ is_AutoConfig_call ev) events.
Proof.
  apply (@passed_config_is_not_fetched_again Demo.env Demo.cls "./anything" []
           [("config", VConfig (MkConfig Demo.GPTConfig None))] Demo.world0
           (MkConfig Demo.GPTConfig None)).
  reflexivity.
Defined.

(** ** What is handed to the resolved class *)

Section Forwards.
Variables (identifier : string) (model_args : list PyVal) (kw : PyDict).

Lemma forwards_raise (e : PyError) : forwards identifier model_args kw (raise e).
Proof. intros w t H. discriminate H. Qed.

Lemma forwards_call (target : PyVal) :
  forwards identifier model_args kw
    (AutoTokenizer.call_from_pretrained target identifier model_args kw).
Proof.
  intros w t H. unfold AutoTokenizer.call_from_pretrained in H.
  destruct target; try discriminate H. simpl in H. inversion H. now subst.
Qed.

Lemma forwards_bind {A} (c : Py A) (k : A -> Py Tokenizer) :
  (forall a, forwards identifier model_args kw (k a)) ->
  forwards identifier model_args kw (bind c k).
Proof.
  intros Hk w t H. unfold bind in H.
  destruct (c w) as [[a|e] w1]; [now apply (Hk a w1) | discriminate H].
Qed.

Lemma forwards_from_declared_class (E : Env) (name use_fast : PyVal) :
  forwards identifier model_args kw
    (AutoTokenizer.from_declared_class E name use_fast identifier model_args kw).
Proof.
  unfold AutoTokenizer.from_declared_class.
  apply forwards_bind; intros first. apply forwards_bind; intros second.
  destruct (is_None (fst second)); [apply forwards_raise | apply forwards_call].
Qed.

Lemma forwards_from_model_config (E : Env) (config : PretrainedConfig) (use_fast : PyVal) :
  forwards identifier model_args kw
    (AutoTokenizer.from_model_config E config use_fast identifier model_args kw).
Proof.
  unfold AutoTokenizer.from_model_config.
  destruct (config_class_to_model_type E (cfg_name (config_type config)));
    [|apply forwards_raise].
  apply forwards_bind; intros py. apply forwards_bind; intros pair.
  repeat match goal with
         | |- forwards _ _ _ (if ?b then _ else _) => destruct b
         | |- forwards _ _ _ (bind _ _) => apply forwards_bind; intros ?
         | |- forwards _ _ _ (raise _) => apply forwards_raise
         | |- forwards _ _ _ (AutoTokenizer.call_from_pretrained _ _ _ _) =>
             apply forwards_call
         end.
Qed.

End Forwards.

(** X3. Every tokenizer [from_pretrained] returns was requested from the
    resolved class with the identifier and the positional arguments of the
    call untouched, and with the keyword arguments that are left once
    [config], [use_fast] and [tokenizer_type] are taken out and [_from_auto]
    is set -- whichever of the three strategies resolved the class. *)
Theorem from_pretrained_forwards_its_arguments :
  forall (E : Env) (cls : Cls) (identifier : string) (model_args : list PyVal)
         (kwargs : PyDict) (w : World) (t : Tokenizer),
    fst (AutoTokenizer.from_pretrained E cls identifier model_args kwargs w) = Ok t ->
    tok_identifier t = identifier
    /\ tok_model_args t = model_args
    /\ tok_kwargs t = AutoTokenizer.kw_forwarded kwargs.
Proof.
  intros E cls identifier model_args kwargs w t.
  assert (Hall : forwards identifier model_args (AutoTokenizer.kw_forwarded kwargs)
                   (AutoTokenizer.from_pretrained E cls identifier model_args kwargs)).
  { unfold AutoTokenizer.from_pretrained.
    destruct (negb (is_None (AutoTokenizer.kw_tokenizer_type kwargs)));
      [apply forwards_raise|].
    match goal with |- forwards _ _ _ (match ?x with _ => _ end) => destruct x end.
    - apply forwards_bind; intros _. apply forwards_call.
    - apply forwards_bind; intros [name|config];
        [apply forwards_from_declared_class | apply forwards_from_model_config]. }
  apply Hall.
Qed.

Lemma from_pretrained_forwards_its_arguments_witness :
  tok_identifier (MkTokenizer Demo.GPTTokenizer "./plain_gpt" [VInt 7]
                    [("cache_dir", VStr "/tmp"); ("_from_auto", VBool true)])
  = "./plain_gpt"
  /\ tok_model_args (MkTokenizer Demo.GPTTokenizer "./plain_gpt" [VInt 7]
                       [("cache_dir", VStr "/tmp"); ("_from_auto", VBool true)])
     = [VInt 7]
  /\ tok_kwargs (MkTokenizer Demo.GPTTokenizer "./plain_gpt" [VInt 7]
                   [("cache_dir", VStr "/tmp"); ("_from_auto", VBool true)])
     = AutoTokenizer.kw_forwarded [("use_fast", VBool false); ("cache_dir", VStr "/tmp")].
Proof.
  apply (@from_pretrained_forwards_its_arguments Demo.env Demo.cls "./plain_gpt" [VInt 7]
           [("use_fast", VBool false); ("cache_dir", VStr "/tmp")] Demo.world0).
  vm_compute. reflexivity.
Defined.

(** ** Dictionaries with distinct keys *)

Section ODictKeys.
Variables K V : Type.
Variable eqb : K -> K -> bool.
Hypothesis eqb_spec : forall a b, reflect (a = b) (eqb a b).

Lemma odict_get_None (d : list (K * V)) k :
  ODict.get eqb d k = None <-> ~ In k (keys d).
Proof.
  induction d as [|[k' v] d IH]; simpl; [tauto|].
  destruct (eqb_spec k k') as [->|Hne].
  - split; [discriminate | intros H; elim H; now left].
  - rewrite IH. split; [intros H [Heq|Hin]; [now elim Hne | now elim H] | tauto].
Qed.

Lemma keys_remove (d : list (K * V)) k x :
  In x (keys (ODict.remove eqb d k)) -> In x (keys d).
Proof.
  induction d as [|[k' v] d IH]; simpl; [tauto|].
  destruct (eqb k k'); simpl; [tauto|]. intros [H|H]; [now left | right; now apply IH].
Qed.

Lemma NoDup_remove (d : list (K * V)) k :
  NoDup (keys d) -> NoDup (keys (ODict.remove eqb d k)).
Proof.
  induction d as [|[k' v] d IH]; simpl; intros Hnd; [constructor|].
  inversion Hnd as [|? ? Hnot Hrest]; subst.
  destruct (eqb k k'); [exact Hrest|]. simpl. constructor; [|now apply IH].
  intros Hin. apply Hnot. now apply keys_remove in Hin.
Qed.

Lemma odict_get_remove_same (d : list (K * V)) k :
  NoDup (keys d) -> ODict.get eqb (ODict.remove eqb d k) k = None.
Proof.
  induction d as [|[k' v] d IH]; simpl; intros Hnd; [reflexivity|].
  inversion Hnd as [|? ? Hnot Hrest]; subst.
  destruct (eqb_spec k k') as [->|Hne].
  - now apply odict_get_None.
  - simpl. destruct (eqb_spec k k'); [contradiction | now apply IH].
Qed.

Lemma keys_set (d : list (K * V)) k v x :
  In x (keys (ODict.set eqb d k v)) <-> x = k \/ In x (keys d).
Proof.
  induction d as [|[k' v'] d IH]; simpl.
  - split; [intros [H|[]]; now left | intros [H|[]]; now left].
  - destruct (eqb_spec k k') as [->|Hne]; simpl.
    + split; [intros [H|H]; auto | intros [H|[H|H]]; auto].
    + rewrite IH. split; [intros [H|[H|H]]; auto | intros [H|[H|H]]; auto].
Qed.

Lemma NoDup_set (d : list (K * V)) k v :
  NoDup (keys d) -> NoDup (keys (ODict.set eqb d k v)).
Proof.
  induction d as [|[k' v'] d IH]; simpl; intros Hnd.
  - constructor; [intros [] | constructor].
  - inversion Hnd as [|? ? Hnot Hrest]; subst.
    destruct (eqb_spec k k') as [->|Hne]; simpl.
    + now constructor.
    + constructor; [|now apply IH]. intros Hin. apply keys_set in Hin.
      destruct Hin as [Heq|Hin]; [now elim Hne | contradiction].
Qed.

Lemma NoDup_pop (d : list (K * V)) k dflt :
  NoDup (keys d) -> NoDup (keys (snd (ODict.pop eqb d k dflt))).
Proof.
  intros Hnd. unfold ODict.pop. destruct (ODict.get eqb d k); simpl;
    [now apply NoDup_remove | exact Hnd].
Qed.

Lemma odict_get_pop_same (d : list (K * V)) k dflt :
  NoDup (keys d) -> ODict.get eqb (snd (ODict.pop eqb d k dflt)) k = None.
Proof.
  intros Hnd. unfold ODict.pop. destruct (ODict.get eqb d k) eqn:Hget; simpl;
    [now apply odict_get_remove_same | exact Hget].
Qed.

End ODictKeys.

(** ** The keyword arguments that travel on *)

Lemma kw_forwarded_get_other (kwargs : PyDict) (k : string) :
  k <> "config" -> k <> "_from_auto" -> k <> "use_fast" -> k <> "tokenizer_type" ->
  Dict.get (AutoTokenizer.kw_forwarded kwargs) k = Dict.get kwargs k.
Proof.
  intros H1 H2 H3 H4.
  unfold AutoTokenizer.kw_forwarded, AutoTokenizer.kw_after_use_fast,
    AutoTokenizer.kw_after_config, Dict.get, Dict.set, Dict.pop.
  rewrite (@odict_get_pop_other _ _ _ String.eqb_spec) by assumption.
  rewrite (@odict_get_pop_other _ _ _ String.eqb_spec) by assumption.
  rewrite (@odict_get_set_other _ _ _ String.eqb_spec) by assumption.
  now rewrite (@odict_get_pop_other _ _ _ String.eqb_spec) by assumption.
Qed.

(** X4. Of a dictionary of keyword arguments (its keys are distinct),
    [from_pretrained] forwards everything but [config], [use_fast] and
    [tokenizer_type], which it takes for itself, and adds the marker
    [_from_auto = True] (replacing a value the caller gave it).  Every other
    keyword argument travels on with its value, and the keys stay
    distinct. *)
Theorem forwarded_keyword_arguments :
  forall kwargs : PyDict,
    NoDup (keys kwargs) ->
    Dict.get (AutoTokenizer.kw_forwarded kwargs) "config" = None
    /\ Dict.get (AutoTokenizer.kw_forwarded kwargs) "use_fast" = None
    /\ Dict.get (AutoTokenizer.kw_forwarded kwargs) "tokenizer_type" = None
    /\ Dict.get (AutoTokenizer.kw_forwarded kwargs) "_from_auto" = Some (VBool true)
    /\ (forall k, k <> "config" -> k <> "_from_auto" -> k <> "use_fast" ->
                  k <> "tokenizer_type" ->
                  Dict.get (AutoTokenizer.kw_forwarded kwargs) k = Dict.get kwargs k)
    /\ NoDup (keys (AutoTokenizer.kw_forwarded kwargs)).
Proof.
  intros kwargs Hnd.
  assert (Hnd1 : NoDup (keys (AutoTokenizer.kw_after_config kwargs))).
  { unfold AutoTokenizer.kw_after_config, Dict.set, Dict.pop.
    apply (@NoDup_set _ _ _ String.eqb_spec). now apply NoDup_pop. }
  assert (Hnd2 : NoDup (keys (AutoTokenizer.kw_after_use_fast kwargs))).
  { unfold AutoTokenizer.kw_after_use_fast, Dict.pop. now apply NoDup_pop. }
  unfold AutoTokenizer.kw_forwarded, Dict.get, Dict.pop.
  repeat split.
  - rewrite (@odict_get_pop_other _ _ _ String.eqb_spec) by discriminate.
    unfold AutoTokenizer.kw_after_use_fast, Dict.pop.
    rewrite (@odict_get_pop_other _ _ _ String.eqb_spec) by discriminate.
    unfold AutoTokenizer.kw_after_config, Dict.set, Dict.pop.
    rewrite (@odict_get_set_other _ _ _ String.eqb_spec) by discriminate.
    now apply (@odict_get_pop_same _ _ _ String.eqb_spec).
  - rewrite (@odict_get_pop_other _ _ _ String.eqb_spec) by discriminate.
    unfold AutoTokenizer.kw_after_use_fast, Dict.pop.
    now apply (@odict_get_pop_same _ _ _ String.eqb_spec).
  - now apply (@odict_get_pop_same _ _ _ String.eqb_spec).
  - rewrite (@odict_get_pop_other _ _ _ String.eqb_spec) by discriminate.
    unfold AutoTokenizer.kw_after_use_fast, Dict.pop.
    rewrite (@odict_get_pop_other _ _ _ String.eqb_spec) by discriminate.
    unfold AutoTokenizer.kw_after_config, Dict.set.
    apply (@odict_get_set_same _ _ _ String.eqb_spec).
  - intros k H1 H2 H3 H4. now apply kw_forwarded_get_other.
  - now apply NoDup_pop.
Qed.

Lemma forwarded_keyword_arguments_witness :
  let kwargs := [("use_fast", VBool true); ("revision", VStr "main");
                 ("_from_auto", VBool false); ("config", VNone)] in
  NoDup (keys kwargs)
  /\ Dict.get (AutoTokenizer.kw_forwarded kwargs) "use_fast" = None
  /\ Dict.get (AutoTokenizer.kw_forwarded kwargs) "_from_auto" = Some (VBool true)
  /\ Dict.get (AutoTokenizer.kw_forwarded kwargs) "revision" = Some (VStr "main").
Proof.
  intros kwargs.
  assert (Hnd : NoDup (keys kwargs)).
  { simpl. repeat constructor; simpl; intuition discriminate. }
  destruct (@forwarded_keyword_arguments kwargs Hnd) as (_ & Hfast & _ & Hauto & Hother & _).
  split; [exact Hnd | split; [exact Hfast | split; [exact Hauto |]]].
  rewrite Hother by discriminate. reflexivity.
Defined.

(** X5. The tokenizer configuration [from_pretrained] reads is the one a
    direct call [get_tokenizer_config(identifier, **kwargs)] with the
    caller's keyword arguments reads: the cache directory, revision, token
    and the other fetch options reach [resolve_file_path] unchanged by what
    [from_pretrained] takes out of, and adds to, the keyword arguments. *)
Theorem fetch_options_travel_unchanged :
  forall (E : Env) (identifier : string) (kwargs : PyDict) (w : World),
    fetch_options (AutoTokenizer.kw_forwarded kwargs) = fetch_options kwargs
    /\ get_tokenizer_config E identifier (AutoTokenizer.kw_forwarded kwargs) w
       = get_tokenizer_config E identifier kwargs w.
Proof.
  intros E identifier kwargs w.
  assert (Hopts : fetch_options (AutoTokenizer.kw_forwarded kwargs) = fetch_options kwargs).
  { unfold fetch_options, Dict.get_default.
    repeat rewrite kw_forwarded_get_other by discriminate. reflexivity. }
  split; [exact Hopts|]. unfold get_tokenizer_config. now rewrite Hopts.
Qed.


(** ** Reading the tokenizer configuration *)

(** X6. [get_tokenizer_config] passes failures on as they are: an exception
    of [resolve_file_path] is raised before any file is opened, and an
    exception of the read is raised after the file was opened.  A file that
    loads is returned as loaded, whatever JSON value it holds. *)
Theorem get_tokenizer_config_passes_failures_on :
  forall (E : Env) (identifier : string) (kw : PyDict) (w : World),
    let located :=
      EvResolveFilePath identifier (TOKENIZER_CONFIG_FILE E) (fetch_options kw) in
    (forall e,
        resolve_file_path E identifier (TOKENIZER_CONFIG_FILE E) (fetch_options kw) = Raise e ->
        get_tokenizer_config E identifier kw w
        = (Raise e, MkWorld (_extra_content w) (trace w ++ [located])%list))
    /\ (forall path e,
           resolve_file_path E identifier (TOKENIZER_CONFIG_FILE E) (fetch_options kw)
           = Ok (Some path) ->
           json_load E path = Raise e ->
           get_tokenizer_config E identifier kw w
           = (Raise e, MkWorld (_extra_content w) (trace w ++ [located; EvOpen path])%list))
    /\ (forall path v,
           resolve_file_path E identifier (TOKENIZER_CONFIG_FILE E) (fetch_options kw)
           = Ok (Some path) ->
           json_load E path = Ok v ->
           get_tokenizer_config E identifier kw w
           = (Ok v, MkWorld (_extra_content w) (trace w ++ [located; EvOpen path])%list)).
Proof.
  intros E identifier kw w located. repeat split.
  - intros e Hres. unfold get_tokenizer_config. py_unfold. simpl. now rewrite Hres.
  - intros path e Hres Hload. unfold get_tokenizer_config. py_unfold. simpl.
    rewrite Hres. simpl. rewrite Hload. now rewrite <- app_assoc.
  - intros path v Hres Hload. unfold get_tokenizer_config. py_unfold. simpl.
    rewrite Hres. simpl. rewrite Hload. now rewrite <- app_assoc.
Qed.

Lemma get_tokenizer_config_passes_failures_on_witness :
  get_tokenizer_config Demo.env "./bart" [] Demo.world0
  = (Ok (VDict [("tokenizer_class", VStr "BartTokenizer")]),
     MkWorld [] [EvResolveFilePath "./bart" "tokenizer_config.json" (fetch_options []);
                 EvOpen "./bart/tokenizer_config.json"]).
Proof.
  destruct (@get_tokenizer_config_passes_failures_on Demo.env "./bart" [] Demo.world0)
    as (_ & _ & Hfound).
  apply (Hfound "./bart/tokenizer_config.json"); reflexivity.
Defined.

(** X7. A tokenizer configuration file whose top level is not a JSON
    object (an array, a string, a number, [null]) makes [from_pretrained]
    raise [AttributeError] at [tokenizer_config.get]: the model
    configuration is not consulted. *)
Theorem non_object_tokenizer_config_raises :
  forall (E : Env) (cls : Cls) (identifier : string) (model_args : list PyVal)
         (kwargs : PyDict) (w w1 : World) (loaded : PyVal),
    AutoTokenizer.kw_tokenizer_type kwargs = VNone ->
    ~ In identifier (flat_map fst (_tokenizer_mapping cls)) ->
    get_tokenizer_config E identifier (AutoTokenizer.kw_forwarded kwargs) w
    = (Ok loaded, w1) ->
    (forall entries, loaded <> VDict entries) ->
    AutoTokenizer.from_pretrained E cls identifier model_args kwargs w
    = (Raise (AttributeError "object has no attribute 'get'"), w1).
Proof.
  intros E cls identifier model_args kwargs w w1 loaded Htype Hnot Hcfg Hshape.
  rewrite (from_pretrained_not_builtin E cls identifier model_args kwargs w Htype Hnot).
  unfold AutoTokenizer.declared_class. unfold bind at 1. rewrite Hcfg.
  destruct loaded; try reflexivity. now elim (Hshape kv).
Qed.

Lemma non_object_tokenizer_config_raises_witness :
  AutoTokenizer.from_pretrained Sample.odd Demo.cls "./array" [] [] Demo.world0
  = (Raise (AttributeError "object has no attribute 'get'"),
     MkWorld []
       [EvResolveFilePath "./array" "tokenizer_config.json"
          (fetch_options [("_from_auto", VBool true)]);
        EvOpen "./array/tokenizer_config.json"]).
Proof.
  assert (Hnot : ~ In "./array" (flat_map fst (_tokenizer_mapping Demo.cls))).
  { simpl. intros H. repeat (destruct H as [H|H]; [discriminate H|]). exact H. }
  apply (@non_object_tokenizer_config_raises Sample.odd Demo.cls "./array" [] []
           Demo.world0 _ (VList [VStr "BertTokenizer"]) eq_refl Hnot).
  - reflexivity.
  - intros entries H. discriminate H.
Defined.

(** ** More on a declared class name *)

(** X8. With [use_fast] false (the default) only the declared name is
    looked up: the call ends as that one lookup ends -- its exception, the
    unresolved-class [ValueError] when it finds nothing, construction by
    what it finds -- and a registered accelerated class of the same model is
    not used. *)
Theorem without_use_fast_the_declared_name_decides :
  forall (E : Env) (cls : Cls) (identifier : string) (model_args : list PyVal)
         (kwargs : PyDict) (w w1 : World) (declared : string),
    AutoTokenizer.kw_tokenizer_type kwargs = VNone ->
    ~ In identifier (flat_map fst (_tokenizer_mapping cls)) ->
    truthy (AutoTokenizer.kw_use_fast kwargs) = false ->
    AutoTokenizer.declared_class E (AutoTokenizer.kw_config kwargs) identifier
      (AutoTokenizer.kw_forwarded kwargs) w = (Ok (inl (VStr declared)), w1) ->
    AutoTokenizer.from_pretrained E cls identifier model_args kwargs w
    = match tokenizer_class_from_name E (_extra_content w1) declared with
      | Raise e => (Raise e, w1)
      | Ok VNone =>
          (Raise (ValueError ("Tokenizer class " ++ declared
                              ++ " does not exist or is not currently imported.")), w1)
      | Ok found =>
          AutoTokenizer.call_from_pretrained found identifier model_args
            (AutoTokenizer.kw_forwarded kwargs) w1
      end.
Proof.
  intros E cls identifier model_args kwargs w w1 declared Htype Hnot Hfast Hdecl.
  rewrite (from_pretrained_not_builtin E cls identifier model_args kwargs w Htype Hnot), Hdecl.
  apply declared_literal. now left.
Qed.

Lemma without_use_fast_the_declared_name_decides_witness :
  tokenizer_class_from_name Demo.env [] "BertTokenizerFast" = Ok (VClass Demo.BertTokenizerFast)
  /\ fst (AutoTokenizer.from_pretrained Demo.env Demo.cls "./custom_declared" [] []
            Demo.world0)
     = Ok (MkTokenizer Demo.BertTokenizer "./custom_declared" [] [("_from_auto", VBool true)]).
Proof.
  assert (Hnot : ~ In "./custom_declared" (flat_map fst (_tokenizer_mapping Demo.cls))).
  { simpl. intros H. repeat (destruct H as [H|H]; [discriminate H|]). exact H. }
  split; [vm_compute; reflexivity|].
  rewrite (@without_use_fast_the_declared_name_decides Demo.env Demo.cls
             "./custom_declared" [] [] Demo.world0
             (MkWorld []
                [EvResolveFilePath "./custom_declared" "tokenizer_config.json"
                   (fetch_options [("_from_auto", VBool true)]);
                 could_not_locate;
                 EvAutoConfig "./custom_declared" [("_from_auto", VBool true)]])
             "BertTokenizer" eq_refl Hnot eq_refl eq_refl).
  vm_compute. reflexivity.
Defined.

(** X9. With [use_fast] set, an exception raised while the name with the
    [Fast] suffix is looked up -- the architecture package is missing, or
    the table lists the name and no module has it -- ends the call: the
    declared name is not tried. *)
Theorem failing_accelerated_lookup_is_not_recovered :
  forall (E : Env) (cls : Cls) (identifier : string) (model_args : list PyVal)
         (kwargs : PyDict) (w w1 : World) (declared : string) (e : PyError),
    AutoTokenizer.kw_tokenizer_type kwargs = VNone ->
    ~ In identifier (flat_map fst (_tokenizer_mapping cls)) ->
    truthy (AutoTokenizer.kw_use_fast kwargs) = true ->
    PyStr.endswith declared "Fast" = false ->
    AutoTokenizer.declared_class E (AutoTokenizer.kw_config kwargs) identifier
      (AutoTokenizer.kw_forwarded kwargs) w = (Ok (inl (VStr declared)), w1) ->
    tokenizer_class_from_name E (_extra_content w1) (declared ++ "Fast") = Raise e ->
    AutoTokenizer.from_pretrained E cls identifier model_args kwargs w = (Raise e, w1).
Proof.
  intros E cls identifier model_args kwargs w w1 declared e Htype Hnot Hfast Hsuffix
         Hdecl Hraise.
  rewrite (from_pretrained_not_builtin E cls identifier model_args kwargs w Htype Hnot), Hdecl.
  rewrite (declared_fast_first E identifier model_args _ declared _ w1 Hfast Hsuffix).
  now rewrite Hraise.
Qed.

Lemma failing_accelerated_lookup_is_not_recovered_witness :
  fst (AutoTokenizer.from_pretrained Demo.env Demo.cls "./bloom" []
         [("config", VConfig (MkConfig Demo.MyConfig (Some "BloomTokenizer")));
          ("use_fast", VBool true)] Demo.world0)
  = Raise (ModuleNotFoundError "No module named 'paddlenlp.transformers.bloom'").
Proof.
  assert (Hnot : ~ In "./bloom" (flat_map fst (_tokenizer_mapping Demo.cls))).
  { simpl. intros H. repeat (destruct H as [H|H]; [discriminate H|]). exact H. }
  rewrite (@failing_accelerated_lookup_is_not_recovered Demo.env Demo.cls "./bloom" []
             [("config", VConfig (MkConfig Demo.MyConfig (Some "BloomTokenizer")));
              ("use_fast", VBool true)] Demo.world0
             (MkWorld []
                [EvResolveFilePath "./bloom" "tokenizer_config.json"
                   (fetch_options [("_from_auto", VBool true)]);
                 could_not_locate])
             "BloomTokenizer"
             (ModuleNotFoundError "No module named 'paddlenlp.transformers.bloom'")
             eq_refl Hnot eq_refl eq_refl).
  - reflexivity.
  - vm_compute. reflexivity.
  - vm_compute. reflexivity.
Defined.

(** ** The arms of the model-configuration strategy that work *)

(** X10. No class is declared and the type of the model configuration has
    an architecture.  When the entry of that type has a class in the
    accelerated slot, and [use_fast] is set or the reference slot is
    [None], construction is handed to the accelerated class. *)
Theorem model_config_picks_the_accelerated_class :
  forall (E : Env) (cls : Cls) (identifier : string) (model_args : list PyVal)
         (kwargs : PyDict) (config : PretrainedConfig) (w w0 w1 : World)
         (model_type : string) (py : PyVal) (fast : TokClass),
    AutoTokenizer.kw_tokenizer_type kwargs = VNone ->
    ~ In identifier (flat_map fst (_tokenizer_mapping cls)) ->
    AutoTokenizer.declared_class E (AutoTokenizer.kw_config kwargs) identifier
      (AutoTokenizer.kw_forwarded kwargs) w = (Ok (inr config), w0) ->
    config_class_to_model_type E (cfg_name (config_type config)) = Some model_type ->
    AutoTokenizer.TOKENIZER_MAPPING_getitem E (config_type config) w0
    = (Ok (VTuple [py; VClass fast]), w1) ->
    truthy (AutoTokenizer.kw_use_fast kwargs) || is_None py = true ->
    AutoTokenizer.from_pretrained E cls identifier model_args kwargs w
    = (Ok (MkTokenizer fast identifier model_args (AutoTokenizer.kw_forwarded kwargs)), w1).
Proof.
  intros E cls identifier model_args kwargs config w w0 w1 model_type py fast
         Htype Hnot Hdecl Hknown Hget Hcase.
  rewrite (from_pretrained_not_builtin E cls identifier model_args kwargs w Htype Hnot), Hdecl.
  now apply model_config_accelerated with (model_type := model_type) (py := py).
Qed.

Lemma model_config_picks_the_accelerated_class_witness :
  fst (AutoTokenizer.from_pretrained Demo.env Demo.cls "./anything" []
         [("config", VConfig (MkConfig Demo.BertConfig None)); ("use_fast", VBool true)]
         Demo.world0)
  = Ok (MkTokenizer Demo.BertTokenizerFast "./anything" [] [("_from_auto", VBool true)]).
Proof.
  assert (Hnot : ~ In "./anything" (flat_map fst (_tokenizer_mapping Demo.cls))).
  { simpl. intros H. repeat (destruct H as [H|H]; [discriminate H|]). exact H. }
  set (w1 := MkWorld []
                [EvResolveFilePath "./anything" "tokenizer_config.json"
                   (fetch_options [("_from_auto", VBool true)]);
                 could_not_locate]).
  rewrite (@model_config_picks_the_accelerated_class Demo.env Demo.cls "./anything" []
             [("config", VConfig (MkConfig Demo.BertConfig None)); ("use_fast", VBool true)]
             (MkConfig Demo.BertConfig None) Demo.world0 w1 w1 "bert"
             (VClass Demo.BertTokenizer) Demo.BertTokenizerFast eq_refl Hnot);
    reflexivity.
Defined.

(** X11. No class is declared and the type of the model configuration has
    an architecture.  When the reference slot of its entry is a collection
    whose first member is a class, and the accelerated class is not chosen,
    construction is handed to that first member after a line naming it is
    printed. *)
Theorem model_config_picks_the_first_candidate :
  forall (E : Env) (cls : Cls) (identifier : string) (model_args : list PyVal)
         (kwargs : PyDict) (config : PretrainedConfig) (w w0 w1 : World)
         (model_type : string) (first : TokClass) (others : list PyVal) (fast : PyVal),
    AutoTokenizer.kw_tokenizer_type kwargs = VNone ->
    ~ In identifier (flat_map fst (_tokenizer_mapping cls)) ->
    AutoTokenizer.declared_class E (AutoTokenizer.kw_config kwargs) identifier
      (AutoTokenizer.kw_forwarded kwargs) w = (Ok (inr config), w0) ->
    config_class_to_model_type E (cfg_name (config_type config)) = Some model_type ->
    AutoTokenizer.TOKENIZER_MAPPING_getitem E (config_type config) w0
    = (Ok (VTuple [VTuple (VClass first :: others); fast]), w1) ->
    truthy fast && truthy (AutoTokenizer.kw_use_fast kwargs) = false ->
    AutoTokenizer.from_pretrained E cls identifier model_args kwargs w
    = (Ok (MkTokenizer first identifier model_args (AutoTokenizer.kw_forwarded kwargs)),
       MkWorld (_extra_content w1)
         (trace w1 ++ [EvPrint ("We are using " ++ repr_class first ++ " to load '"
                                ++ identifier ++ "'.")])%list).
Proof.
  intros E cls identifier model_args kwargs config w w0 w1 model_type first others fast
         Htype Hnot Hdecl Hknown Hget Hcase.
  rewrite (from_pretrained_not_builtin E cls identifier model_args kwargs w Htype Hnot), Hdecl.
  now apply model_config_first_candidate
    with (model_type := model_type) (others := others) (fast := fast).
Qed.

Lemma model_config_picks_the_first_candidate_witness :
  AutoTokenizer.from_pretrained Demo.env Demo.cls "./plain_gpt" [] [] Demo.world0
  = (Ok (MkTokenizer Demo.GPTTokenizer "./plain_gpt" [] [("_from_auto", VBool true)]),
     MkWorld []
       [EvResolveFilePath "./plain_gpt" "tokenizer_config.json"
          (fetch_options [("_from_auto", VBool true)]);
        could_not_locate;
        EvAutoConfig "./plain_gpt" [("_from_auto", VBool true)];
        EvPrint
          "We are using <class 'paddlenlp.transformers.gpt.tokenizer.GPTTokenizer'> to load './plain_gpt'."]).
Proof.
  assert (Hnot : ~ In "./plain_gpt" (flat_map fst (_tokenizer_mapping Demo.cls))).
  { simpl. intros H. repeat (destruct H as [H|H]; [discriminate H|]). exact H. }
  set (w1 := MkWorld []
                [EvResolveFilePath "./plain_gpt" "tokenizer_config.json"
                   (fetch_options [("_from_auto", VBool true)]);
                 could_not_locate;
                 EvAutoConfig "./plain_gpt" [("_from_auto", VBool true)]]).
  apply (@model_config_picks_the_first_candidate Demo.env Demo.cls "./plain_gpt" [] []
           (MkConfig Demo.GPTConfig None) Demo.world0 w1 w1 "gpt" Demo.GPTTokenizer
           [VClass Demo.GPTChineseTokenizer] VNone eq_refl Hnot); reflexivity.
Defined.

(** X12. No class is declared and the type of the model configuration has
    an architecture, but its entry has [None] in the reference slot and
    nothing usable in the accelerated slot: [ValueError] is raised, asking
    for [sentencepiece]. *)
Theorem model_config_with_empty_slots_raises :
  forall (E : Env) (cls : Cls) (identifier : string) (model_args : list PyVal)
         (kwargs : PyDict) (config : PretrainedConfig) (w w0 w1 : World)
         (model_type : string) (fast : PyVal),
    AutoTokenizer.kw_tokenizer_type kwargs = VNone ->
    ~ In identifier (flat_map fst (_tokenizer_mapping cls)) ->
    AutoTokenizer.declared_class E (AutoTokenizer.kw_config kwargs) identifier
      (AutoTokenizer.kw_forwarded kwargs) w = (Ok (inr config), w0) ->
    config_class_to_model_type E (cfg_name (config_type config)) = Some model_type ->
    AutoTokenizer.TOKENIZER_MAPPING_getitem E (config_type config) w0
    = (Ok (VTuple [VNone; fast]), w1) ->
    truthy fast = false ->
    AutoTokenizer.from_pretrained E cls identifier model_args kwargs w
    = (Raise (ValueError
                "This tokenizer cannot be instantiated. Please make sure you have `sentencepiece` installed in order to use this tokenizer."),
       w1).
Proof.
  intros E cls identifier model_args kwargs config w w0 w1 model_type fast
         Htype Hnot Hdecl Hknown Hget Hcase.
  rewrite (from_pretrained_not_builtin E cls identifier model_args kwargs w Htype Hnot), Hdecl.
  now apply model_config_neither with (model_type := model_type) (fast := fast).
Qed.

Lemma model_config_with_empty_slots_raises_witness :
  fst (AutoTokenizer.from_pretrained Sample.bare Demo.cls "./custom" [] [] Demo.world0)
  = Raise (ValueError
             "This tokenizer cannot be instantiated. Please make sure you have `sentencepiece` installed in order to use this tokenizer.").
Proof.
  assert (Hnot : ~ In "./custom" (flat_map fst (_tokenizer_mapping Demo.cls))).
  { simpl. intros H. repeat (destruct H as [H|H]; [discriminate H|]). exact H. }
  set (w1 := MkWorld []
                [EvResolveFilePath "./custom" "tokenizer_config.json"
                   (fetch_options [("_from_auto", VBool true)]);
                 could_not_locate;
                 EvAutoConfig "./custom" [("_from_auto", VBool true)]]).
  rewrite (@model_config_with_empty_slots_raises Sample.bare Demo.cls "./custom" [] []
             (MkConfig Demo.MyConfig None) Demo.world0 w1 w1 "custom" VNone eq_refl Hnot);
    reflexivity.
Defined.

(** ** The architecture table and the lookup by name *)

Lemma distinct_NoDup (l : list string) : distinct l = true -> NoDup l.
Proof.
  induction l as [|x rest IH]; simpl; intros H; [constructor|].
  apply andb_true_iff in H. destruct H as [Hx Hrest].
  constructor; [|now apply IH]. apply mem_not_In. now destruct (PyStr.mem x rest).
Qed.

Section Table.
Variable E : Env.

Lemma listed_names_distinct : NoDup (listed_names E).
Proof.
  unfold listed_names, TOKENIZER_MAPPING_NAMES, if_available.
  destruct (is_tokenizers_available E); apply distinct_NoDup; vm_compute; reflexivity.
Qed.

(** In a list of architectures that share no class name, the architecture
    that lists a name is the one the loop stops at. *)
Lemma class_from_table_listed (items : list (string * MappingNames))
      (architecture : string) (tokenizers : MappingNames) (name : string) :
  NoDup (flat_map (fun item => get_mapping_tokenizers (snd item) true) items) ->
  In (architecture, tokenizers) items ->
  In name (get_mapping_tokenizers tokenizers true) ->
  class_from_table E items name
  = Some
      (import_getattr E (package_of E architecture) name
         (import_getattr E (package_of E architecture ++ ".tokenizer") name
            (import_getattr E (package_of E architecture ++ ".tokenizer_fast") name
               (Raise (ValueError ("Tokenizer class " ++ name
                                   ++ " is not currently imported.")))))).
Proof.
  induction items as [|[module_name toks] rest IH]; intros Hnd Hin Hname; [contradiction|].
  cbn [class_from_table]. cbn [flat_map snd] in Hnd.
  destruct (PyStr.mem name (get_mapping_tokenizers toks true)) eqn:Hmem.
  - destruct Hin as [Heq|Hin].
    + inversion Heq; subst. unfold package_of. now rewrite !append_assoc.
    + exfalso. apply mem_In in Hmem.
      apply NoDup_app_remove_l in Hnd as Hrest.
      assert (Hlater : In name (flat_map (fun item => get_mapping_tokenizers (snd item) true)
                                  rest)).
      { apply in_flat_map. now exists (architecture, tokenizers). }
      clear IH Hrest. revert Hmem Hlater Hnd.
      generalize (get_mapping_tokenizers toks true) as here.
      generalize (flat_map (fun item => get_mapping_tokenizers (snd item) true) rest) as later.
      intros later here. induction here as [|x here IHh]; simpl; [tauto|].
      intros [->|Hmem] Hlater Hnd; inversion Hnd; subst.
      * match goal with H : ~ In _ _ |- _ => apply H end. apply in_or_app. now right.
      * now apply IHh.
  - destruct Hin as [Heq|Hin].
    + inversion Heq; subst. apply mem_not_In in Hmem. contradiction.
    + apply IH; auto. now apply NoDup_app_remove_l in Hnd.
Qed.

Lemma listed_name_lookup (extra_content : list (ConfigType * (PyVal * PyVal)))
      (architecture : string) (tokenizers : MappingNames) (name : string) :
  name <> "PretrainedTokenizerFast" ->
  In (architecture, tokenizers) (TOKENIZER_MAPPING_NAMES E) ->
  In name (get_mapping_tokenizers tokenizers true) ->
  tokenizer_class_from_name E extra_content name
  = import_getattr E (package_of E architecture) name
      (import_getattr E (package_of E architecture ++ ".tokenizer") name
         (import_getattr E (package_of E architecture ++ ".tokenizer_fast") name
            (Raise (ValueError ("Tokenizer class " ++ name
                                ++ " is not currently imported."))))).
Proof.
  intros Hname Hin Hlisted. unfold tokenizer_class_from_name.
  destruct (String.eqb_spec name "PretrainedTokenizerFast"); [contradiction|].
  now rewrite (@class_from_table_listed (TOKENIZER_MAPPING_NAMES E) architecture tokenizers
                 name listed_names_distinct Hin Hlisted).
Qed.

End Table.

(** X13. The architecture table is well formed whether or not the
    [tokenizers] backend is available: no architecture key occurs twice, no
    class name is listed twice (under one architecture or under two), and
    every architecture lists at least one reference class. *)
Theorem architecture_table_is_well_formed :
  forall E : Env,
    NoDup (keys (TOKENIZER_MAPPING_NAMES E))
    /\ NoDup (listed_names E)
    /\ (forall architecture tokenizers,
           In (architecture, tokenizers) (TOKENIZER_MAPPING_NAMES E) ->
           get_mapping_tokenizers tokenizers false <> []).
Proof.
  intros E. split; [|split].
  - unfold keys, TOKENIZER_MAPPING_NAMES, if_available.
    destruct (is_tokenizers_available E); apply distinct_NoDup; vm_compute; reflexivity.
  - apply listed_names_distinct.
  - assert (Hall : forallb (fun item : string * MappingNames =>
                              match get_mapping_tokenizers (snd item) false with
                              | [] => false
                              | _ => true
                              end) (TOKENIZER_MAPPING_NAMES E) = true).
    { unfold TOKENIZER_MAPPING_NAMES, if_available.
      destruct (is_tokenizers_available E); vm_compute; reflexivity. }
    intros architecture tokenizers Hin Hempty.
    rewrite forallb_forall in Hall. specialize (Hall _ Hin). simpl in Hall.
    now rewrite Hempty in Hall.
Qed.

(** X14. A class name the table lists under an architecture is looked up
    in that architecture's package, then in its [tokenizer] module, then in
    its [tokenizer_fast] module, and the first of them that has the
    attribute gives the result -- whatever the registry holds, and without
    importing the modules after it. *)
Theorem listed_name_comes_from_its_architecture :
  forall (E : Env) (extra_content : list (ConfigType * (PyVal * PyVal)))
         (architecture : string) (tokenizers : MappingNames) (name : string)
         (package : PyModule) (found : PyVal),
    name <> "PretrainedTokenizerFast" ->
    In (architecture, tokenizers) (TOKENIZER_MAPPING_NAMES E) ->
    In name (get_mapping_tokenizers tokenizers true) ->
    importlib_import_module E (package_of E architecture) = Some package ->
    (package name = Some found ->
     tokenizer_class_from_name E extra_content name = Ok found)
    /\ (forall module,
           package name = None ->
           importlib_import_module E (package_of E architecture ++ ".tokenizer")
           = Some module ->
           module name = Some found ->
           tokenizer_class_from_name E extra_content name = Ok found)
    /\ (forall module module_fast,
           package name = None ->
           importlib_import_module E (package_of E architecture ++ ".tokenizer")
           = Some module ->
           module name = None ->
           importlib_import_module E (package_of E architecture ++ ".tokenizer_fast")
           = Some module_fast ->
           module_fast name = Some found ->
           tokenizer_class_from_name E extra_content name = Ok found).
Proof.
  intros E extra_content architecture tokenizers name package found Hname Hin Hlisted Hpkg.
  rewrite (@listed_name_lookup E extra_content architecture tokenizers name Hname Hin Hlisted).
  unfold import_getattr. rewrite Hpkg. repeat split.
  - now intros ->.
  - intros module -> -> ->. reflexivity.
  - intros module module_fast -> -> -> -> ->. reflexivity.
Qed.

Lemma listed_name_comes_from_its_architecture_witness :
  tokenizer_class_from_name Demo.env
    [(Demo.MyConfig, (VClass Sample.MyTokenizer, VClass Demo.BaseFast))] "BertTokenizerFast"
  = Ok (VClass Demo.BertTokenizerFast).
Proof.
  destruct (@listed_name_comes_from_its_architecture Demo.env
              [(Demo.MyConfig, (VClass Sample.MyTokenizer, VClass Demo.BaseFast))]
              "bert" (SlowFast (One "BertTokenizer") (if_available Demo.env "BertTokenizerFast"))
              "BertTokenizerFast"
              (Demo.attrs [("BertTokenizer", VClass Demo.BertTokenizer);
                           ("BertTokenizerFast", VClass Demo.BertTokenizerFast)])
              (VClass Demo.BertTokenizerFast)) as [Hpackage _].
  - discriminate.
  - simpl. tauto.
  - simpl. tauto.
  - reflexivity.
  - apply Hpackage. reflexivity.
Defined.

(** X15. A class name the table lists never falls through to the registry
    or the main module.  When its architecture's package cannot be imported
    the lookup raises [ModuleNotFoundError]; when the package and its
    [tokenizer] and [tokenizer_fast] modules import and none of them has
    the attribute, it raises [ValueError] naming the class. *)
Theorem listed_name_that_is_not_importable_raises :
  forall (E : Env) (extra_content : list (ConfigType * (PyVal * PyVal)))
         (architecture : string) (tokenizers : MappingNames) (name : string),
    name <> "PretrainedTokenizerFast" ->
    In (architecture, tokenizers) (TOKENIZER_MAPPING_NAMES E) ->
    In name (get_mapping_tokenizers tokenizers true) ->
    (importlib_import_module E (package_of E architecture) = None ->
     tokenizer_class_from_name E extra_content name
     = Raise (ModuleNotFoundError ("No module named '" ++ package_of E architecture ++ "'")))
    /\ (forall package module module_fast,
           importlib_import_module E (package_of E architecture) = Some package ->
           importlib_import_module E (package_of E architecture ++ ".tokenizer")
           = Some module ->
           importlib_import_module E (package_of E architecture ++ ".tokenizer_fast")
           = Some module_fast ->
           package name = None -> module name = None -> module_fast name = None ->
           tokenizer_class_from_name E extra_content name
           = Raise (ValueError ("Tokenizer class " ++ name ++ " is not currently imported."))).
Proof.
  intros E extra_content architecture tokenizers name Hname Hin Hlisted.
  rewrite (@listed_name_lookup E extra_content architecture tokenizers name Hname Hin Hlisted).
  unfold import_getattr. split.
  - now intros ->.
  - intros package module module_fast -> -> -> -> -> ->. reflexivity.
Qed.

Lemma listed_name_that_is_not_importable_raises_witness :
  tokenizer_class_from_name Demo.env [] "QWenTokenizer"
  = Raise (ValueError "Tokenizer class QWenTokenizer is not currently imported.")
  /\ tokenizer_class_from_name Demo.env [] "T5Tokenizer"
     = Raise (ModuleNotFoundError "No module named 'paddlenlp.transformers.t5'").
Proof.
  split.
  - destruct (@listed_name_that_is_not_importable_raises Demo.env [] "qwen"
                (Name "QWenTokenizer") "QWenTokenizer") as [_ Hnone].
    + discriminate.
    + simpl. tauto.
    + simpl. tauto.
    + apply (Hnone (Demo.attrs []) (Demo.attrs []) (Demo.attrs [])); reflexivity.
  - destruct (@listed_name_that_is_not_importable_raises Demo.env [] "t5"
                (Name "T5Tokenizer") "T5Tokenizer") as [Hmissing _].
    + discriminate.
    + simpl. tauto.
    + simpl. tauto.
    + apply Hmissing. reflexivity.
Defined.

Section Registry.
Variable E : Env.

Lemma has_name_class (v : PyVal) (name : string) :
  has_name v name = true -> exists c, v = VClass c /\ cls_name c = name.
Proof.
  destruct v; simpl; try discriminate. intros H. apply String.eqb_eq in H. now exists c.
Qed.

Lemma class_from_extra_content_first (items : list (ConfigType * (PyVal * PyVal)))
      (name : string) (config_class : ConfigType) (slow fast : PyVal) :
  In (config_class, (slow, fast)) items ->
  has_name slow name || has_name fast name = true ->
  exists c before config_class' slow' fast' after,
    class_from_extra_content items name = Some (VClass c)
    /\ cls_name c = name
    /\ items = (before ++ (config_class', (slow', fast')) :: after)%list
    /\ (forall k s f, In (k, (s, f)) before ->
                      has_name s name = false /\ has_name f name = false)
    /\ (slow' = VClass c \/ (has_name slow' name = false /\ fast' = VClass c)).
Proof.
  induction items as [|[k [s f]] rest IH]; intros Hin Hnamed; [contradiction|].
  cbn [class_from_extra_content].
  destruct (has_name s name) eqn:Hs.
  - destruct (@has_name_class s name Hs) as (c & -> & Hc).
    exists c, [], k, (VClass c), f, rest.
    split; [reflexivity | split; [exact Hc | split; [reflexivity | split]]];
      [intros ? ? ? [] | now left].
  - destruct (has_name f name) eqn:Hf.
    + destruct (@has_name_class f name Hf) as (c & -> & Hc).
      exists c, [], k, s, (VClass c), rest.
      split; [reflexivity | split; [exact Hc | split; [reflexivity | split]]];
        [intros ? ? ? [] | right; now split].
    + destruct Hin as [Heq|Hin].
      * inversion Heq; subst. rewrite Hs, Hf in Hnamed. discriminate.
      * destruct (IH Hin Hnamed)
          as (c & before & k' & s' & f' & after & Hfind & Hc & Hsplit & Hfirst & Hslot).
        exists c, ((k, (s, f)) :: before), k', s', f', after.
        split; [exact Hfind | split; [exact Hc | split; [|split; [|exact Hslot]]]].
        -- simpl. now rewrite Hsplit.
        -- intros k0 s0 f0 [Heq|Hin0]; [inversion Heq; subst; now split|].
           now apply (Hfirst k0 s0 f0).
Qed.

End Registry.

(** X16. A class that was registered is found by its name: when the table
    lists no class of that name and some registry entry holds a class whose
    [__name__] is the name, the lookup returns the first such class of the
    registry -- of the first entry that holds one, its reference slot
    before its accelerated slot -- before the main module is imported (its
    absence or its contents do not matter). *)
Theorem registered_class_is_found_by_name :
  forall (E : Env) (extra_content : list (ConfigType * (PyVal * PyVal)))
         (name : string) (config_class : ConfigType) (slow fast : PyVal),
    name <> "PretrainedTokenizerFast" ->
    ~ In name (listed_names E) ->
    In (config_class, (slow, fast)) extra_content ->
    has_name slow name || has_name fast name = true ->
    exists c before config_class' slow' fast' after,
      tokenizer_class_from_name E extra_content name = Ok (VClass c)
      /\ cls_name c = name
      /\ extra_content = (before ++ (config_class', (slow', fast')) :: after)%list
      /\ (forall k s f, In (k, (s, f)) before ->
                        has_name s name = false /\ has_name f name = false)
      /\ (slow' = VClass c \/ (has_name slow' name = false /\ fast' = VClass c)).
Proof.
  intros E extra_content name config_class slow fast Hname Hnot Hin Hnamed.
  unfold tokenizer_class_from_name.
  destruct (String.eqb_spec name "PretrainedTokenizerFast"); [contradiction|].
  assert (Htable : class_from_table E (TOKENIZER_MAPPING_NAMES E) name = None).
  { apply class_from_table_None. intros module_name tokenizers Hentry Hlisted.
    apply Hnot. unfold listed_names. apply in_flat_map.
    now exists (module_name, tokenizers). }
  rewrite Htable.
  destruct (@class_from_extra_content_first extra_content name config_class slow fast
              Hin Hnamed)
    as (c & before & k' & s' & f' & after & -> & Hc & Hsplit & Hfirst & Hslot).
  exists c, before, k', s', f', after. auto.
Qed.

Lemma registered_class_is_found_by_name_witness :
  tokenizer_class_from_name Demo.env (_extra_content Sample.registry) "MyTokenizer"
  = Ok (VClass Sample.MyTokenizer).
Proof.
  destruct (@registered_class_is_found_by_name Demo.env (_extra_content Sample.registry)
              "MyTokenizer" Demo.MyConfig (VClass Sample.MyTokenizer) VNone)
    as (c & before & k' & s' & f' & after & Hfind & _ & Hsplit & _ & Hslot).
  - discriminate.
  - apply mem_not_In. vm_compute. reflexivity.
  - simpl. now left.
  - reflexivity.
  - rewrite Hfind. simpl in Hsplit.
    destruct before as [|entry before].
    + simpl in Hsplit. inversion Hsplit; subst.
      destruct Hslot as [Hs | [Hs _]]; [now inversion Hs | discriminate Hs].
    + destruct before; simpl in Hsplit; inversion Hsplit.
Defined.

(** X17. A name that is neither listed by the table nor carried by a
    registered class is answered by the main module [paddlenlp]: the object
    it exports under that name (the placeholder of a missing dependency),
    or [None] when it exports none.  The lookup does not raise. *)
Theorem unlisted_name_falls_back_to_the_main_module :
  forall (E : Env) (extra_content : list (ConfigType * (PyVal * PyVal)))
         (name : string) (main_module : PyModule),
    name <> "PretrainedTokenizerFast" ->
    ~ In name (listed_names E) ->
    class_from_extra_content extra_content name = None ->
    importlib_import_module E "paddlenlp" = Some main_module ->
    tokenizer_class_from_name E extra_content name
    = Ok match main_module name with
         | Some exported => exported
         | None => VNone
         end.
Proof.
  intros E extra_content name main_module Hname Hnot Hextra Hmain.
  unfold tokenizer_class_from_name.
  destruct (String.eqb_spec name "PretrainedTokenizerFast"); [contradiction|].
  assert (Htable : class_from_table E (TOKENIZER_MAPPING_NAMES E) name = None).
  { apply class_from_table_None. intros module_name tokenizers Hentry Hlisted.
    apply Hnot. unfold listed_names. apply in_flat_map.
    now exists (module_name, tokenizers). }
  rewrite Htable, Hextra, Hmain. now destruct (main_module name).
Qed.

Lemma unlisted_name_falls_back_to_the_main_module_witness :
  tokenizer_class_from_name Demo.env [] "NoSuchTokenizer" = Ok VNone.
Proof.
  apply (@unlisted_name_falls_back_to_the_main_module Demo.env [] "NoSuchTokenizer"
           (Demo.attrs [])).
  - discriminate.
  - apply mem_not_In. vm_compute. reflexivity.
  - reflexivity.
  - reflexivity.
Defined.

(** ** Registering a pair *)

Lemma TokClass_eqb_refl : forall a, TokClass_eqb a a = true.
Proof.
  fix IH 1. intros [m n s f o l]. simpl.
  rewrite !String.eqb_refl, !Bool.eqb_reflx. simpl.
  destruct o as [c|]; [rewrite IH|]; simpl;
    now destruct (list_eq_dec string_dec l l).
Qed.

Lemma TokClass_eqb_true : forall a b, TokClass_eqb a b = true -> a = b.
Proof.
  fix IH 1. intros [m n s f o l] [m' n' s' f' o' l']. simpl. intros H.
  apply andb_true_iff in H. destruct H as [H Hl].
  apply andb_true_iff in H. destruct H as [H Ho].
  apply andb_true_iff in H. destruct H as [H Hf].
  apply andb_true_iff in H. destruct H as [H Hs].
  apply andb_true_iff in H. destruct H as [Hm Hn].
  apply String.eqb_eq in Hm, Hn. apply Bool.eqb_prop in Hs, Hf. subst.
  destruct (list_eq_dec string_dec l l') as [->|]; [|discriminate].
  destruct o as [c|], o' as [c'|]; try discriminate; [|reflexivity].
  now rewrite (IH c c' Ho).
Qed.

Lemma companion_differs_spec (slow fast : TokClass) :
  AutoTokenizer.companion_differs (VClass fast) (VClass slow) = false
  <-> slow_tokenizer_class fast = Some slow.
Proof.
  unfold AutoTokenizer.companion_differs.
  destruct (slow_tokenizer_class fast) as [c|]; [|split; discriminate].
  destruct (TokClass_eqb c slow) eqn:Heq; simpl.
  - apply TokClass_eqb_true in Heq. subst. tauto.
  - split; [discriminate|]. intros H. inversion H; subst.
    now rewrite TokClass_eqb_refl in Heq.
Qed.

#[local] Arguments AutoTokenizer.companion_differs : simpl never.

Lemma register_pair_passes (E : Env) (config_class : ConfigType) (exist_ok : bool)
      (w : World) (slow fast : TokClass) :
  is_fast slow = false ->
  is_slow fast = false ->
  is_fast fast && AutoTokenizer.companion_differs (VClass fast) (VClass slow) = false ->
  AutoTokenizer.register E config_class (VClass slow) (VClass fast) exist_ok w
  = AutoTokenizer.TOKENIZER_MAPPING_register E config_class (VClass slow, VClass fast)
      exist_ok w.
Proof.
  intros Hslow Hfast Hok. unfold AutoTokenizer.register, AutoTokenizer.issubclass.
  simpl. py_unfold. rewrite Hslow, Hfast. simpl. rewrite Hok.
  unfold AutoTokenizer.TOKENIZER_MAPPING_getitem. py_unfold.
  destruct (ODict.get ConfigType_eqb (_extra_content w) config_class) as [[a b]|] eqn:Hget.
  - rewrite (odict_mem_get _ _ _ Hget), Hget. reflexivity.
  - unfold ODict.mem. rewrite Hget. reflexivity.
Qed.

(** X18. When both classes are passed to [register] and the accelerated
    one is tagged accelerated, its [slow_tokenizer_class] attribute must be
    the very class passed as reference: otherwise (another class, or the
    attribute left at [None]) [ValueError] is raised and nothing is written.
    When it is, the pair as passed goes to [TOKENIZER_MAPPING.register],
    whatever entry existed.  A class in the accelerated slot without the
    accelerated tag is not checked against the reference class. *)
Theorem register_checks_the_companion :
  forall (E : Env) (config_class : ConfigType) (exist_ok : bool) (w : World)
         (slow fast : TokClass),
    is_fast slow = false ->
    is_slow fast = false ->
    (is_fast fast = true ->
     slow_tokenizer_class fast <> Some slow ->
     exists msg,
       AutoTokenizer.register E config_class (VClass slow) (VClass fast) exist_ok w
       = (Raise (ValueError msg), w))
    /\ (slow_tokenizer_class fast = Some slow \/ is_fast fast = false ->
        AutoTokenizer.register E config_class (VClass slow) (VClass fast) exist_ok w
        = AutoTokenizer.TOKENIZER_MAPPING_register E config_class (VClass slow, VClass fast)
            exist_ok w).
Proof.
  intros E config_class exist_ok w slow fast Hslow Hfast. split.
  - intros Htag Hother.
    assert (Hdiff : AutoTokenizer.companion_differs (VClass fast) (VClass slow) = true).
    { destruct (AutoTokenizer.companion_differs (VClass fast) (VClass slow)) eqn:Hd;
        [reflexivity|]. apply companion_differs_spec in Hd. contradiction. }
    unfold AutoTokenizer.register, AutoTokenizer.issubclass. simpl. py_unfold.
    rewrite Hslow, Hfast. simpl. rewrite Htag, Hdiff. simpl. eexists. reflexivity.
  - intros Hcase. apply register_pair_passes; auto.
    destruct Hcase as [Hsame | ->]; [|reflexivity].
    apply companion_differs_spec in Hsame. rewrite Hsame. apply andb_false_r.
Qed.

Lemma register_checks_the_companion_witness :
  (exists msg,
      AutoTokenizer.register Demo.env Demo.MyConfig (VClass Sample.MyTokenizer)
        (VClass Demo.BaseFast) false Demo.world0
      = (Raise (ValueError msg), Demo.world0))
  /\ AutoTokenizer.register Demo.env Demo.MyConfig (VClass Sample.MyTokenizer)
       (VClass Sample.MyTokenizerFast) false Demo.world0
     = (Ok tt,
        MkWorld [(Demo.MyConfig, (VClass Sample.MyTokenizer, VClass Sample.MyTokenizerFast))]
          []).
Proof.
  split.
  - destruct (@register_checks_the_companion Demo.env Demo.MyConfig false Demo.world0
                Sample.MyTokenizer Demo.BaseFast eq_refl eq_refl) as [Hbad _].
    apply Hbad; [reflexivity | discriminate].
  - destruct (@register_checks_the_companion Demo.env Demo.MyConfig false Demo.world0
                Sample.MyTokenizer Sample.MyTokenizerFast eq_refl eq_refl) as [_ Hgood].
    rewrite Hgood; [reflexivity | now left].
Defined.

(** ** The older resolution by configuration file *)

Section Legacy.
Variable E : Env.

Lemma class_body_has_no_name_mapping (cls : Cls) :
  AutoTokenizer.class_body E = Ok cls -> _name_mapping cls = None.
Proof.
  unfold AutoTokenizer.class_body. destruct (get_configurations E); [|discriminate].
  intros H. inversion H. reflexivity.
Qed.

(** The loop of the [else] arm finds nothing exactly when no pattern occurs. *)
Lemma recognize_pattern_None (items : list (string * string)) (lowered : string) :
  AutoTokenizer.recognize_pattern items lowered = None
  <-> forall key pattern, In (key, pattern) items -> ~ PyStr.occurs pattern lowered.
Proof.
  induction items as [|[k p] rest IH]; simpl.
  - split; [intros _ ? ? [] | reflexivity].
  - destruct (PyStr.contains p lowered) eqn:Hc.
    + split; [discriminate|]. intros Hall. apply contains_occurs in Hc.
      now elim (Hall k p (or_introl eq_refl)).
    + rewrite IH. split.
      * intros Hall key pattern [Heq|Hin]; [|exact (Hall key pattern Hin)].
        inversion Heq; subst. intros Hocc. apply contains_occurs in Hocc. congruence.
      * intros Hall key pattern Hin. apply (Hall key pattern). now right.
Qed.

(** It stops at the first entry whose pattern occurs. *)
Lemma recognize_pattern_first (before after : list (string * string))
      (key pattern lowered : string) :
  (forall k p, In (k, p) before -> ~ PyStr.occurs p lowered) ->
  PyStr.occurs pattern lowered ->
  AutoTokenizer.recognize_pattern (before ++ (key, pattern) :: after)%list lowered
  = Some (key, pattern).
Proof.
  intros Hbefore Hocc. induction before as [|[k p] rest IH]; simpl.
  - apply contains_occurs in Hocc. now rewrite Hocc.
  - destruct (PyStr.contains p lowered) eqn:Hc.
    + apply contains_occurs in Hc. now elim (Hbefore k p (or_introl eq_refl)).
    + apply IH. intros k' p' Hin. apply (Hbefore k' p'). now right.
Qed.

End Legacy.

(** X19. With the class as this file builds it -- [_tokenizer_mapping]
    assigned in the class body, [_name_mapping] assigned nowhere --
    [_get_tokenizer_class_from_config] never returns a class: every call
    ends in an exception, whatever the arguments and the file. *)
Theorem legacy_resolution_always_raises :
  forall (E : Env) (cls : Cls) (identifier config_file_path : string)
         (use_fast : PyVal) (w : World),
    AutoTokenizer.class_body E = Ok cls ->
    exists e w',
      AutoTokenizer._get_tokenizer_class_from_config E cls identifier config_file_path
        use_fast w = (Raise e, w').
Proof.
  intros E cls identifier config_file_path use_fast w Hbody.
  apply class_body_has_no_name_mapping in Hbody.
  unfold AutoTokenizer._get_tokenizer_class_from_config.
  destruct (negb (is_None use_fast)); [now eexists; eexists|].
  py_unfold. simpl. rewrite Hbody.
  destruct (json_load E config_file_path) as [loaded|e]; [|now eexists; eexists].
  destruct loaded; try (now eexists; eexists).
  destruct (truthy (AutoTokenizer.pop_init_class kv)); now eexists; eexists.
Qed.

Lemma legacy_resolution_always_raises_witness :
  exists cls,
    AutoTokenizer.class_body Sample.installed = Ok cls
    /\ exists e w',
        AutoTokenizer._get_tokenizer_class_from_config Sample.installed cls "./bart"
          "./bart/tokenizer_config.json" VNone Demo.world0 = (Raise e, w').
Proof.
  destruct (AutoTokenizer.class_body Sample.installed) as [cls|e] eqn:Hbody;
    [|vm_compute in Hbody; discriminate Hbody].
  exists cls. split; [reflexivity|].
  apply (@legacy_resolution_always_raises Sample.installed cls "./bart"
           "./bart/tokenizer_config.json" VNone Demo.world0 Hbody).
Defined.

(** X20. In [_get_tokenizer_class_from_config], when the configuration
    declares no class (neither key, or an empty value) the class is guessed
    from the identifier: the entries of [_name_mapping] are tried in order
    and the first whose pattern occurs in the identifier as [str.lower]
    returns it names the class, even when later patterns occur too. *)
Theorem pattern_recognition_takes_the_first_match :
  forall (E : Env) (cls : Cls) (identifier config_file_path : string) (w : World)
         (entries : PyDict) (before after : list (string * string))
         (key pattern : string) (module : PyModule) (found : PyVal),
    json_load E config_file_path = Ok (VDict entries) ->
    truthy (AutoTokenizer.pop_init_class entries) = false ->
    _name_mapping cls = Some (before ++ (key, pattern) :: after)%list ->
    (forall k p, In (k, p) before -> ~ PyStr.occurs p (str_lower E identifier)) ->
    PyStr.occurs pattern (str_lower E identifier) ->
    import_module E ("paddlenlp.transformers." ++ pattern ++ ".tokenizer") = Some module ->
    module key = Some found ->
    AutoTokenizer._get_tokenizer_class_from_config E cls identifier config_file_path
      VNone w
    = (Ok found,
       MkWorld (_extra_content w)
         (trace w ++ [EvOpen config_file_path;
                      EvLoggerInfo "We use pattern recognition to recognize the Tokenizer class."])%list).
Proof.
  intros E cls identifier config_file_path w entries before after key pattern module found
         Hload Hfalsy Hmap Hbefore Hocc Himport Hattr.
  unfold AutoTokenizer._get_tokenizer_class_from_config. py_unfold. simpl.
  rewrite Hload, Hfalsy, Hmap. simpl.
  rewrite (@recognize_pattern_first before after key pattern (str_lower E identifier)
             Hbefore Hocc).
  simpl in Himport. rewrite Himport, Hattr. now rewrite <- app_assoc.
Qed.

Lemma pattern_recognition_takes_the_first_match_witness :
  str_lower Sample.blank "My-BERT-and-BART" = "my-bert-and-bart"
  /\ fst (AutoTokenizer._get_tokenizer_class_from_config Sample.blank Sample.named
            "My-BERT-and-BART" "./empty.json" VNone Demo.world0)
     = Ok (VClass Demo.BertTokenizer).
Proof.
  split; [vm_compute; reflexivity|].
  rewrite (@pattern_recognition_takes_the_first_match Sample.blank Sample.named
             "My-BERT-and-BART" "./empty.json" Demo.world0 []
             [("GPTTokenizer", "gpt")] [("BartTokenizer", "bart")]
             "BertTokenizer" "bert"
             (Demo.attrs [("BertTokenizer", VClass Demo.BertTokenizer)])
             (VClass Demo.BertTokenizer)).
  - reflexivity.
  - reflexivity.
  - reflexivity.
  - reflexivity.
  - intros k p [Heq|[]] Hocc. inversion Heq; subst.
    apply contains_occurs in Hocc. vm_compute in Hocc. discriminate Hocc.
  - apply contains_occurs. vm_compute. reflexivity.
  - reflexivity.
  - reflexivity.
Defined.

(** X21. In [_get_tokenizer_class_from_config], when the configuration
    declares no class and no pattern of [_name_mapping] occurs in the
    identifier as [str.lower] returns it (in particular when the mapping is
    empty), the call does not return [None]: it raises [UnboundLocalError],
    after the file was read and the log line written. *)
Theorem pattern_recognition_without_match_raises :
  forall (E : Env) (cls : Cls) (identifier config_file_path : string) (w : World)
         (entries : PyDict) (name_mapping : list (string * string)),
    json_load E config_file_path = Ok (VDict entries) ->
    truthy (AutoTokenizer.pop_init_class entries) = false ->
    _name_mapping cls = Some name_mapping ->
    (forall key pattern,
        In (key, pattern) name_mapping -> ~ PyStr.occurs pattern (str_lower E identifier)) ->
    exists msg,
      AutoTokenizer._get_tokenizer_class_from_config E cls identifier config_file_path
        VNone w
      = (Raise (UnboundLocalError msg),
         MkWorld (_extra_content w)
           (trace w ++ [EvOpen config_file_path;
                        EvLoggerInfo "We use pattern recognition to recognize the Tokenizer class."])%list).
Proof.
  intros E cls identifier config_file_path w entries name_mapping Hload Hfalsy Hmap Hnone.
  unfold AutoTokenizer._get_tokenizer_class_from_config. py_unfold. simpl.
  rewrite Hload, Hfalsy, Hmap. simpl.
  apply recognize_pattern_None in Hnone. rewrite Hnone. rewrite <- app_assoc.
  eexists. reflexivity.
Qed.

Lemma pattern_recognition_without_match_raises_witness :
  str_lower Sample.blank "my-model" = "my-model"
  /\ exists msg,
      AutoTokenizer._get_tokenizer_class_from_config Sample.blank Sample.named
        "my-model" "./empty.json" VNone Demo.world0
      = (Raise (UnboundLocalError msg),
         MkWorld []
           [EvOpen "./empty.json";
            EvLoggerInfo "We use pattern recognition to recognize the Tokenizer class."]).
Proof.
  split; [vm_compute; reflexivity|].
  apply (@pattern_recognition_without_match_raises Sample.blank Sample.named
           "my-model" "./empty.json" Demo.world0 []
           [("GPTTokenizer", "gpt"); ("BertTokenizer", "bert"); ("BartTokenizer", "bart")]).
  - reflexivity.
  - reflexivity.
  - reflexivity.
  - intros key pattern Hin Hocc. apply contains_occurs in Hocc.
    simpl in Hin. destruct Hin as [Heq|[Heq|[Heq|[]]]]; inversion Heq; subst;
      vm_compute in Hocc; discriminate Hocc.
Defined.

(** ** The table of known identifiers *)

Lemma names_eqb_spec a b : reflect (a = b) (names_eqb a b).
Proof. unfold names_eqb. destruct (list_eq_dec string_dec a b); now constructor. Qed.

Section KnownIdentifiersComplete.
Variable E : Env.

(** What the table under construction has gained once a list of reference
    names is processed: every key it had, and the identifiers of each of
    those classes. *)
Lemma get_configurations_keys_complete class_name :
  forall all_tokenizers acc result,
    get_configurations_keys E class_name all_tokenizers acc = Ok result ->
    NoDup (keys acc) ->
    NoDup (keys result)
    /\ (forall names, In names (keys acc) -> In names (keys result))
    /\ (forall key,
           In key all_tokenizers ->
           exists import_class c,
             importlib_import_module E
               ("paddlenlp.transformers." ++ class_name ++ ".tokenizer") = Some import_class
             /\ import_class key = Some (VClass c)
             /\ In (pretrained_init_configuration c) (keys result)).
Proof.
  intros all_tokenizers.
  induction all_tokenizers as [|key rest IH]; intros acc result Hrun Hnd;
    cbn [get_configurations_keys] in Hrun.
  - inversion Hrun; subst. repeat split; auto. intros key [].
  - destruct (importlib_import_module E
                ("paddlenlp.transformers." ++ class_name ++ ".tokenizer"))
      as [import_class|] eqn:Himport; [|discriminate].
    destruct (import_class key) as [[| | | | | | | |c|]|] eqn:Hattr; try discriminate.
    apply IH in Hrun; [|now apply (@NoDup_set _ _ _ names_eqb_spec)].
    destruct Hrun as (Hnd' & Hgrow & Hall). split; [exact Hnd'|]. split.
    + intros names Hin. apply Hgrow. apply (@keys_set _ _ _ names_eqb_spec). now right.
    + intros key' [<-|Hin]; [|now apply Hall].
      exists import_class, c. repeat split; auto.
      apply Hgrow. apply (@keys_set _ _ _ names_eqb_spec). now left.
Qed.

Lemma get_configurations_items_complete :
  forall items acc result,
    get_configurations_items E items acc = Ok result ->
    NoDup (keys acc) ->
    NoDup (keys result)
    /\ (forall names, In names (keys acc) -> In names (keys result))
    /\ (forall class_name values key,
           In (class_name, values) items ->
           In key (get_mapping_tokenizers values false) ->
           exists import_class c,
             importlib_import_module E
               ("paddlenlp.transformers." ++ class_name ++ ".tokenizer") = Some import_class
             /\ import_class key = Some (VClass c)
             /\ In (pretrained_init_configuration c) (keys result)).
Proof.
  intros items.
  induction items as [|[class_name values] rest IH]; intros acc result Hrun Hnd;
    cbn [get_configurations_items] in Hrun.
  - inversion Hrun; subst. repeat split; auto. intros ? ? ? [].
  - destruct (get_configurations_keys E class_name (get_mapping_tokenizers values false) acc)
      as [acc'|e] eqn:Hkeys; [|discriminate].
    destruct (get_configurations_keys_complete class_name _ _ Hkeys Hnd)
      as (Hnd' & Hgrow & Hhere).
    destruct (IH _ _ Hrun Hnd') as (Hnd'' & Hgrow' & Hlater).
    split; [exact Hnd''|]. split; [auto|].
    intros class_name' values' key [Heq|Hin] Hkey.
    + inversion Heq; subst.
      destruct (Hhere key Hkey) as (import_class & c & Himport & Hattr & Hids).
      exists import_class, c. auto.
    + now apply (Hlater class_name' values' key).
Qed.

End KnownIdentifiersComplete.

(** X23. When [get_configurations] succeeds, the table it returns has no
    key twice, and each of its entries pairs a class -- the attribute of an
    architecture's [tokenizer] module named by a reference name of the
    architecture table -- with exactly the identifiers that class
    declares. *)
Theorem known_identifier_table_is_sound :
  forall (E : Env) (MAPPING_NAMES : list (list string * TokClass)),
    get_configurations E = Ok MAPPING_NAMES ->
    NoDup (keys MAPPING_NAMES)
    /\ forall names c,
        In (names, c) MAPPING_NAMES ->
        names = pretrained_init_configuration c /\ registered_reference_class E c.
Proof.
  intros E MAPPING_NAMES Hrun. split.
  - destruct (@get_configurations_items_complete E (TOKENIZER_MAPPING_NAMES E) []
                MAPPING_NAMES Hrun) as (Hnd & _); [constructor | exact Hnd].
  - intros names c Hin. now apply (get_configurations_entries E names c Hrun).
Qed.

Lemma known_identifier_table_is_sound_witness :
  exists MAPPING_NAMES,
    get_configurations Sample.installed = Ok MAPPING_NAMES
    /\ NoDup (keys MAPPING_NAMES)
    /\ In (["berttokenizer"],
           Sample.generic_class "paddlenlp.transformers.bert.tokenizer" "BertTokenizer")
         MAPPING_NAMES.
Proof.
  destruct (get_configurations Sample.installed) as [m|e] eqn:Hrun;
    [|vm_compute in Hrun; discriminate Hrun].
  exists m. split; [reflexivity|].
  destruct (@known_identifier_table_is_sound Sample.installed m Hrun) as [Hnd _].
  split; [exact Hnd|].
  vm_compute in Hrun. inversion Hrun. simpl. tauto.
Defined.

(** X24. When [get_configurations] succeeds, every reference name of every
    architecture was imported as a class from the architecture's
    [tokenizer] module, and every identifier such a class declares is in
    the table: [from_pretrained] treats it as a built-in name.  (The entry
    it is found in belongs to the last class that declares the same tuple
    of identifiers.) *)
Theorem known_identifier_table_is_complete :
  forall (E : Env) (MAPPING_NAMES : list (list string * TokClass))
         (class_name : string) (values : MappingNames) (key : string),
    get_configurations E = Ok MAPPING_NAMES ->
    In (class_name, values) (TOKENIZER_MAPPING_NAMES E) ->
    In key (get_mapping_tokenizers values false) ->
    exists import_class c,
      importlib_import_module E ("paddlenlp.transformers." ++ class_name ++ ".tokenizer")
      = Some import_class
      /\ import_class key = Some (VClass c)
      /\ forall identifier,
          In identifier (pretrained_init_configuration c) ->
          In identifier (flat_map fst MAPPING_NAMES).
Proof.
  intros E MAPPING_NAMES class_name values key Hrun Hin Hkey.
  destruct (@get_configurations_items_complete E (TOKENIZER_MAPPING_NAMES E) []
              MAPPING_NAMES Hrun) as (_ & _ & Hall); [constructor|].
  destruct (Hall class_name values key Hin Hkey) as (import_class & c & Himport & Hattr & Hids).
  exists import_class, c. repeat split; auto.
  intros identifier Hdeclared. apply in_flat_map.
  unfold keys in Hids. apply in_map_iff in Hids. destruct Hids as ([names c'] & Heq & Hentry).
  simpl in Heq. subst names. now exists (pretrained_init_configuration c, c').
Qed.

Lemma known_identifier_table_is_complete_witness :
  exists MAPPING_NAMES import_class c,
    get_configurations Sample.installed = Ok MAPPING_NAMES
    /\ importlib_import_module Sample.installed "paddlenlp.transformers.gpt.tokenizer"
       = Some import_class
    /\ import_class "GPTChineseTokenizer" = Some (VClass c)
    /\ forall identifier,
        In identifier (pretrained_init_configuration c) ->
        In identifier (flat_map fst MAPPING_NAMES).
Proof.
  destruct (get_configurations Sample.installed) as [m|e] eqn:Hrun;
    [|vm_compute in Hrun; discriminate Hrun].
  destruct (@known_identifier_table_is_complete Sample.installed m "gpt"
              (SlowFast (Many ["GPTTokenizer"; "GPTChineseTokenizer"]) None)
              "GPTChineseTokenizer" Hrun) as (import_class & c & Himport & Hattr & Hids).
  - simpl. tauto.
  - simpl. tauto.
  - exists m, import_class, c. auto.
Defined.

(** ** The inverted configuration table *)

Lemma inverted_keeps (items : list (string * string)) :
  forall (acc : list (string * string)) (v k : string),
    Dict.get acc v = Some k ->
    (forall k', ~ In (k', v) items) ->
    Dict.get (fold_left (fun d (item : string * string) => Dict.set d (snd item) (fst item))
                items acc) v = Some k.
Proof.
  induction items as [|[k0 v0] rest IH]; intros acc v k Hget Hnone; simpl; [exact Hget|].
  apply IH.
  - unfold Dict.get, Dict.set in *. simpl.
    rewrite (@odict_get_set_other _ _ _ String.eqb_spec); [exact Hget|].
    intros ->. apply (Hnone k0). now left.
  - intros k' Hin. apply (Hnone k'). now right.
Qed.

(** X25. [CONFIG_TO_TYPE] maps a configuration class name to the model
    type of the last entry of [CONFIG_MAPPING_NAMES] that carries it: when
    no two model types share a class name the inversion is exact, and when
    some do the later one silently wins. *)
Theorem CONFIG_TO_TYPE_keeps_the_last_model_type :
  forall (before after : list (string * string)) (model_type config_class : string),
    (forall other, ~ In (other, config_class) after) ->
    Dict.get (CONFIG_TO_TYPE (before ++ (model_type, config_class) :: after)%list) config_class
    = Some model_type.
Proof.
  intros before after model_type config_class Hlast.
  unfold CONFIG_TO_TYPE. rewrite fold_left_app. simpl.
  apply inverted_keeps; [|exact Hlast].
  unfold Dict.get, Dict.set. apply (@odict_get_set_same _ _ _ String.eqb_spec).
Qed.

Lemma CONFIG_TO_TYPE_keeps_the_last_model_type_witness :
  Dict.get (CONFIG_TO_TYPE [("bert", "BertConfig"); ("gpt", "GPTConfig");
                            ("bert_japanese", "BertConfig"); ("t5", "T5Config")])
    "BertConfig"
  = Some "bert_japanese".
Proof.
  apply (@CONFIG_TO_TYPE_keeps_the_last_model_type
           [("bert", "BertConfig"); ("gpt", "GPTConfig")] [("t5", "T5Config")]
           "bert_japanese" "BertConfig").
  intros other [Heq|[]]. discriminate Heq.
Defined.
